(** * av-licensing: the license lifecycle scripts, embedded and verified

    The five scripts under [scripts/] are embedded module by module:
    [validate-version.py], [validate-request.py], [generate-license.py],
    [check-expiring-licenses.py] and [auto-reactivate.py].  The first part of
    the file holds the definitions (Python builtins the scripts call, then the
    scripts themselves), the second part the lemmas and theorems. *)

From Stdlib Require Import ZArith String Ascii List Bool Lia.
From Stdlib Require Import Floats.SpecFloat.
From stdpp Require Import base option list gmap strings.

Local Open Scope Z_scope.

(** ** Python values and exceptions *)

(** The exceptions the scripts can meet.  [SystemExit] carries the line the
    script prints on stderr before [sys.exit(1)]. *)
Inductive exn : Type :=
  | KeyError (key : string)
  | AttributeError
  | TypeError
  | ValueError
  | OverflowError
  | NameError (name : string)
  | SystemExit (stderr : string).

(** A call either returns or raises. *)
Inductive result (A : Type) : Type :=
  | Ok (a : A)
  | Raise (e : exn).
Arguments Ok {A} a.
Arguments Raise {A} e.

(** ** [str] builtins

    A Python [str] is modelled as a [string]: a sequence of code points below
    256, one [ascii] each. *)
Module PyStr.

Definition code (c : ascii) : N := N_of_ascii c.

(** [str.isspace] on one code point: TAB..CR, FS..US, SPACE, NEL, NBSP. *)
Definition isspace (c : ascii) : bool :=
  let n := code c in
  ((9 <=? n) && (n <=? 13) || (28 <=? n) && (n <=? 32)
   || (n =? 133) || (n =? 160))%N.

Definition isdigit (c : ascii) : bool :=
  let n := code c in ((48 <=? n) && (n <=? 57))%N.

Definition isupper_ascii (c : ascii) : bool :=
  let n := code c in ((65 <=? n) && (n <=? 90))%N.

Definition islower_ascii (c : ascii) : bool :=
  let n := code c in ((97 <=? n) && (n <=? 122))%N.

Definition isalpha_ascii (c : ascii) : bool :=
  isupper_ascii c || islower_ascii c.

Definition isalnum_ascii (c : ascii) : bool :=
  isalpha_ascii c || isdigit c.

(** [str.lower] on one code point: A-Z, and the Latin-1 capitals
    U+00C0..U+00DE except the multiplication sign U+00D7. *)
Definition lower_char (c : ascii) : ascii :=
  let n := code c in
  if isupper_ascii c
     || ((192 <=? n) && (n <=? 222) && negb (n =? 215))%N
  then ascii_of_N (n + 32) else c.

(** [str.upper] on one code point, for the ASCII letters (the only ones a
    hexadecimal digest holds). *)
Definition upper_char (c : ascii) : ascii :=
  if islower_ascii c then ascii_of_N (code c - 32) else c.

Fixpoint lower (s : string) : string :=
  match s with
  | EmptyString => EmptyString
  | String c r => String (lower_char c) (lower r)
  end.

Fixpoint upper (s : string) : string :=
  match s with
  | EmptyString => EmptyString
  | String c r => String (upper_char c) (upper r)
  end.

(** The string without the leading, then without the trailing characters
    of the class [ws]. *)
Fixpoint lstrip_of (ws : ascii -> bool) (s : string) : string :=
  match s with
  | String c r => if ws c then lstrip_of ws r else s
  | EmptyString => EmptyString
  end.

Fixpoint rstrip_of (ws : ascii -> bool) (s : string) : string :=
  match s with
  | String c r =>
      match rstrip_of ws r with
      | EmptyString => if ws c then EmptyString else String c EmptyString
      | r' => String c r'
      end
  | EmptyString => EmptyString
  end.

(** [s.strip()] *)
Definition strip (s : string) : string :=
  rstrip_of isspace (lstrip_of isspace s).

(** [s.split(sep)] for a one-character separator; never the empty list. *)
Fixpoint split (sep : ascii) (s : string) : list string :=
  match s with
  | EmptyString => [EmptyString]
  | String c r =>
      if Ascii.eqb c sep then EmptyString :: split sep r
      else match split sep r with
           | h :: t => String c h :: t
           | [] => [String c EmptyString]
           end
  end.

Fixpoint startswith (p s : string) : bool :=
  match p, s with
  | EmptyString, _ => true
  | String a p', String b s' => Ascii.eqb a b && startswith p' s'
  | String _ _, EmptyString => false
  end.

(** [p in s] *)
Fixpoint contains (p s : string) : bool :=
  startswith p s ||
  match s with
  | EmptyString => false
  | String _ r => contains p r
  end.

(** [s.replace(c, t)] for a one-character pattern [c]. *)
Fixpoint replace (c : ascii) (t : string) (s : string) : string :=
  match s with
  | EmptyString => EmptyString
  | String a r =>
      if Ascii.eqb a c then t +:+ replace c t r else String a (replace c t r)
  end.

(** [s[:n]] *)
Fixpoint take (n : nat) (s : string) : string :=
  match n, s with
  | S n', String c r => String c (take n' r)
  | _, _ => EmptyString
  end.

(** Truthiness of a [str]. *)
Definition truthy (s : string) : bool :=
  match s with EmptyString => false | _ => true end.

Definition digit_value (c : ascii) : Z := Z.of_N (code c) - 48.

(** The digits of [int(str)] in base ten: a digit first, then digits,
    each optionally preceded by one underscore. *)
Fixpoint int_digits (acc : Z) (after_digit : bool) (s : string) : option Z :=
  match s with
  | EmptyString => if after_digit then Some acc else None
  | String c r =>
      if isdigit c then int_digits (10 * acc + digit_value c) true r
      else if Ascii.eqb c "_" && after_digit then int_digits acc false r
      else None
  end.

(** The whitespace [int] drops around a number: that of [isspace] without
    the separators FS..US. *)
Definition int_space (c : ascii) : bool :=
  let n := code c in
  ((9 <=? n) && (n <=? 13) || (n =? 32) || (n =? 133) || (n =? 160))%N.

(** The number that the text [s] writes in base ten: surrounding whitespace
    is dropped, one sign is allowed; [None] when [s] writes no number. *)
Definition int_literal (s : string) : option Z :=
  match rstrip_of int_space (lstrip_of int_space s) with
  | String "+" r => int_digits 0 false r
  | String "-" r => Z.opp <$> int_digits 0 false r
  | body => int_digits 0 false body
  end.

(** [sys.int_info.default_max_str_digits], the value of
    [sys.get_int_max_str_digits()] in a run that does not change it. *)
Definition int_max_str_digits : Z := 4300.

(** The digits of [s]; underscores, sign and whitespace do not count. *)
Fixpoint count_digits (s : string) : Z :=
  match s with
  | EmptyString => 0
  | String c r => (if isdigit c then 1 else 0) + count_digits r
  end.

(** [int(s)]: a text with more than [int_max_str_digits] digits is refused,
    whatever it writes; [None] stands for the [ValueError] of both
    refusals. *)
Definition int (s : string) : option Z :=
  if int_max_str_digits <? count_digits s then None else int_literal s.

End PyStr.

(** ** The [re] module

    The patterns of the scripts use literal text, quantified character
    classes, capture groups that are not nested, and [$].  The matcher is the
    backtracking one of [re]: alternatives are tried in order and the first
    success wins.  A leading [^] under [re.match] adds nothing and is left
    out of the patterns. *)
Module Re.

Inductive re : Type :=
  | Lit (text : string)
  | Rep (cls : ascii -> bool) (lo : nat) (hi : option nat) (greedy : bool)
  | Cat (r1 r2 : re)
  | Group (r : re)
  | Eol.

Definition nl : ascii := ascii_of_N 10.

(** [.] and [[^\n]] *)
Definition dot (c : ascii) : bool := negb (Ascii.eqb c nl).
(** [\s] *)
Definition space (c : ascii) : bool := PyStr.isspace c.
Definition one_of (chars : string) (c : ascii) : bool :=
  PyStr.contains (String c EmptyString) chars.

Definition star (cls : ascii -> bool) : re := Rep cls 0 None true.
Definition plus (cls : ascii -> bool) : re := Rep cls 1 None true.
Definition plus_lazy (cls : ascii -> bool) : re := Rep cls 1 None false.
Definition exactly (n : nat) (cls : ascii -> bool) : re :=
  Rep cls n (Some n) true.
Definition at_least (n : nat) (cls : ascii -> bool) : re :=
  Rep cls n None true.

Definition char_eq (ignorecase : bool) (a b : ascii) : bool :=
  if ignorecase then Ascii.eqb (PyStr.lower_char a) (PyStr.lower_char b)
  else Ascii.eqb a b.

(** The subject with the literal [p] removed from its front. *)
Fixpoint drop_literal (ignorecase : bool) (p s : string) : option string :=
  match p, s with
  | EmptyString, _ => Some s
  | String a p', String b s' =>
      if char_eq ignorecase a b then drop_literal ignorecase p' s' else None
  | String _ _, EmptyString => None
  end.

Definition may_take (hi : option nat) : bool :=
  match hi with Some O => false | _ => true end.
Definition one_less (hi : option nat) : option nat := Nat.pred <$> hi.

Section Matcher.
Context {A : Type}.

(** Greedy repetition: take one more character first, give it back when
    the rest of the pattern fails. *)
Fixpoint rep_greedy (cls : ascii -> bool) (lo : nat) (hi : option nat)
    (s : string) (k : string -> option A) : option A :=
  let stop := match lo with O => k s | S _ => None end in
  match s with
  | String c r =>
      if cls c && may_take hi then
        match rep_greedy cls (Nat.pred lo) (one_less hi) r k with
        | Some a => Some a
        | None => stop
        end
      else stop
  | EmptyString => stop
  end.

(** Lazy repetition: stop as soon as allowed, take one more character
    when the rest of the pattern fails. *)
Fixpoint rep_lazy (cls : ascii -> bool) (lo : nat) (hi : option nat)
    (s : string) (k : string -> option A) : option A :=
  match (match lo with O => k s | S _ => None end) with
  | Some a => Some a
  | None =>
      match s with
      | String c r =>
          if cls c && may_take hi
          then rep_lazy cls (Nat.pred lo) (one_less hi) r k
          else None
      | EmptyString => None
      end
  end.

(** What was read between the subject [s] and its suffix [rest]. *)
Definition consumed (s rest : string) : string :=
  PyStr.take (String.length s - String.length rest) s.

(** [run r s caps k]: match [r] at the front of [s], then hand the rest
    of the subject and the groups closed so far to [k]. *)
Fixpoint run (ignorecase : bool) (r : re) (s : string)
    (caps : list string) (k : string -> list string -> option A)
  : option A :=
  match r with
  | Lit p =>
      match drop_literal ignorecase p s with
      | Some rest => k rest caps
      | None => None
      end
  | Rep cls lo hi true => rep_greedy cls lo hi s (fun rest => k rest caps)
  | Rep cls lo hi false => rep_lazy cls lo hi s (fun rest => k rest caps)
  | Cat r1 r2 =>
      run ignorecase r1 s caps
        (fun rest caps' => run ignorecase r2 rest caps' k)
  | Group r1 =>
      run ignorecase r1 s caps
        (fun rest caps' => k rest (caps' ++ [consumed s rest]))
  | Eol =>
      match s with
      | EmptyString => k s caps
      | String c EmptyString => if Ascii.eqb c nl then k s caps else None
      | _ => None
      end
  end.
End Matcher.

(** [re.match(r, s)]: the groups of a match at the start of [s]. *)
Definition re_match (ignorecase : bool) (r : re) (s : string)
  : option (list string) :=
  run ignorecase r s [] (fun _ caps => Some caps).

(** [re.search(r, s)]: the groups of the leftmost match. *)
Fixpoint re_search (ignorecase : bool) (r : re) (s : string)
  : option (list string) :=
  match re_match ignorecase r s with
  | Some caps => Some caps
  | None =>
      match s with
      | String _ s' => re_search ignorecase r s'
      | EmptyString => None
      end
  end.

(** [m.group(1)] and [m.group(2)] *)
Definition group1 (m : list string) : string := nth 0 m EmptyString.
Definition group2 (m : list string) : string := nth 1 m EmptyString.

End Re.

Declare Scope re_scope.
Delimit Scope re_scope with re.
Infix "+>" := Re.Cat (at level 60, right associativity) : re_scope.

(** ** The [datetime] module *)
Module DateTime.

Definition us_per_second : Z := 1000000.
Definition us_per_minute : Z := 60 * us_per_second.
Definition us_per_hour : Z := 60 * us_per_minute.
Definition us_per_day : Z := 24 * us_per_hour.

(** [date.max.toordinal()]: the days from 0001-01-01 to 9999-12-31. *)
Definition max_ordinal : Z := 3652059.

(** A [datetime] is its wall-clock reading in microseconds since
    0001-01-01T00:00:00; an aware one also carries its UTC offset, in
    microseconds. *)
Inductive datetime : Type :=
  | Naive (ticks : Z)
  | Aware (ticks : Z) (utcoffset : Z).

Definition ticks (d : datetime) : Z :=
  match d with Naive t => t | Aware t _ => t end.

Definition with_ticks (d : datetime) (t : Z) : datetime :=
  match d with Naive _ => Naive t | Aware _ o => Aware t o end.

(** Years 1 to 9999. *)
Definition representable (t : Z) : bool :=
  (0 <=? t) && (t <? max_ordinal * us_per_day).

(** [d + timedelta(days=n)]: [timedelta] refuses more than 999999999 days,
    the sum refuses to leave the years 1..9999; both raise
    [OverflowError]. *)
Definition add_days (d : datetime) (n : Z) : result datetime :=
  if Z.abs n >? 999999999 then Raise OverflowError
  else
    let t := ticks d + n * us_per_day in
    if representable t then Ok (with_ticks d t) else Raise OverflowError.

(** [a <= b]: two naive readings compare as such, two aware ones by their
    UTC instants, and a naive one with an aware one raises [TypeError]. *)
Definition le (a b : datetime) : result bool :=
  match a, b with
  | Naive x, Naive y => Ok (x <=? y)
  | Aware x ox, Aware y oy => Ok (x - ox <=? y - oy)
  | _, _ => Raise TypeError
  end.

(** *** The proleptic Gregorian calendar *)

Definition is_leap (y : Z) : bool :=
  (y mod 4 =? 0) && (negb (y mod 100 =? 0) || (y mod 400 =? 0)).

Definition days_in_month (y m : Z) : Z :=
  if m =? 2 then (if is_leap y then 29 else 28)
  else if (m =? 4) || (m =? 6) || (m =? 9) || (m =? 11) then 30
  else 31.

Definition days_before_year (y : Z) : Z :=
  let p := y - 1 in p * 365 + p / 4 - p / 100 + p / 400.

Fixpoint days_before_month_from (y m : Z) (months : nat) : Z :=
  match months with
  | O => 0
  | S k => days_in_month y m + days_before_month_from y (m + 1) k
  end.

Definition days_before_month (y m : Z) : Z :=
  days_before_month_from y 1 (Z.to_nat (m - 1)).

(** The ordinal of a date, 0001-01-01 being day 1. *)
Definition ymd2ord (y m d : Z) : Z :=
  days_before_year y + days_before_month y m + d.

Fixpoint month_of (y m n : Z) (months : nat) : Z * Z * Z :=
  match months with
  | O => (y, m, n + 1)
  | S k =>
      if n <? days_in_month y m then (y, m, n + 1)
      else month_of y (m + 1) (n - days_in_month y m) k
  end.

(** The date of an ordinal, by 400-, 100-, 4- and 1-year cycles. *)
Definition ord2ymd (ordinal : Z) : Z * Z * Z :=
  let n := ordinal - 1 in
  let n400 := n / 146097 in
  let n := n mod 146097 in
  let n100 := n / 36524 in
  let n := n mod 36524 in
  let n4 := n / 1461 in
  let n := n mod 1461 in
  let n1 := n / 365 in
  let n := n mod 365 in
  let year := n400 * 400 + 1 + n100 * 100 + n4 * 4 + n1 in
  if (n1 =? 4) || (n100 =? 4) then (year - 1, 12, 31)
  else month_of year 1 n 11.

(** *** Writing and reading the ISO format *)

Definition digit_char (n : Z) : ascii := ascii_of_N (Z.to_N (48 + n mod 10)).

(** [%0<width>d] *)
Fixpoint zero_padded (width : nat) (n : Z) : string :=
  match width with
  | O => EmptyString
  | S w => zero_padded w (n / 10) +:+ String (digit_char n) EmptyString
  end.

(** [HH:MM:SS], then [.ffffff] when the microseconds are not zero. *)
Definition format_time (t : Z) : string :=
  let us := t mod us_per_second in
  zero_padded 2 (t / us_per_hour) +:+ ":"
  +:+ zero_padded 2 (t mod us_per_hour / us_per_minute) +:+ ":"
  +:+ zero_padded 2 (t mod us_per_minute / us_per_second)
  +:+ (if us =? 0 then EmptyString else "." +:+ zero_padded 6 us).

(** [+HH:MM], then [:SS] and [.ffffff] when they are not zero. *)
Definition format_offset (off : Z) : string :=
  let a := Z.abs off in
  let us := a mod us_per_second in
  let ss := a mod us_per_minute / us_per_second in
  (if off <? 0 then "-" else "+")
  +:+ zero_padded 2 (a / us_per_hour) +:+ ":"
  +:+ zero_padded 2 (a mod us_per_hour / us_per_minute)
  +:+ (if (ss =? 0) && (us =? 0) then EmptyString
       else ":" +:+ zero_padded 2 ss
            +:+ (if us =? 0 then EmptyString else "." +:+ zero_padded 6 us)).

(** [d.isoformat()] *)
Definition isoformat (d : datetime) : string :=
  let t := ticks d in
  let '(y, m, dd) := ord2ymd (t / us_per_day + 1) in
  zero_padded 4 y +:+ "-" +:+ zero_padded 2 m +:+ "-" +:+ zero_padded 2 dd
  +:+ "T" +:+ format_time (t mod us_per_day)
  +:+ match d with
      | Naive _ => EmptyString
      | Aware _ off => format_offset off
      end.

(** *** Reading the ISO format

    [datetime.fromisoformat] as Python 3.11 and later have it, in C: it
    works on the UTF-8 bytes of the text, which a NUL byte follows.  A
    position [p] in the bytes is given here by the bytes from [p] on, and the
    end of a part by the number of bytes behind it. *)

(** The UTF-8 bytes of a [str] of code points below 256. *)
Fixpoint utf8 (s : string) : string :=
  match s with
  | EmptyString => EmptyString
  | String c r =>
      let n := PyStr.code c in
      if (n <? 128)%N then String c (utf8 r)
      else String (ascii_of_N (192 + n / 64))
             (String (ascii_of_N (128 + n mod 64)) (utf8 r))
  end.

Definition nul : ascii := ascii_of_N 0.

(** [*p], [p + 1] and [p + n]. *)
Definition peek (p : string) : ascii :=
  match p with String c _ => c | EmptyString => nul end.
Definition next (p : string) : string :=
  match p with String _ r => r | EmptyString => EmptyString end.
Fixpoint skip (n : nat) (p : string) : string :=
  match n with O => p | S n' => skip n' (next p) end.

(** [parse_digits(p, &var, num_digits)]: exactly [num_digits] decimal
    digits. *)
Fixpoint parse_digits (num_digits : nat) (var : Z) (p : string)
  : option (Z * string) :=
  match num_digits with
  | O => Some (var, p)
  | S n =>
      match p with
      | String c r =>
          if PyStr.isdigit c
          then parse_digits n (10 * var + PyStr.digit_value c) r
          else None
      | EmptyString => None
      end
  end.

(** The loop that skips digits, and the number of its turns. *)
Fixpoint skip_digits (p : string) : string :=
  match p with
  | String c r => if PyStr.isdigit c then skip_digits r else p
  | EmptyString => EmptyString
  end.

Definition digit_run (p : string) : nat :=
  (String.length p - String.length (skip_digits p))%nat.

(** [_find_isoformat_datetime_separator]: where the date ends, told from
    the bytes 4, 5, 8 and 10 and from the length; [None] is its [-1]. *)
Definition find_isoformat_datetime_separator (dtstr : string) : option nat :=
  let len := String.length dtstr in
  if (len =? 7)%nat then Some 7%nat
  else if Ascii.eqb (peek (skip 4 dtstr)) "-" then
    if Ascii.eqb (peek (skip 5 dtstr)) "W" then
      if (len <? 8)%nat then None
      else if (8 <? len)%nat && Ascii.eqb (peek (skip 8 dtstr)) "-" then
        if (len =? 9)%nat then None
        else if (10 <? len)%nat && PyStr.isdigit (peek (skip 10 dtstr))
        then Some 8%nat
        else Some 10%nat
      else Some 8%nat
    else Some 10%nat
  else if Ascii.eqb (peek (skip 4 dtstr)) "W" then
    let idx := (7 + digit_run (skip 7 dtstr))%nat in
    if (idx <? 9)%nat then Some idx
    else if Nat.even idx then Some 7%nat else Some 8%nat
  else Some 8%nat.

(** [weekday(year, 1, 1)], Monday being 0, and [iso_week1_monday]. *)
Definition first_weekday (year : Z) : Z := (ymd2ord year 1 1 + 6) mod 7.

Definition iso_week1_monday (year : Z) : Z :=
  let week1_monday := ymd2ord year 1 1 - first_weekday year in
  if first_weekday year >? 3 then week1_monday + 7 else week1_monday.

(** [iso_to_ymd]: the date of a day of an ISO week.  (Year 0 never gives a
    date the constructor accepts.) *)
Definition iso_to_ymd (iso_year iso_week iso_day : Z) : option (Z * Z * Z) :=
  if iso_year <? 1 then None
  else if (iso_week <=? 0) || (53 <? iso_week) then None
  else if (iso_week =? 53)
          && negb ((first_weekday iso_year =? 3)
                   || (first_weekday iso_year =? 2) && is_leap iso_year)
  then None
  else if (iso_day <=? 0) || (8 <=? iso_day) then None
  else Some (ord2ymd (iso_week1_monday iso_year
                      + (iso_week - 1) * 7 + iso_day - 1)).

(** The hyphen that a date with hyphens has between its parts. *)
Definition date_separator (uses_separator : bool) (p : string)
  : option string :=
  if uses_separator
  then (if Ascii.eqb (peek p) "-" then Some (next p) else None)
  else Some p.

(** [parse_isoformat_date(dtstr, len, ...)]: [YYYY-MM-DD], [YYYYMMDD],
    [YYYY-Www[-D]] or [YYYYWww[D]]. *)
Definition parse_isoformat_date (dtstr : string) (len : nat)
  : option (Z * Z * Z) :=
  '(year, p) ← parse_digits 4 0 dtstr;
  let uses_separator := Ascii.eqb (peek p) "-" in
  let p := if uses_separator then next p else p in
  if Ascii.eqb (peek p) "W" then
    '(iso_week, p) ← parse_digits 2 0 (next p);
    '(iso_day, _) ←
      (if (String.length dtstr - String.length p <? len)%nat
       then p ← date_separator uses_separator p; parse_digits 1 0 p
       else Some (1, p));
    iso_to_ymd year iso_week iso_day
  else
    '(month, p) ← parse_digits 2 0 p;
    p ← date_separator uses_separator p;
    '(day, _) ← parse_digits 2 0 p;
    Some (year, month, day).

(** The fraction of [parse_hh_mm_ss_ff]: up to six digits are read as
    microseconds, further digits are skipped.  With the microseconds comes
    whether a byte other than NUL follows. *)
Definition parse_ff (p : string) (behind : nat) : option (Z * bool) :=
  let len_remains := (String.length p - behind)%nat in
  let to_parse := Nat.min len_remains 6 in
  '(microsecond, p) ← parse_digits to_parse 0 p;
  Some (microsecond * 10 ^ Z.of_nat (6 - to_parse),
        negb (Ascii.eqb (peek (skip_digits p)) nul)).

(** The loop of [parse_hh_mm_ss_ff] over hour, minute and second, [todo]
    of which are still to read into [vals]. *)
Fixpoint parse_hh_mm_ss (todo : nat) (has_separator : option bool)
    (vals : list Z) (p : string) (behind : nat)
  : option (list Z * Z * bool) :=
  match todo with
  | O => '(microsecond, more) ← parse_ff p behind;
         Some (vals, microsecond, more)
  | S todo' =>
      '(val, p) ← parse_digits 2 0 p;
      let c := peek p in
      let has_separator :=
        match has_separator with
        | None => Ascii.eqb c ":"
        | Some b => b
        end in
      let vals := vals ++ [val] in
      if (String.length (next p) <=? behind)%nat
      then Some (vals, 0, negb (Ascii.eqb c nul))
      else if has_separator && Ascii.eqb c ":"
      then parse_hh_mm_ss todo' (Some has_separator) vals (next p) behind
      else if Ascii.eqb c "." || Ascii.eqb c ","
      then '(microsecond, more) ← parse_ff (next p) behind;
           Some (vals, microsecond, more)
      else if negb has_separator
      then parse_hh_mm_ss todo' (Some has_separator) vals p behind
      else None
  end.

(** [parse_hh_mm_ss_ff(tstr, tstr_end, ...)]: hour, minute, second and
    microsecond of [HH[:MM[:SS]]] or [HH[MM[SS]]] with its fraction, and
    whether the part ended before a byte other than NUL. *)
Definition parse_hh_mm_ss_ff (tstr : string) (behind : nat)
  : option (Z * Z * Z * Z * bool) :=
  '(vals, microsecond, more) ← parse_hh_mm_ss 3 None [] tstr behind;
  Some (nth 0 vals 0, nth 1 vals 0, nth 2 vals 0, microsecond, more).

(** The bytes from the first [Z], [+] or [-] on. *)
Fixpoint tzinfo_pos (p : string) : string :=
  match p with
  | String c r =>
      if Ascii.eqb c "Z" || Ascii.eqb c "+" || Ascii.eqb c "-" then p
      else tzinfo_pos r
  | EmptyString => EmptyString
  end.

(** [parse_isoformat_time]: the time, and the offset in seconds and
    microseconds when there is one. *)
Definition parse_isoformat_time (dtstr : string)
  : option (Z * Z * Z * Z * option (Z * Z)) :=
  let tz := tzinfo_pos dtstr in
  '(hour, minute, second, microsecond, more) ←
    (match dtstr with
     | String _ _ => parse_hh_mm_ss_ff dtstr (String.length tz)
     | EmptyString => None
     end);
  tzinfo ←
    match tz with
    | EmptyString => if more : bool then None else Some (@None (Z * Z))
    | String sign tzstr =>
        if Ascii.eqb sign "Z" then
          if Ascii.eqb (peek tzstr) nul then Some (Some (0, 0)) else None
        else
          let tzsign := if Ascii.eqb sign "-" then -1 else 1 in
          '(tzhour, tzminute, tzsecond, tzmicrosecond, more) ←
            parse_hh_mm_ss_ff tzstr 0;
          if more : bool then None
          else Some (Some (tzsign * (tzhour * 3600 + tzminute * 60 + tzsecond),
                           tzsign * tzmicrosecond))
    end;
  Some (hour, minute, second, microsecond, tzinfo).

(** [datetime.fromisoformat(date_string)]; [None] stands for the
    [ValueError].  The last lines are the checks of the constructors: an
    offset of zero seconds is UTC, any other has to be less than a day, and
    the date and the time have to exist. *)
Definition fromisoformat (date_string : string) : option datetime :=
  let dtstr := utf8 date_string in
  let len := String.length dtstr in
  if (len <? 7)%nat then None
  else
    separator_location ← find_isoformat_datetime_separator dtstr;
    '(year, month, day) ← parse_isoformat_date dtstr separator_location;
    '(hour, minute, second, microsecond, tz) ←
      (if (separator_location <? len)%nat then
         let p := skip separator_location dtstr in
         parse_isoformat_time
           (if (PyStr.code (peek p) <? 128)%N then next p else next (next p))
       else Some (0, 0, 0, 0, @None (Z * Z)));
    if (1 <=? year) && (year <=? 9999) && (1 <=? month) && (month <=? 12)
       && (1 <=? day) && (day <=? days_in_month year month)
       && (hour <? 24) && (minute <? 60) && (second <? 60)
    then
      let t := (ymd2ord year month day - 1) * us_per_day
               + hour * us_per_hour + minute * us_per_minute
               + second * us_per_second + microsecond in
      match tz with
      | None => Some (Naive t)
      | Some (tzoffset, tzmicrosecond) =>
          let offset := tzoffset * us_per_second + tzmicrosecond in
          if tzoffset =? 0 then Some (Aware t 0)
          else if Z.abs offset <? us_per_day then Some (Aware t offset)
          else None
      end
    else None.

(** The reading of a wall clock, for examples. *)
Definition at_time (y m d hh mm ss : Z) : Z :=
  (ymd2ord y m d - 1) * us_per_day
  + hh * us_per_hour + mm * us_per_minute + ss * us_per_second.

End DateTime.

(** ** [float]

    A Python [float] is an IEEE 754 binary64, given here by its sign,
    mantissa and exponent; the sum is the correctly rounded one. *)
Module PyFloat.

Definition float : Type := spec_float.
Definition prec : Z := 53.
Definition emax : Z := 1024.

Definition zero : float := S754_zero false.
Definition one : float := S754_finite false 4503599627370496 (-52).

(** [x + y] and [x == y] *)
Definition add (x y : float) : float := SFadd prec emax x y.
Definition eqb (x y : float) : bool := SFeqb x y.

End PyFloat.

(** ** License records

    What [json.load] returns: [None], a [bool], an [int] of any size, a
    [float], a [str], a [list], or a [dict] with [str] keys.  A license
    record is such a [dict]. *)
#[warnings="-register-all"]
Inductive pyval : Type :=
  | VNone
  | VBool (b : bool)
  | VInt (n : Z)
  | VFloat (x : PyFloat.float)
  | VStr (s : string)
  | VList (items : list pyval)
  | VDict (items : gmap string pyval).

Abbreviation dict := (gmap string pyval).

(** ** [scripts/validate-version.py] *)
Module ValidateVersion.

(** [[int(x) for x in v.split('.')]]; [None] when some [int(x)] raises. *)
Definition parts (v : string) : option (list Z) :=
  mapM PyStr.int (PyStr.split "." v).

(** [while len(xs) < n: xs.append(0)].  Every turn makes [xs] one longer,
    so [n] turns always suffice; [fuel] counts the turns left. *)
Fixpoint pad_loop (fuel : nat) (xs : list Z) (n : nat) : list Z :=
  match fuel with
  | O => xs
  | S fuel' =>
      if (length xs <? n)%nat then pad_loop fuel' (xs ++ [0]) n else xs
  end.

Definition pad (xs : list Z) (n : nat) : list Z := pad_loop n xs n.

(** [for i in range(...)] over the indices still to visit; an index out of
    range is the [IndexError] ([None]). *)
Fixpoint compare_loop (idx : list nat) (v1_parts v2_parts : list Z)
  : option Z :=
  match idx with
  | [] => Some 0
  | i :: idx' =>
      a ← v1_parts !! i;
      b ← v2_parts !! i;
      if a >? b then Some 1
      else if a <? b then Some (-1)
      else compare_loop idx' v1_parts v2_parts
  end.

(** The body of the [try]. *)
Definition compare_versions_try (v1 v2 : string) : option Z :=
  v1_parts ← parts v1;
  v2_parts ← parts v2;
  let v1_parts := pad v1_parts (length v2_parts) in
  let v2_parts := pad v2_parts (length v1_parts) in
  compare_loop (seq 0 (length v1_parts)) v1_parts v2_parts.

(** [compare_versions]: [except Exception] answers 0. *)
Definition compare_versions (v1 v2 : string) : Z :=
  match compare_versions_try v1 v2 with
  | Some r => r
  | None => 0
  end.

(** The version number [([0-9]+\.[0-9]+\.[0-9]+)]. *)
Definition version_number : Re.re :=
  Re.Group (Re.plus PyStr.isdigit +> Re.Lit "." +> Re.plus PyStr.isdigit
            +> Re.Lit "." +> Re.plus PyStr.isdigit)%re.

(** [<label>\s*([0-9]+\.[0-9]+\.[0-9]+)] *)
Definition version_pattern (label : string) : Re.re :=
  (Re.Lit label +> Re.star Re.space +> version_number)%re.

Definition patterns : list Re.re :=
  [ version_pattern "Software Version:";
    version_pattern "Client Version:";
    version_pattern "Version:";
    version_pattern "App Version:" ].

(** [for pattern in patterns: ...] with [re.IGNORECASE]. *)
Fixpoint first_match (ps : list Re.re) (body : string) : option string :=
  match ps with
  | [] => None
  | p :: ps' =>
      match Re.re_search true p body with
      | Some m => Some (Re.group1 m)
      | None => first_match ps' body
      end
  end.

(** [extract_version_from_body(body)] *)
Definition extract_version_from_body (body : string) : option string :=
  if negb (PyStr.truthy body) then None else first_match patterns body.

(** [is_reactivation_request(title, body)] *)
Definition is_reactivation_request (title body : string) : bool :=
  if PyStr.contains "reactivation" (PyStr.lower title) then true
  else if PyStr.contains "auto-reactivation" (PyStr.lower title) then true
  else if PyStr.truthy body
          && PyStr.contains "reactivation" (PyStr.lower body) then true
  else false.

(** The [result] dictionary of [validate_version]; its keys are fixed, so
    it is a record here. *)
Record version_result : Type := {
  valid : bool;
  client_version : string;
  minimum_version : string;
  latest_version : string;
  is_latest : bool;
  is_acceptable : bool;
  is_reactivation : bool;
  message : string;
  warning_only : bool
}.

Definition set_valid (b : bool) (r : version_result) : version_result :=
  {| valid := b; client_version := client_version r;
     minimum_version := minimum_version r;
     latest_version := latest_version r; is_latest := is_latest r;
     is_acceptable := is_acceptable r; is_reactivation := is_reactivation r;
     message := message r; warning_only := warning_only r |}.

Definition set_warning_only (b : bool) (r : version_result) : version_result :=
  {| valid := valid r; client_version := client_version r;
     minimum_version := minimum_version r;
     latest_version := latest_version r; is_latest := is_latest r;
     is_acceptable := is_acceptable r; is_reactivation := is_reactivation r;
     message := message r; warning_only := b |}.

Definition set_message (m : string) (r : version_result) : version_result :=
  {| valid := valid r; client_version := client_version r;
     minimum_version := minimum_version r;
     latest_version := latest_version r; is_latest := is_latest r;
     is_acceptable := is_acceptable r; is_reactivation := is_reactivation r;
     message := m; warning_only := warning_only r |}.

Definition set_is_acceptable (b : bool) (r : version_result) : version_result :=
  {| valid := valid r; client_version := client_version r;
     minimum_version := minimum_version r;
     latest_version := latest_version r; is_latest := is_latest r;
     is_acceptable := b; is_reactivation := is_reactivation r;
     message := message r; warning_only := warning_only r |}.

Definition set_is_latest (b : bool) (r : version_result) : version_result :=
  {| valid := valid r; client_version := client_version r;
     minimum_version := minimum_version r;
     latest_version := latest_version r; is_latest := b;
     is_acceptable := is_acceptable r; is_reactivation := is_reactivation r;
     message := message r; warning_only := warning_only r |}.

(** Truthiness of [client_version], which is [None] or a [str]. *)
Definition provided (client_version : option string) : option string :=
  match client_version with
  | Some v => if PyStr.truthy v then Some v else None
  | None => None
  end.

Definition msg_reactivation_no_version : string :=
  "Reactivation request - version not provided but allowed for existing licenses".
Definition msg_no_version : string :=
  "No software version information provided in request".
Definition msg_reactivation_older (cv latest : string) : string :=
  "Reactivation allowed for version " +:+ cv +:+ ", but please update to "
    +:+ latest +:+ " for latest features".
Definition msg_reactivation_current (cv : string) : string :=
  "Reactivation approved for current version " +:+ cv.
Definition msg_outdated (cv minimum latest : string) : string :=
  "Version " +:+ cv +:+ " is outdated. Minimum required: " +:+ minimum
    +:+ ". Latest: " +:+ latest
    +:+ ". Please update software before activation.".
Definition msg_not_latest (cv latest : string) : string :=
  "Version " +:+ cv +:+ " is acceptable but not latest. Latest version: "
    +:+ latest +:+ ". Consider updating for new features and bug fixes.".
Definition msg_current (cv : string) : string :=
  "Version " +:+ cv +:+ " is current and up to date.".

(** [validate_version] *)
Definition validate_version (cv : option string)
    (minimum latest : string) (is_react allow_older_reactivations : bool)
  : version_result :=
  let result :=
    {| valid := false;
       client_version :=
         match provided cv with Some v => v | None => "unknown" end;
       minimum_version := minimum;
       latest_version := latest;
       is_latest := false;
       is_acceptable := false;
       is_reactivation := is_react;
       message := "";
       warning_only := false |} in
  match provided cv with
  | None =>
      if is_react && allow_older_reactivations then
        set_message msg_reactivation_no_version
          (set_warning_only true (set_valid true result))
      else set_message msg_no_version result
  | Some v =>
      let vs_minimum := compare_versions v minimum in
      let vs_latest := compare_versions v latest in
      let result := set_is_acceptable (vs_minimum >=? 0) result in
      let result := set_is_latest (vs_latest >=? 0) result in
      if is_react && allow_older_reactivations then
        let result := set_valid true result in
        if negb (is_latest result) then
          set_message (msg_reactivation_older v latest)
            (set_warning_only true result)
        else set_message (msg_reactivation_current v) result
      else
        let result := set_valid (is_acceptable result) result in
        if vs_minimum <? 0 then
          set_message (msg_outdated v minimum latest) result
        else if vs_latest <? 0 then
          set_warning_only true
            (set_message (msg_not_latest v latest) result)
        else set_message (msg_current v) result
  end.

(** The [activation_settings] that [main] reads, after its [config.get]
    defaults. *)
Record config : Type := {
  cfg_minimum_version : string;
  cfg_latest_version : string;
  cfg_enforce_version_check : bool;
  cfg_allow_older_reactivations : bool
}.

(** [load_version_config] when the file is absent. *)
Definition default_config : config :=
  {| cfg_minimum_version := "3.2.4"; cfg_latest_version := "3.2.4";
     cfg_enforce_version_check := true;
     cfg_allow_older_reactivations := true |}.

(** [main]: the decision it writes out and its exit code. *)
Definition main (cfg : config) (issue_title issue_body : string)
  : version_result * Z :=
  let is_reactivation := is_reactivation_request issue_title issue_body in
  let client_version := extract_version_from_body issue_body in
  let result :=
    validate_version client_version (cfg_minimum_version cfg)
      (cfg_latest_version cfg) is_reactivation
      (cfg_allow_older_reactivations cfg) in
  (result,
   if cfg_enforce_version_check cfg && negb (valid result) then 1 else 0).

End ValidateVersion.

(** ** [scripts/validate-request.py] *)
Module ValidateRequest.

(** [^[A-Za-z0-9]{16}$] *)
Definition fingerprint_pattern : Re.re :=
  (Re.exactly 16 PyStr.isalnum_ascii +> Re.Eol)%re.

(** [validate_hardware_fingerprint] *)
Definition validate_hardware_fingerprint (fingerprint : string) : bool :=
  bool_decide (is_Some (Re.re_match false fingerprint_pattern fingerprint)).

Definition email_local (c : ascii) : bool :=
  PyStr.isalnum_ascii c || Re.one_of "._%+-" c.
Definition email_domain (c : ascii) : bool :=
  PyStr.isalnum_ascii c || Re.one_of ".-" c.

(** [^[a-zA-Z0-9._%+-]+@[a-zA-Z0-9.-]+\.[a-zA-Z]{2,}$] *)
Definition email_pattern : Re.re :=
  (Re.plus email_local +> Re.Lit "@" +> Re.plus email_domain +> Re.Lit "."
   +> Re.at_least 2 PyStr.isalpha_ascii +> Re.Eol)%re.

(** [validate_email] *)
Definition validate_email (email : string) : bool :=
  bool_decide (is_Some (Re.re_match false email_pattern email)).

(** [Auto-Activation Request - (.+?) - (.+)] *)
Definition title_pattern : Re.re :=
  (Re.Lit "Auto-Activation Request - " +> Re.Group (Re.plus_lazy Re.dot)
   +> Re.Lit " - " +> Re.Group (Re.plus Re.dot))%re.

(** [<label>\s*([^\n]+)] *)
Definition field_pattern (label : string) : Re.re :=
  (Re.Lit label +> Re.star Re.space +> Re.Group (Re.plus Re.dot))%re.

(** [re.search(<label>\s*([^\n]+), body)] followed by
    [.group(1).strip()]. *)
Definition body_field (label body : string) : option string :=
  (fun m => PyStr.strip (Re.group1 m))
    <$> Re.re_search false (field_pattern label) body.

(** Truthiness of a value that is [None] or a [str]. *)
Definition truthy (v : option string) : bool :=
  match v with Some s => PyStr.truthy s | None => false end.

(** The text of a value known to be a [str]. *)
Definition text (v : option string) : string := default EmptyString v.

(** The [info] dictionary; its keys are fixed, so it is a record here. *)
Record issue_info : Type := {
  fingerprint : option string;
  company : option string;
  email : option string;
  name : option string;
  valid : bool;
  errors : list string
}.

Definition err_fingerprint_missing : string := "Hardware fingerprint not found".
Definition err_fingerprint_format : string := "Invalid hardware fingerprint format".
Definition err_company_missing : string := "Company name not found".
Definition err_company_short : string := "Company name too short".
Definition err_email_missing : string := "Contact email not found".
Definition err_email_format : string := "Invalid email format".

(** [extract_issue_info(title, body)] *)
Definition extract_issue_info (title body : string) : issue_info :=
  let title_match := Re.re_match false title_pattern title in
  let company := (fun m => PyStr.strip (Re.group1 m)) <$> title_match in
  let fingerprint := (fun m => PyStr.strip (Re.group2 m)) <$> title_match in
  let email :=
    if PyStr.truthy body then body_field "Email:" body else None in
  let name :=
    if PyStr.truthy body then body_field "Contact:" body else None in
  let fingerprint :=
    if PyStr.truthy body && negb (truthy fingerprint) then
      match body_field "Hardware Fingerprint:" body with
      | Some v => Some v
      | None => fingerprint
      end
    else fingerprint in
  let company :=
    if PyStr.truthy body && negb (truthy company) then
      match body_field "Company:" body with
      | Some v => Some v
      | None => company
      end
    else company in
  let errors : list string := [] in
  let errors :=
    if negb (truthy fingerprint) then errors ++ [err_fingerprint_missing]
    else if negb (validate_hardware_fingerprint (text fingerprint))
    then errors ++ [err_fingerprint_format]
    else errors in
  let errors :=
    if negb (truthy company) then errors ++ [err_company_missing]
    else if (String.length (text company) <? 2)%nat
    then errors ++ [err_company_short]
    else errors in
  let errors :=
    if negb (truthy email) then errors ++ [err_email_missing]
    else if negb (validate_email (text email))
    then errors ++ [err_email_format]
    else errors in
  {| fingerprint := fingerprint; company := company; email := email;
     name := name;
     valid := bool_decide (length errors = 0%nat);
     errors := errors |}.

(** [main]: the exit code. *)
Definition main (title body : string) : Z :=
  if valid (extract_issue_info title body) then 0 else 1.

End ValidateRequest.


(** ** [scripts/generate-license.py] *)
Module GenerateLicense.
Import DateTime.

Section Library.
(** [datetime.isoformat], and [hashlib.sha256(data.encode()).hexdigest()]
    as a function of [data]. *)
Variable isoformat : datetime -> string.
Variable sha256_hexdigest : string -> string.

(** [generate_license_key]; [now] is what its own [datetime.now()]
    reads. *)
Definition generate_license_key (fingerprint company email : string)
    (now : Z) : string :=
  let data :=
    fingerprint +:+ ":" +:+ company +:+ ":" +:+ email +:+ ":"
    +:+ isoformat (Naive now) in
  PyStr.upper (PyStr.take 32 (sha256_hexdigest data)).

(** [create_license]; [now] is the clock reading of its first line and
    [now_key] the later one of [generate_license_key]. *)
Definition create_license (fingerprint company email : string)
    (duration_days : Z) (now now_key : Z) : result dict :=
  match add_days (Naive now) duration_days with
  | Raise e => Raise e
  | Ok expires =>
      Ok (list_to_map
            [ ("license_key",
               VStr (generate_license_key fingerprint company email now_key));
              ("hardware_fingerprint", VStr fingerprint);
              ("company_name", VStr company);
              ("contact_email", VStr email);
              ("created_date", VStr (isoformat (Naive now)));
              ("expires_date", VStr (isoformat expires));
              ("status", VStr "active");
              ("version", VStr "3.2.0");
              ("auto_generated", VBool true);
              ("reactivation_required", VBool true);
              ("generated_by", VStr "github-actions");
              ("generation_method", VStr "automated") ])
  end.

(** The parsed command line. *)
Record args : Type := {
  arg_fingerprint : string;
  arg_company : string;
  arg_email : string;
  arg_duration : Z
}.

Definition err_fingerprint : string := "ERROR: Invalid hardware fingerprint".
Definition err_company : string := "ERROR: Invalid company name".
Definition err_email : string := "ERROR: Invalid email address".

(** [main].  The first component is the [license_data] that the
    [::set-output] lines print, if the run gets that far; the second is
    the exception that ends the run.  A run that prints its record ends
    in [NameError]: the next statement reads [os.environ], and the
    script never imports [os]. *)
Definition main (a : args) (now now_key : Z) : option dict * exn :=
  if negb (PyStr.truthy (arg_fingerprint a))
     || (String.length (arg_fingerprint a) <? 32)%nat
  then (None, SystemExit err_fingerprint)
  else if negb (PyStr.truthy (arg_company a))
          || (String.length (arg_company a) <? 2)%nat
  then (None, SystemExit err_company)
  else if negb (PyStr.truthy (arg_email a))
          || negb (PyStr.contains "@" (arg_email a))
  then (None, SystemExit err_email)
  else
    match create_license (arg_fingerprint a) (arg_company a)
            (arg_email a) (arg_duration a) now now_key with
    | Raise e => (None, e)
    | Ok license_data => (Some license_data, NameError "os")
    end.
End Library.

End GenerateLicense.

(** ** [scripts/check-expiring-licenses.py] *)
Module CheckExpiringLicenses.
Import DateTime.

(** Truthiness of what [dict.get] answers. *)
Definition truthy (v : option pyval) : bool :=
  match v with
  | None | Some VNone => false
  | Some (VBool b) => b
  | Some (VInt n) => negb (n =? 0)
  | Some (VFloat x) => negb (PyFloat.eqb x PyFloat.zero)
  | Some (VStr s) => PyStr.truthy s
  | Some (VList items) => match items with [] => false | _ => true end
  | Some (VDict items) => negb (bool_decide (size items = 0%nat))
  end.

(** [license_data.get('status') != 'active'] *)
Definition status_not_active (license_data : dict) : bool :=
  match license_data !! "status" with
  | Some (VStr s) => negb (String.eqb s "active")
  | _ => true
  end.

Section Library.
Variable fromisoformat : string -> option datetime.

(** The body of the [try]: is the record to be appended?  [replace] is a
    method of [str] only. *)
Definition expires_by (cutoff_date : datetime) (expires_date_str : pyval)
  : result bool :=
  match expires_date_str with
  | VStr s =>
      match fromisoformat (PyStr.replace "Z" "+00:00" s) with
      | Some expires_date => le expires_date cutoff_date
      | None => Raise ValueError
      end
  | _ => Raise AttributeError
  end.

(** The [for] loop; [expiring] is the list built so far.  The
    [except Exception] branch prints a line and goes on. *)
Fixpoint scan (cutoff_date : datetime) (licenses expiring : list dict)
  : list dict :=
  match licenses with
  | [] => expiring
  | license_data :: licenses' =>
      if status_not_active license_data
      then scan cutoff_date licenses' expiring
      else
        let expires_date_str := license_data !! "expires_date" in
        if negb (truthy expires_date_str)
        then scan cutoff_date licenses' expiring
        else
          match expires_by cutoff_date (default VNone expires_date_str) with
          | Ok true => scan cutoff_date licenses' (expiring ++ [license_data])
          | Ok false => scan cutoff_date licenses' expiring
          | Raise _ => scan cutoff_date licenses' expiring
          end
  end.

(** [find_expiring_licenses(licenses, days_ahead)] at the clock reading
    [now]. *)
Definition find_expiring_licenses (now : Z) (licenses : list dict)
    (days_ahead : Z) : result (list dict) :=
  match add_days (Naive now) days_ahead with
  | Raise e => Raise e
  | Ok cutoff_date => Ok (scan cutoff_date licenses [])
  end.

(** What [main] reports for the loaded [licenses]: [total_licenses],
    [expiring_count] and the list written to [expiring_licenses.json]. *)
Definition main (now : Z) (licenses : list dict)
  : result (nat * nat * list dict) :=
  match find_expiring_licenses now licenses 5 with
  | Raise e => Raise e
  | Ok expiring => Ok (length licenses, length expiring, expiring)
  end.

(** The same loop on what [load_active_licenses] hands over: it appends
    whatever [json.load] returned for a file, a [dict] or not.
    [license_data.get] is a method of [dict] only; on any other value the
    first line of the loop body raises [AttributeError], and that line is
    outside the [try]. *)
Fixpoint scan_loaded (cutoff_date : datetime) (licenses expiring : list pyval)
  : result (list pyval) :=
  match licenses with
  | [] => Ok expiring
  | VDict license_data :: licenses' =>
      if status_not_active license_data
      then scan_loaded cutoff_date licenses' expiring
      else
        let expires_date_str := license_data !! "expires_date" in
        if negb (truthy expires_date_str)
        then scan_loaded cutoff_date licenses' expiring
        else
          match expires_by cutoff_date (default VNone expires_date_str) with
          | Ok true =>
              scan_loaded cutoff_date licenses'
                (expiring ++ [VDict license_data])
          | Ok false => scan_loaded cutoff_date licenses' expiring
          | Raise _ => scan_loaded cutoff_date licenses' expiring
          end
  | _ :: _ => Raise AttributeError
  end.

(** [find_expiring_licenses(licenses, days_ahead)] on such a list. *)
Definition find_expiring_licenses_loaded (now : Z) (licenses : list pyval)
    (days_ahead : Z) : result (list pyval) :=
  match add_days (Naive now) days_ahead with
  | Raise e => Raise e
  | Ok cutoff_date => scan_loaded cutoff_date licenses []
  end.
End Library.

End CheckExpiringLicenses.

(** ** [scripts/auto-reactivate.py] *)
Module AutoReactivate.
Import DateTime.

(** [reactivate_license] updates the dictionary it is given, one key after
    the other, and may raise in between: a computation takes the dictionary
    and answers a value or an exception together with the dictionary as it
    then is. *)
Definition M (A : Type) : Type := dict -> result A * dict.

Definition ret {A} (a : A) : M A := fun d => (Ok a, d).
Definition raise {A} (e : exn) : M A := fun d => (Raise e, d).
Definition bind {A B} (m : M A) (k : A -> M B) : M B :=
  fun d =>
    match m d with
    | (Ok a, d') => k a d'
    | (Raise e, d') => (Raise e, d')
    end.

(** [license_data[key]] *)
Definition getitem (key : string) : M pyval :=
  fun d =>
    match d !! key with
    | Some v => (Ok v, d)
    | None => (Raise (KeyError key), d)
    end.

(** [license_data.get(key, dflt)] *)
Definition get (key : string) (dflt : pyval) : M pyval :=
  fun d => (Ok (default dflt (d !! key)), d).

(** [license_data[key] = v] *)
Definition setitem (key : string) (v : pyval) : M unit :=
  fun d => (Ok tt, <[key := v]> d).

Definition lift {A} (r : result A) : M A := fun d => (r, d).

Declare Scope py_scope.
Delimit Scope py_scope with py.
Notation "x <- m ;; k" := (bind m (fun x => k))
  (at level 100, m at next level, right associativity) : py_scope.
Notation "m ;; k" := (bind m (fun _ => k))
  (at level 100, right associativity) : py_scope.

(** [v.replace('Z', '+00:00')], a method of [str] only. *)
Definition replace_Z (v : pyval) : result string :=
  match v with
  | VStr s => Ok (PyStr.replace "Z" "+00:00" s)
  | _ => Raise AttributeError
  end.

(** [v + 1]: defined on [int], on [bool], which is an [int], and on
    [float]. *)
Definition add_one (v : pyval) : result pyval :=
  match v with
  | VInt n => Ok (VInt (n + 1))
  | VBool b => Ok (VInt ((if b then 1 else 0) + 1))
  | VFloat x => Ok (VFloat (PyFloat.add x PyFloat.one))
  | _ => Raise TypeError
  end.

Section Library.
Variable fromisoformat : string -> option datetime.
Variable isoformat : datetime -> string.

Definition parse (s : string) : result datetime :=
  match fromisoformat s with
  | Some d => Ok d
  | None => Raise ValueError
  end.

(** [reactivate_license(license_data)] at the clock reading [now]. *)
Definition reactivate_license (now : Z) : M unit :=
  (v <- getitem "expires_date" ;;
   s <- lift (replace_Z v) ;;
   current_expires <- lift (parse s) ;;
   new_expires <- lift (add_days current_expires 30) ;;
   setitem "expires_date" (VStr (isoformat new_expires)) ;;
   setitem "last_reactivated" (VStr (isoformat (Naive now))) ;;
   count <- get "reactivation_count" (VInt 0) ;;
   count' <- lift (add_one count) ;;
   setitem "reactivation_count" count' ;;
   setitem "status" (VStr "active"))%py.

(** The dictionary [reactivate_license] returns, when it returns. *)
Definition reactivated (now : Z) (license_data : dict) : option dict :=
  match reactivate_license now license_data with
  | (Ok _, d) => Some d
  | (Raise _, _) => None
  end.
End Library.

Section Batch.
Variable fromisoformat : string -> option datetime.
Variable isoformat : datetime -> string.
(** The file system, and [save_reactivated_license] on it: the [i]-th call
    of the run writes the record into it, or raises ([None]).  The writing
    itself is the operating system's. *)
Variable files : Type.
Variable save_reactivated_license : nat -> dict -> files -> option files.
(** What [datetime.now()] reads in the [i]-th call of
    [reactivate_license]. *)
Variable clock : nat -> Z.

(** The [for] loop of [main] from its [i]-th turn on; [reactivated_count]
    counts the turns that reached [reactivated_count += 1].  The
    [except Exception] branch prints a line and goes on. *)
Fixpoint reactivate_all (i : nat) (expiring_licenses : list dict)
    (reactivated_count : nat) (fs : files) : nat * files :=
  match expiring_licenses with
  | [] => (reactivated_count, fs)
  | license_data :: rest =>
      match reactivate_license fromisoformat isoformat (clock i)
              license_data with
      | (Ok _, reactivated_license) =>
          match save_reactivated_license i reactivated_license fs with
          | Some fs' => reactivate_all (S i) rest (S reactivated_count) fs'
          | None => reactivate_all (S i) rest reactivated_count fs
          end
      | (Raise _, _) => reactivate_all (S i) rest reactivated_count fs
      end
  end.

(** [main] on the loaded list: [None] when it leaves at "No expiring
    licenses found", else the [reactivated_count] and [total_expiring] it
    prints; with them the file system it leaves. *)
Definition main (expiring_licenses : list dict) (fs : files)
  : option (nat * nat) * files :=
  match expiring_licenses with
  | [] => (None, fs)
  | _ =>
      let '(reactivated_count, fs') :=
        reactivate_all 0 expiring_licenses 0 fs in
      (Some (reactivated_count, length expiring_licenses), fs')
  end.
End Batch.

End AutoReactivate.

(** ** What the specification says, in its own words *)
Module Spec.
Import DateTime.

(** Component-wise comparison, left to right. *)
Fixpoint lex_compare (a b : list Z) : Z :=
  match a, b with
  | x :: a', y :: b' =>
      if x >? y then 1 else if x <? y then -1 else lex_compare a' b'
  | _, _ => 0
  end.

(** Zero-padding to [n] components. *)
Definition zero_pad (n : nat) (xs : list Z) : list Z :=
  xs ++ repeat 0 (n - length xs).

(** Two tuples, the shorter padded with zeros to the longer's length,
    compared component-wise; 0 when one of them is missing. *)
Definition compare_tuples (a b : option (list Z)) : Z :=
  match a, b with
  | Some a, Some b =>
      let n := Nat.max (length a) (length b) in
      lex_compare (zero_pad n a) (zero_pad n b)
  | _, _ => 0
  end.

(** The dot-split integer tuple of a version: every component as the
    number it writes, however long; nothing when a component writes no
    number. *)
Definition integer_tuple (v : string) : option (list Z) :=
  mapM PyStr.int_literal (PyStr.split "." v).

(** Version comparison as section 4.2 words it: the dot-split integer
    tuples, the shorter padded with zeros to the longer's length, compared
    component-wise; 0 when a component is not numeric. *)
Definition compare (v1 v2 : string) : Z :=
  compare_tuples (integer_tuple v1) (integer_tuple v2).

(** No component of the version has more digits than [int] accepts. *)
Definition components_within_limit (v : string) : Prop :=
  forall component,
    In component (PyStr.split "." v) ->
    PyStr.count_digits component <= PyStr.int_max_str_digits.

(** The text of [n] copies of [c]. *)
Fixpoint repeated (c : ascii) (n : nat) : string :=
  match n with
  | O => EmptyString
  | S n' => String c (repeated c n')
  end.

(** The checks that [extract_issue_info] makes on each field, taken
    apart. *)
Definition fingerprint_errors (fingerprint : option string) : list string :=
  if negb (ValidateRequest.truthy fingerprint)
  then ["Hardware fingerprint not found"]
  else if negb (ValidateRequest.validate_hardware_fingerprint
                  (ValidateRequest.text fingerprint))
  then ["Invalid hardware fingerprint format"]
  else [].

Definition company_errors (company : option string) : list string :=
  if negb (ValidateRequest.truthy company)
  then ["Company name not found"]
  else if (String.length (ValidateRequest.text company) <? 2)%nat
  then ["Company name too short"]
  else [].

Definition email_errors (email : option string) : list string :=
  if negb (ValidateRequest.truthy email)
  then ["Contact email not found"]
  else if negb (ValidateRequest.validate_email (ValidateRequest.text email))
  then ["Invalid email format"]
  else [].

(** The expiring records as section 4.4 words them: the status is active
    and the expiry, read from its text, is at or before the cutoff. *)
Definition is_expiring (fromisoformat : string -> option datetime)
    (cutoff : datetime) (license_data : dict) : bool :=
  match license_data !! "status", license_data !! "expires_date" with
  | Some (VStr status), Some (VStr s) =>
      String.eqb status "active" && PyStr.truthy s
      && match fromisoformat (PyStr.replace "Z" "+00:00" s) with
         | Some expires =>
             match le expires cutoff with
             | Ok b => b
             | Raise _ => false
             end
         | None => false
         end
  | _, _ => false
  end.

(** The reactivation count of a record: 0 when the key is absent, and
    nothing when the value is not an integer. *)
Definition reactivation_count (license_data : dict) : option Z :=
  match license_data !! "reactivation_count" with
  | None => Some 0
  | Some (VInt n) => Some n
  | Some _ => None
  end.

(** A computation leaves the key [key] of the dictionary alone, whether it
    returns or raises. *)
Definition preserves {A} (key : string) (m : AutoReactivate.M A) : Prop :=
  forall d : dict, snd (m d) !! key = d !! key.

(** The record can be reactivated: [reactivate_license] returns on it.  (The
    clock reading has no part in that.) *)
Definition reactivates (fromisoformat : string -> option datetime)
    (isoformat : datetime -> string) (license_data : dict) : bool :=
  match AutoReactivate.reactivate_license fromisoformat isoformat 0
          license_data with
  | (Ok _, _) => true
  | (Raise _, _) => false
  end.

(** Every character of [s] is of the class [cls]. *)
Fixpoint all_chars (cls : ascii -> bool) (s : string) : bool :=
  match s with
  | EmptyString => true
  | String c r => cls c && all_chars cls r
  end.

(** *** The request, as section 4.1 words it *)

(** The text of [s] up to its first line feed, and the rest of [s]. *)
Fixpoint first_line (s : string) : string :=
  match s with
  | EmptyString => EmptyString
  | String c r =>
      if Ascii.eqb c Re.nl then EmptyString else String c (first_line r)
  end.

Fixpoint after_first_line (s : string) : string :=
  match s with
  | EmptyString => EmptyString
  | String c r => if Ascii.eqb c Re.nl then s else after_first_line r
  end.

(** [s] without its prefix [p]; nothing when [s] does not start with
    [p]. *)
Fixpoint without_prefix (p s : string) : option string :=
  match p, s with
  | EmptyString, _ => Some s
  | String a p', String b s' =>
      if Ascii.eqb a b then without_prefix p' s' else None
  | String _ _, EmptyString => None
  end.

(** A line ["<company> - <fingerprint>"], cut at the first [" - "] that has
    text on both sides. *)
Fixpoint cut_at_dash (line : string) : option (string * string) :=
  match line with
  | EmptyString => None
  | String c r =>
      match without_prefix " - " r with
      | Some (String d f) => Some (String c EmptyString, String d f)
      | _ =>
          match cut_at_dash r with
          | Some (company, fingerprint) => Some (String c company, fingerprint)
          | None => None
          end
      end
  end.



















(** [word] occurs in [s] up to the case of the letters of [s]. *)
Definition occurs_ignoring_case (word s : string) : Prop :=
  exists pre mid post,
    s = pre +:+ mid +:+ post /\ PyStr.lower mid = word.

End Spec.

(** * Lemmas and theorems *)

#[local] Arguments String.append !s1 s2 : simpl nomatch.

(** ** Version comparison *)
Section CompareVersions.
Import ValidateVersion.

Lemma pad_loop_closed fuel xs n :
  pad_loop fuel xs n = xs ++ repeat 0 (Nat.min fuel (n - length xs)).
Proof.
  revert xs; induction fuel as [|fuel IH]; intros xs; simpl.
  - by rewrite app_nil_r.
  - destruct (Nat.ltb_spec (length xs) n) as [Hlt|Hge].
    + rewrite IH, length_app; simpl.
      replace (n - length xs)%nat with (S (n - (length xs + 1)))%nat by lia.
      simpl. by rewrite <- app_assoc.
    + replace (n - length xs)%nat with 0%nat by lia.
      simpl. by rewrite app_nil_r.
Qed.

Lemma pad_zero_pad xs n : pad xs n = Spec.zero_pad n xs.
Proof.
  unfold pad, Spec.zero_pad. rewrite pad_loop_closed.
  do 2 f_equal. lia.
Qed.

Lemma length_zero_pad n xs :
  length (Spec.zero_pad n xs) = Nat.max n (length xs).
Proof. unfold Spec.zero_pad. rewrite length_app, repeat_length. lia. Qed.

(** The indexed loop visits the two lists in step. *)
Lemma compare_loop_lex (pa pb a b : list Z) :
  length pa = length pb -> length a = length b ->
  compare_loop (seq (length pa) (length a)) (pa ++ a) (pb ++ b)
  = Some (Spec.lex_compare a b).
Proof.
  revert pa pb b; induction a as [|x a IH]; intros pa pb [|y b] Hp Hl;
    simpl in *; try discriminate; [done|].
  rewrite (lookup_app_r pa) by lia. rewrite Nat.sub_diag. simpl.
  rewrite (lookup_app_r pb) by lia.
  replace (length pa - length pb)%nat with 0%nat by lia. simpl.
  destruct (x >? y); [done|]. destruct (x <? y); [done|].
  specialize (IH (pa ++ [x]) (pb ++ [y]) b).
  rewrite !length_app in IH. simpl in IH.
  rewrite <- !app_assoc in IH. simpl in IH.
  replace (S (length pa)) with (length pa + 1)%nat by lia.
  apply IH; lia.
Qed.

Lemma compare_versions_try_parts v1 v2 a b :
  parts v1 = Some a -> parts v2 = Some b ->
  compare_versions_try v1 v2 =
  Some (let n := Nat.max (length a) (length b) in
        Spec.lex_compare (Spec.zero_pad n a) (Spec.zero_pad n b)).
Proof.
  intros Ha Hb. unfold compare_versions_try. rewrite Ha, Hb. simpl.
  rewrite !pad_zero_pad.
  set (n := Nat.max (length a) (length b)).
  assert (Ha' : Spec.zero_pad (length b) a = Spec.zero_pad n a).
  { unfold Spec.zero_pad, n. do 2 f_equal. lia. }
  assert (Hb' : Spec.zero_pad (length (Spec.zero_pad (length b) a)) b
                = Spec.zero_pad n b).
  { rewrite length_zero_pad. unfold Spec.zero_pad, n. do 2 f_equal. lia. }
  rewrite Hb', Ha'.
  apply (compare_loop_lex [] [] (Spec.zero_pad n a) (Spec.zero_pad n b));
    [done|].
  rewrite !length_zero_pad. lia.
Qed.

(** A component that [int] refuses makes the whole list fail. *)
Lemma parts_non_numeric v component :
  In component (PyStr.split "." v) -> PyStr.int component = None ->
  parts v = None.
Proof.
  unfold parts. generalize (PyStr.split "." v).
  intros l Hin Hc. destruct (mapM PyStr.int l) as [zs|] eqn:E; [|done].
  assert (Hs : is_Some (mapM PyStr.int l)) by (by exists zs).
  rewrite mapM_is_Some, Forall_forall in Hs.
  apply list_elem_of_In, Hs in Hin. simpl in Hin.
  rewrite Hc in Hin. by destruct Hin.
Qed.

(** The loops of [compare_versions] compare the tuples that [parts]
    reads. *)
Lemma compare_versions_tuples v1 v2 :
  compare_versions v1 v2 = Spec.compare_tuples (parts v1) (parts v2).
Proof.
  unfold compare_versions, Spec.compare_tuples.
  destruct (parts v1) as [a|] eqn:Ha.
  - destruct (parts v2) as [b|] eqn:Hb.
    + by rewrite (compare_versions_try_parts _ _ _ _ Ha Hb).
    + unfold compare_versions_try. by rewrite Ha, Hb.
  - unfold compare_versions_try. by rewrite Ha.
Qed.

(** [int] reads what the text writes, up to its limit on the digits. *)
Lemma int_within_limit c :
  PyStr.count_digits c <= PyStr.int_max_str_digits ->
  PyStr.int c = PyStr.int_literal c.
Proof.
  intros H. unfold PyStr.int.
  by destruct (Z.ltb_spec PyStr.int_max_str_digits (PyStr.count_digits c));
    [lia|].
Qed.

Lemma int_beyond_limit c :
  PyStr.int_max_str_digits < PyStr.count_digits c -> PyStr.int c = None.
Proof.
  intros H. unfold PyStr.int.
  by destruct (Z.ltb_spec PyStr.int_max_str_digits (PyStr.count_digits c));
    [|lia].
Qed.

Lemma mapM_int_within_limit (l : list string) :
  (forall c, In c l -> PyStr.count_digits c <= PyStr.int_max_str_digits) ->
  mapM PyStr.int l = mapM PyStr.int_literal l.
Proof.
  induction l as [|c l IH]; intros H; [done|].
  cbn [mapM]. rewrite (int_within_limit c) by (apply H; by left).
  rewrite IH; [done|]. intros c' Hc'. apply H. by right.
Qed.

Lemma parts_within_limit v :
  Spec.components_within_limit v -> parts v = Spec.integer_tuple v.
Proof. apply mapM_int_within_limit. Qed.

(** Within the limit of [int] the comparison is the one of the
    specification. *)
Lemma compare_versions_refines v1 v2 :
  Spec.components_within_limit v1 -> Spec.components_within_limit v2 ->
  compare_versions v1 v2 = Spec.compare v1 v2.
Proof.
  intros H1 H2. rewrite compare_versions_tuples. unfold Spec.compare.
  by rewrite (parts_within_limit _ H1), (parts_within_limit _ H2).
Qed.

Lemma lex_compare_antisym a b :
  Spec.lex_compare a b = - Spec.lex_compare b a.
Proof.
  revert b; induction a as [|x a IH]; intros [|y b]; simpl; try done.
  destruct (Z.gtb_spec x y), (Z.ltb_spec x y), (Z.gtb_spec y x),
    (Z.ltb_spec y x); try lia. apply IH.
Qed.

Lemma compare_versions_antisym v1 v2 :
  compare_versions v1 v2 = - compare_versions v2 v1.
Proof.
  rewrite !compare_versions_tuples. unfold Spec.compare_tuples.
  destruct (parts v1) as [a|], (parts v2) as [b|]; try done.
  simpl. rewrite (Nat.max_comm (length b)). apply lex_compare_antisym.
Qed.

Lemma compare_versions_range v1 v2 :
  compare_versions v1 v2 = -1 \/ compare_versions v1 v2 = 0
  \/ compare_versions v1 v2 = 1.
Proof.
  rewrite compare_versions_tuples. unfold Spec.compare_tuples.
  destruct (parts v1) as [a|], (parts v2) as [b|]; auto.
  simpl. generalize (Spec.zero_pad (Nat.max (length a) (length b)) a)
    (Spec.zero_pad (Nat.max (length a) (length b)) b).
  intros l; induction l as [|x l IH]; intros [|y l']; simpl; auto.
  destruct (x >? y); auto. destruct (x <? y); auto.
Qed.

End CompareVersions.

(** C7 (as stated, refuted).  A component of 4301 nines writes a number
    above 1, and the comparison of the specification answers 1; [int]
    refuses the text for its length, and [compare_versions] answers 0. *)
Lemma compare_versions_overlong_component :
  let v := Spec.repeated "9" 4301 in
  PyStr.count_digits v = 4301
  /\ is_Some (PyStr.int_literal v)
  /\ PyStr.int v = None
  /\ Spec.compare v "1" = 1
  /\ ValidateVersion.compare_versions v "1" = 0.
Proof.
  vm_compute. repeat split; try reflexivity. by eexists.
Qed.

(** C7 (as amended).  For versions none of whose components has more than
    4300 digits, [compare_versions] is the component-wise, left-to-right
    comparison of the dot-split integer tuples after zero-padding the shorter
    one; it answers 0 when a component of either version writes no number or
    has more than 4300 digits; [compare("3.2.0","3.2") = 0] and
    [compare("3.3.0","3.2.9") = 1]; and [compare(a,b) = -compare(b,a)], for
    components of equal length and of any length. *)
Theorem compare_versions_componentwise :
  (forall v1 v2,
     Spec.components_within_limit v1 -> Spec.components_within_limit v2 ->
     ValidateVersion.compare_versions v1 v2 = Spec.compare v1 v2)
  /\ (forall v1 v2 component,
        In component (PyStr.split "." v1 ++ PyStr.split "." v2) ->
        PyStr.int_literal component = None
        \/ PyStr.int_max_str_digits < PyStr.count_digits component ->
        ValidateVersion.compare_versions v1 v2 = 0)
  /\ ValidateVersion.compare_versions "3.2.0" "3.2" = 0
  /\ ValidateVersion.compare_versions "3.3.0" "3.2.9" = 1
  /\ (forall a b,
        ValidateVersion.compare_versions a b
        = - ValidateVersion.compare_versions b a).
Proof.
  split; [exact compare_versions_refines|].
  split.
  { intros v1 v2 c Hin Hc.
    assert (Hint : PyStr.int c = None).
    { destruct Hc as [Hc|Hc]; [|by apply int_beyond_limit].
      unfold PyStr.int. by destruct (_ <? _). }
    rewrite compare_versions_tuples.
    unfold Spec.compare_tuples. apply in_app_or in Hin as [Hin|Hin].
    - by rewrite (parts_non_numeric _ _ Hin Hint).
    - rewrite (parts_non_numeric _ _ Hin Hint).
      by destruct (ValidateVersion.parts v1). }
  split; [reflexivity|]. split; [reflexivity|].
  exact compare_versions_antisym.
Qed.

Lemma compare_versions_componentwise_witness :
  PyStr.int_literal "x" = None
  /\ ValidateVersion.compare_versions "3.x" "3.2.9" = 0
  /\ Spec.compare "3.10" "3.9.7" = 1
  /\ ValidateVersion.compare_versions "3.10" "3.9.7" = 1.
Proof.
  split; [reflexivity|]. split.
  { apply (proj1 (proj2 compare_versions_componentwise) "3.x" "3.2.9" "x");
      [|by left].
    simpl. right. left. reflexivity. }
  split; [reflexivity|].
  rewrite (proj1 compare_versions_componentwise "3.10" "3.9.7");
    [reflexivity| |];
    intros c Hc; simpl in Hc;
    repeat (destruct Hc as [<-|Hc]; [by vm_compute|]); destruct Hc.
Defined.

(** ** Strings *)
Section Strings.

Lemma append_assoc (a b c : string) : (a +:+ b) +:+ c = a +:+ b +:+ c.
Proof. induction a as [|x a IH]; simpl; [done|]. by rewrite IH. Qed.

Lemma startswith_append p s : PyStr.startswith p (p +:+ s) = true.
Proof.
  induction p as [|c p IH]; simpl; [done|].
  by rewrite Ascii.eqb_refl, IH.
Qed.

Lemma startswith_inv p s :
  PyStr.startswith p s = true -> exists post, s = p +:+ post.
Proof.
  revert s; induction p as [|c p IH]; intros s H; simpl in *.
  - by exists s.
  - destruct s as [|d s]; [discriminate|].
    apply andb_true_iff in H as [Hc Hp].
    apply Ascii.eqb_eq in Hc as ->.
    destruct (IH _ Hp) as [post ->]. by exists post.
Qed.

Lemma contains_unfold p s :
  PyStr.contains p s
  = PyStr.startswith p s
    || match s with
       | EmptyString => false
       | String _ r => PyStr.contains p r
       end.
Proof. by destruct s. Qed.

Lemma contains_append p pre post :
  PyStr.contains p (pre +:+ p +:+ post) = true.
Proof.
  induction pre as [|c pre IH]; simpl.
  - by rewrite contains_unfold, startswith_append.
  - rewrite IH. apply orb_true_r.
Qed.

Lemma contains_inv p s :
  PyStr.contains p s = true -> exists pre post, s = pre +:+ p +:+ post.
Proof.
  induction s as [|c s IH]; simpl; intros H.
  - rewrite orb_false_r in H.
    destruct (startswith_inv _ _ H) as [post ->]. by exists EmptyString, post.
  - apply orb_true_iff in H as [H|H].
    + destruct (startswith_inv _ _ H) as [post ->].
      by exists EmptyString, post.
    + destruct (IH H) as (pre & post & ->).
      by exists (String c pre), post.
Qed.

Lemma contains_iff p s :
  PyStr.contains p s = true <-> exists pre post, s = pre +:+ p +:+ post.
Proof.
  split; [apply contains_inv|].
  intros (pre & post & ->). apply contains_append.
Qed.

Lemma lower_append a b :
  PyStr.lower (a +:+ b) = PyStr.lower a +:+ PyStr.lower b.
Proof. induction a as [|c a IH]; simpl; [done|]. by rewrite IH. Qed.

(** [lower] works character by character, so a cut of [lower s] is the
    image of a cut of [s]. *)
Lemma lower_cut s x y :
  PyStr.lower s = x +:+ y ->
  exists a b, s = a +:+ b /\ PyStr.lower a = x /\ PyStr.lower b = y.
Proof.
  revert s; induction x as [|c x IH]; intros s H; simpl in *.
  - by exists EmptyString, s.
  - destruct s as [|d s]; simpl in H; [discriminate|].
    injection H as Hc Hs. destruct (IH _ Hs) as (a & b & -> & Ha & Hb).
    exists (String d a), b. simpl. by rewrite Hc, Ha.
Qed.

Lemma contains_lower_iff word s :
  PyStr.contains word (PyStr.lower s) = true
  <-> Spec.occurs_ignoring_case word s.
Proof.
  rewrite contains_iff. unfold Spec.occurs_ignoring_case. split.
  - intros (pre & post & H).
    destruct (lower_cut _ _ _ H) as (a & b & -> & _ & Hb).
    destruct (lower_cut _ _ _ Hb) as (m & c & -> & Hm & _).
    by exists a, m, c.
  - intros (pre & mid & post & -> & <-).
    exists (PyStr.lower pre), (PyStr.lower post).
    by rewrite !lower_append.
Qed.

End Strings.

(** ** The version policy *)
Section VersionPolicy.
Import ValidateVersion.

Lemma provided_None_unknown cv :
  provided cv = None ->
  forall minimum latest r a,
    client_version (validate_version cv minimum latest r a) = "unknown".
Proof.
  intros H minimum latest r a. unfold validate_version. rewrite H.
  by destruct (r && a).
Qed.

Lemma validate_version_lenient cv minimum latest :
  valid (validate_version cv minimum latest true true) = true.
Proof.
  unfold validate_version. destruct (provided cv) as [v|]; simpl; [|done].
  by destruct (compare_versions v latest >=? 0).
Qed.

Lemma is_reactivation_validate cv minimum latest r a :
  is_reactivation (validate_version cv minimum latest r a) = r.
Proof.
  unfold validate_version.
  destruct (provided cv) as [v|]; destruct (r && a); simpl; try done.
  - by destruct (compare_versions v latest >=? 0).
  - destruct (compare_versions v minimum <? 0); [done|].
    by destruct (compare_versions v latest <? 0).
Qed.


End VersionPolicy.

#[local] Arguments ValidateVersion.msg_outdated : simpl never.



(** C5.  With no client version provided: a reactivation under a policy that
    allows older reactivations is valid and warning-only, with the message
    that the version was not provided but is allowed; every other request is
    invalid, with the message that no version information was provided. *)
Theorem validate_version_without_version
    (cv : option string) (minimum latest : string) (is_react allow : bool) :
  ValidateVersion.provided cv = None ->
  let r := ValidateVersion.validate_version cv minimum latest is_react allow in
  if is_react && allow
  then ValidateVersion.valid r = true
       /\ ValidateVersion.warning_only r = true
       /\ ValidateVersion.message r
          = "Reactivation request - version not provided but allowed for existing licenses"
  else ValidateVersion.valid r = false
       /\ ValidateVersion.warning_only r = false
       /\ ValidateVersion.message r
          = "No software version information provided in request".
Proof.
  intros Hcv r. subst r. unfold ValidateVersion.validate_version.
  rewrite Hcv. by destruct (is_react && allow).
Qed.

Lemma validate_version_without_version_witness :
  ValidateVersion.valid
    (ValidateVersion.validate_version None "3.2.4" "3.2.4" true true) = true
  /\ ValidateVersion.valid
       (ValidateVersion.validate_version (Some "") "3.2.4" "3.2.4" false true)
     = false.
Proof.
  split.
  - apply (validate_version_without_version None "3.2.4" "3.2.4" true true).
    reflexivity.
  - apply (validate_version_without_version (Some "") "3.2.4" "3.2.4"
             false true).
    reflexivity.
Defined.

(** C10.  A request is classified as a reactivation exactly when the word
    "reactivation" occurs, whatever the case of its letters, in the title or
    in the body; so a request whose body mentions the word is decided as a
    reactivation, and under a policy that allows older reactivations it is
    valid whatever its version. *)
Theorem is_reactivation_request_by_word :
  (forall title body,
     ValidateVersion.is_reactivation_request title body = true
     <-> Spec.occurs_ignoring_case "reactivation" title
         \/ Spec.occurs_ignoring_case "reactivation" body)
  /\ (forall cfg title body,
        Spec.occurs_ignoring_case "reactivation" body ->
        let r := fst (ValidateVersion.main cfg title body) in
        r = ValidateVersion.validate_version
              (ValidateVersion.extract_version_from_body body)
              (ValidateVersion.cfg_minimum_version cfg)
              (ValidateVersion.cfg_latest_version cfg)
              true
              (ValidateVersion.cfg_allow_older_reactivations cfg)
        /\ ValidateVersion.is_reactivation r = true
        /\ (ValidateVersion.cfg_allow_older_reactivations cfg = true ->
            ValidateVersion.valid r = true)).
Proof.
  assert (Hiff : forall title body,
     ValidateVersion.is_reactivation_request title body = true
     <-> Spec.occurs_ignoring_case "reactivation" title
         \/ Spec.occurs_ignoring_case "reactivation" body).
  { intros title body. rewrite <- !contains_lower_iff.
    unfold ValidateVersion.is_reactivation_request.
    destruct (PyStr.contains "reactivation" (PyStr.lower title)) eqn:Ht.
    { split; auto. }
    destruct (PyStr.contains "auto-reactivation" (PyStr.lower title)) eqn:Ha.
    { apply contains_inv in Ha as (pre & post & Ha).
      rewrite Ha in Ht.
      change ("auto-reactivation" +:+ post)
        with ("auto-" +:+ "reactivation" +:+ post) in Ht.
      rewrite <- (append_assoc pre "auto-") in Ht.
      by rewrite contains_append in Ht. }
    assert (Hb : PyStr.truthy body
                 && PyStr.contains "reactivation" (PyStr.lower body)
                 = PyStr.contains "reactivation" (PyStr.lower body))
      by (by destruct body).
    rewrite Hb.
    destruct (PyStr.contains "reactivation" (PyStr.lower body));
      [split; auto | split; [done | by intros [H|H]]]. }
  split; [exact Hiff|].
  intros cfg title body Hbody r. subst r.
  unfold ValidateVersion.main. simpl fst.
  assert (E : ValidateVersion.is_reactivation_request title body = true)
    by (apply Hiff; by right).
  rewrite E. split; [done|]. split.
  - apply is_reactivation_validate.
  - intros ->. apply validate_version_lenient.
Qed.

Lemma is_reactivation_request_by_word_witness :
  let title := "Auto-Activation Request - Acme Corp - AB12CD34EF56GH78" in
  let body := "Software Version: 1.0.0 (not a Reactivation)" in
  ValidateVersion.compare_versions "1.0.0" "3.2.4" = -1
  /\ ValidateVersion.valid
       (fst (ValidateVersion.main ValidateVersion.default_config title body))
     = true.
Proof.
  split; [reflexivity|].
  apply (proj2 is_reactivation_request_by_word ValidateVersion.default_config);
    [|reflexivity].
  exists "Software Version: 1.0.0 (not a ", "Reactivation", ")".
  split; reflexivity.
Defined.

(** ** The request validator *)
Section RequestValidator.
Import ValidateRequest.

Lemma extract_issue_info_errors title body :
  let info := extract_issue_info title body in
  errors info
  = Spec.fingerprint_errors (fingerprint info)
    ++ Spec.company_errors (company info)
    ++ Spec.email_errors (email info).
Proof.
  unfold extract_issue_info, Spec.fingerprint_errors, Spec.company_errors,
    Spec.email_errors.
  cbn [errors fingerprint company email].
  repeat case_match; reflexivity.
Qed.

Lemma extract_issue_info_valid title body :
  let info := extract_issue_info title body in
  valid info = true <-> errors info = [].
Proof.
  unfold extract_issue_info. cbn [errors valid].
  rewrite bool_decide_eq_true. apply length_zero_iff_nil.
Qed.

End RequestValidator.

(** ** Fingerprints: sixteen characters for the validator *)
Section Fingerprint.
Import ValidateRequest.

Lemma length_append (a b : string) :
  String.length (a +:+ b) = (String.length a + String.length b)%nat.
Proof. induction a as [|c a IH]; simpl; [done|]. by rewrite IH. Qed.

(** [cls{n}] reads exactly [n] characters. *)
Lemma rep_greedy_exactly {A} cls n s (k : string -> option A) a :
  Re.rep_greedy cls n (Some n) s k = Some a ->
  exists pre rest,
    s = pre +:+ rest /\ String.length pre = n /\ k rest = Some a.
Proof.
  revert s; induction n as [|n IH]; intros s H.
  - exists EmptyString, s. split; [done|]. split; [done|].
    destruct s as [|c s]; simpl in H; [done|].
    by rewrite andb_false_r in H.
  - destruct s as [|c s]; simpl in H; [done|].
    destruct (cls c); simpl in H; [|done].
    destruct (Re.rep_greedy cls n (Some n) s k) as [a'|] eqn:E; [|done].
    injection H as ->. destruct (IH _ E) as (pre & rest & -> & Hl & Hk).
    exists (String c pre), rest. simpl. by rewrite Hl.
Qed.

Lemma validated_fingerprint_length fp :
  validate_hardware_fingerprint fp = true ->
  (String.length fp = 16 \/ String.length fp = 17)%nat.
Proof.
  unfold validate_hardware_fingerprint. rewrite bool_decide_eq_true.
  intros [caps H]. unfold Re.re_match, fingerprint_pattern in H.
  simpl in H. apply rep_greedy_exactly in H as (pre & rest & -> & Hl & Hk).
  rewrite length_append, Hl.
  destruct rest as [|c [|d rest]]; simpl; [lia|lia|].
  discriminate.
Qed.

Lemma valid_request_fingerprint title body :
  valid (extract_issue_info title body) = true ->
  validate_hardware_fingerprint
    (text (fingerprint (extract_issue_info title body))) = true.
Proof.
  intros H. apply extract_issue_info_valid in H.
  pose proof (extract_issue_info_errors title body) as E.
  cbv zeta in E. rewrite H in E. symmetry in E. apply app_eq_nil in E as [E _].
  unfold Spec.fingerprint_errors in E.
  destruct (negb (truthy _)); [discriminate|].
  destruct (validate_hardware_fingerprint _); [done|discriminate].
Qed.

End Fingerprint.

(** ** What a match tells about the subject *)
Section Matches.

Lemma all_chars_append cls a b :
  Spec.all_chars cls (a +:+ b)
  = Spec.all_chars cls a && Spec.all_chars cls b.
Proof.
  induction a as [|c a IH]; simpl; [done|]. by rewrite IH, andb_assoc.
Qed.

(** [cls+], [cls*] and [cls{n,}] read a run of characters of the class, at
    least [lo] of them. *)
Lemma rep_greedy_inv {A} cls lo s (k : string -> option A) a :
  Re.rep_greedy cls lo None s k = Some a ->
  exists pre rest,
    s = pre +:+ rest /\ (lo <= String.length pre)%nat
    /\ Spec.all_chars cls pre = true /\ k rest = Some a.
Proof.
  revert lo; induction s as [|c s IH]; intros lo H; simpl in H.
  - destruct lo; [|done]. by exists EmptyString, EmptyString.
  - assert (Hstop : match lo with O => k (String c s) | S _ => None end
                    = Some a ->
                    exists pre rest,
                      String c s = pre +:+ rest
                      /\ (lo <= String.length pre)%nat
                      /\ Spec.all_chars cls pre = true /\ k rest = Some a).
    { destruct lo; [|done]. intros Hk.
      by exists EmptyString, (String c s). }
    destruct (cls c) eqn:Hc; simpl in H; [|by apply Hstop].
    destruct (Re.rep_greedy cls (Nat.pred lo) None s k) as [a'|] eqn:E;
      [|by apply Hstop].
    injection H as ->. destruct (IH _ E) as (pre & rest & -> & Hl & Hall & Hk).
    exists (String c pre), rest. simpl. rewrite Hc, Hall.
    repeat split; [lia|done].
Qed.

(** [cls{n}] reads exactly [n] characters of the class, and nothing else
    will do. *)
Lemma rep_greedy_exactly_inv {A} cls n s (k : string -> option A) a :
  Re.rep_greedy cls n (Some n) s k = Some a ->
  exists pre rest,
    s = pre +:+ rest /\ String.length pre = n
    /\ Spec.all_chars cls pre = true /\ k rest = Some a.
Proof.
  revert s; induction n as [|n IH]; intros s H.
  - exists EmptyString, s. repeat split; try done.
    destruct s as [|c s]; simpl in H; [done|].
    by rewrite andb_false_r in H.
  - destruct s as [|c s]; simpl in H; [done|].
    destruct (cls c) eqn:Hc; simpl in H; [|done].
    destruct (Re.rep_greedy cls n (Some n) s k) as [a'|] eqn:E; [|done].
    injection H as ->. destruct (IH _ E) as (pre & rest & -> & Hl & Hall & Hk).
    exists (String c pre), rest. simpl. by rewrite Hl, Hc, Hall.
Qed.

Lemma rep_greedy_exactly_run {A} cls pre rest (k : string -> option A) :
  Spec.all_chars cls pre = true ->
  Re.rep_greedy cls (String.length pre) (Some (String.length pre))
    (pre +:+ rest) k
  = k rest.
Proof.
  induction pre as [|c pre IH]; simpl; intros Hall.
  - destruct rest as [|c r]; simpl; [done|]. by rewrite andb_false_r.
  - apply andb_true_iff in Hall as [-> Hall]. simpl.
    rewrite (IH Hall). by destruct (k rest).
Qed.

(** A literal matched with its case reads that very text. *)
Lemma drop_literal_inv p s rest :
  Re.drop_literal false p s = Some rest -> s = p +:+ rest.
Proof.
  revert s; induction p as [|a p IH]; intros s H; simpl in H.
  - by injection H as ->.
  - destruct s as [|b s]; [done|]. simpl in H.
    destruct (Ascii.eqb_spec a b) as [->|]; [|done].
    by rewrite (IH _ H).
Qed.

(** A literal matched without its case reads as many characters. *)
Lemma drop_literal_length ic p s rest :
  Re.drop_literal ic p s = Some rest ->
  exists pre, s = pre +:+ rest /\ String.length pre = String.length p.
Proof.
  revert s; induction p as [|a p IH]; intros s H; simpl in H.
  - injection H as ->. by exists EmptyString.
  - destruct s as [|b s]; [done|].
    destruct (Re.char_eq ic a b); [|done].
    destruct (IH _ H) as (pre & -> & Hl).
    exists (String b pre). simpl. by rewrite Hl.
Qed.

(** The full stop has no other case. *)
Lemma drop_dot_inv ic s rest :
  Re.drop_literal ic "." s = Some rest -> s = String "." rest.
Proof.
  destruct s as [|b s]; simpl; [done|].
  destruct (Re.char_eq ic "." b) eqn:E; [|done].
  intros [= ->]. f_equal.
  destruct ic; unfold Re.char_eq in E.
  - destruct b as [[] [] [] [] [] [] [] []]; vm_compute in E;
      (discriminate || reflexivity).
  - by apply Ascii.eqb_eq in E.
Qed.

Lemma consumed_append pre rest : Re.consumed (pre +:+ rest) rest = pre.
Proof.
  unfold Re.consumed. rewrite length_append.
  replace (String.length pre + String.length rest - String.length rest)%nat
    with (String.length pre) by lia.
  induction pre as [|c pre IH]; simpl; [by destruct rest|]. by rewrite IH.
Qed.

(** [re.search] matches at the start of some suffix of the subject. *)
Lemma re_search_inv ic r s caps :
  Re.re_search ic r s = Some caps ->
  exists pre t, s = pre +:+ t /\ Re.re_match ic r t = Some caps.
Proof.
  induction s as [|c s IH]; simpl; intros H.
  - destruct (Re.re_match ic r "") eqn:E; [|done].
    injection H as ->. by exists EmptyString, EmptyString.
  - destruct (Re.re_match ic r (String c s)) eqn:E.
    + injection H as ->. by exists EmptyString, (String c s).
    + destruct (IH H) as (pre & t & -> & Ht). by exists (String c pre), t.
Qed.

End Matches.

(** ** [validate-request.py]: the fields of an accepted request *)
Section AcceptedRequest.
Import ValidateRequest.

Lemma append_empty (s : string) : s +:+ "" = s.
Proof. induction s as [|c s IH]; simpl; [done|]. by rewrite IH. Qed.

(** What [rstrip] leaves does not end in a character it strips. *)
Lemma rstrip_of_last ws s pre c :
  PyStr.rstrip_of ws s = pre +:+ String c "" -> ws c = false.
Proof.
  revert pre; induction s as [|a s IH]; intros pre H; simpl in H.
  - by destruct pre.
  - destruct (PyStr.rstrip_of ws s) as [|b r] eqn:E.
    + destruct (ws a) eqn:Ha; [by destruct pre|].
      destruct pre as [|p pre]; simpl in H; [by injection H as <-|].
      injection H as _ H. by destruct pre.
    + destruct pre as [|p pre]; simpl in H; [done|].
      injection H as _ H. by apply (IH pre).
Qed.

Lemma strip_last s pre c :
  PyStr.strip s = pre +:+ String c "" -> PyStr.isspace c = false.
Proof. apply rstrip_of_last. Qed.

(** Every fingerprint that [extract_issue_info] finds went through
    [strip]. *)
Lemma fingerprint_stripped title body fp :
  fingerprint (extract_issue_info title body) = Some fp ->
  exists x, fp = PyStr.strip x.
Proof.
  unfold extract_issue_info, body_field. cbn [fingerprint].
  destruct (Re.re_match false title_pattern title) as [m|];
    destruct (Re.re_search false (field_pattern "Hardware Fingerprint:") body)
      as [m'|]; simpl;
    destruct (PyStr.truthy body); simpl;
    repeat case_match; intros ?; simplify_eq; eauto.
Qed.

Lemma valid_request_fields title body :
  valid (extract_issue_info title body) = true ->
  let info := extract_issue_info title body in
  Spec.fingerprint_errors (fingerprint info) = []
  /\ Spec.company_errors (company info) = []
  /\ Spec.email_errors (email info) = [].
Proof.
  intros H info. subst info. apply extract_issue_info_valid in H.
  pose proof (extract_issue_info_errors title body) as E.
  cbv zeta in E. rewrite H in E. symmetry in E.
  apply app_eq_nil in E as [E1 E]. by apply app_eq_nil in E as [E2 E3].
Qed.

Lemma validate_hardware_fingerprint_inv fp :
  validate_hardware_fingerprint fp = true ->
  exists core,
    String.length core = 16%nat
    /\ Spec.all_chars PyStr.isalnum_ascii core = true
    /\ (fp = core \/ fp = core +:+ String Re.nl "").
Proof.
  unfold validate_hardware_fingerprint. rewrite bool_decide_eq_true.
  intros [caps H]. unfold Re.re_match, fingerprint_pattern, Re.exactly in H.
  cbn [Re.run] in H.
  apply rep_greedy_exactly_inv in H as (core & rest & -> & Hl & Hall & Hk).
  exists core. repeat split; [done|done|].
  destruct rest as [|c [|d rest]]; cbn beta iota in Hk.
  - left. apply append_empty.
  - destruct (Ascii.eqb c Re.nl) eqn:E; [|discriminate].
    apply Ascii.eqb_eq in E as ->. by right.
  - discriminate.
Qed.

Lemma validate_email_has_at e :
  validate_email e = true -> PyStr.contains "@" e = true.
Proof.
  unfold validate_email. rewrite bool_decide_eq_true.
  intros [caps H].
  unfold Re.re_match, email_pattern, Re.plus, Re.at_least in H.
  cbn [Re.run] in H.
  apply rep_greedy_inv in H as (pre & r1 & -> & _ & _ & Hk).
  destruct (Re.drop_literal false "@" r1) as [r2|] eqn:E; [|done].
  apply drop_literal_inv in E as ->. apply contains_append.
Qed.

(** A field of the body is only found behind its label. *)
Lemma body_field_label label body v :
  body_field label body = Some v -> PyStr.contains label body = true.
Proof.
  unfold body_field.
  destruct (Re.re_search false (field_pattern label) body) as [m|] eqn:E;
    [|done].
  intros _. apply re_search_inv in E as (pre & t & -> & Ht).
  unfold Re.re_match, field_pattern in Ht. cbn [Re.run] in Ht.
  destruct (Re.drop_literal false label t) as [r|] eqn:El; [|done].
  apply drop_literal_inv in El as ->. apply contains_append.
Qed.

End AcceptedRequest.

(** ** [validate-request.py]: the patterns read what the specification
    says *)
Section RequestRefinement.
Import ValidateRequest.

Lemma first_line_split s :
  s = Spec.first_line s +:+ Spec.after_first_line s.
Proof.
  induction s as [|c s IH]; simpl; [done|].
  destruct (Ascii.eqb c Re.nl); simpl; [done|]. by rewrite <- IH.
Qed.

Lemma drop_literal_without_prefix p s :
  Re.drop_literal false p s = Spec.without_prefix p s.
Proof.
  revert s; induction p as [|a p IH]; intros [|b s]; simpl; try done.
  unfold Re.char_eq. by rewrite IH.
Qed.

(** A greedy run of [.] reads the rest of the line. *)
Lemma rep_greedy_dot_line {A} lo s (f : string -> A) :
  Re.rep_greedy Re.dot lo None s (fun rest => Some (f rest))
  = if (lo <=? String.length (Spec.first_line s))%nat
    then Some (f (Spec.after_first_line s)) else None.
Proof.
  revert lo; induction s as [|c s IH]; intros lo.
  - by destruct lo.
  - cbn [Re.rep_greedy Spec.first_line Spec.after_first_line].
    unfold Re.dot at 1. destruct (Ascii.eqb c Re.nl) eqn:Hc; simpl.
    + by destruct lo.
    + rewrite IH. destruct lo as [|lo]; simpl; [done|].
      by destruct (lo <=? String.length (Spec.first_line s))%nat.
Qed.

Lemma consumed_first_line s :
  Re.consumed s (Spec.after_first_line s) = Spec.first_line s.
Proof.
  rewrite (first_line_split s) at 1. apply consumed_append.
Qed.


(** [(.+)] and [([^\n]+)] capture the rest of the line, which must not be
    empty. *)
Lemma run_group_line s caps :
  Re.run false (Re.Group (Re.plus Re.dot)) s caps (fun _ c => Some c)
  = match Spec.first_line s with
    | EmptyString => None
    | l => Some (caps ++ [l])
    end.
Proof.
  unfold Re.plus. cbn [Re.run].
  rewrite (rep_greedy_dot_line 1 s (fun rest => caps ++ [Re.consumed s rest])).
  rewrite consumed_first_line. by destruct (Spec.first_line s).
Qed.

Lemma first_line_append_dot p s :
  Spec.all_chars Re.dot p = true ->
  Spec.first_line (p +:+ s) = p +:+ Spec.first_line s.
Proof.
  induction p as [|c p IH]; simpl; [done|]. intros H.
  apply andb_true_iff in H as [Hc Hp]. unfold Re.dot in Hc.
  destruct (Ascii.eqb c Re.nl); [done|]. by rewrite IH.
Qed.

(** A prefix without line feed is looked for on the first line. *)
Lemma without_prefix_first_line p s :
  Spec.all_chars Re.dot p = true ->
  Spec.without_prefix p (Spec.first_line s)
  = Spec.first_line <$> Spec.without_prefix p s.
Proof.
  revert s; induction p as [|a p IH]; intros s H; [done|].
  simpl in H. apply andb_true_iff in H as [Ha Hp].
  destruct s as [|b s]; [done|]. cbn [Spec.first_line Spec.without_prefix].
  destruct (Ascii.eqb b Re.nl) eqn:Hb.
  - apply Ascii.eqb_eq in Hb as ->. cbn [Spec.without_prefix].
    unfold Re.dot in Ha. destruct (Ascii.eqb_spec a Re.nl) as [->|Hn]; [done|].
    by destruct (Ascii.eqb_spec a Re.nl).
  - cbn [Spec.without_prefix]. destruct (Ascii.eqb a b); [by apply IH|done].
Qed.

Lemma run_cat {A} ic r1 r2 s caps (k : string -> list string -> option A) :
  Re.run ic (r1 +> r2)%re s caps k
  = Re.run ic r1 s caps (fun rest caps' => Re.run ic r2 rest caps' k).
Proof. reflexivity. Qed.

Lemma run_lit {A} p s caps (k : string -> list string -> option A) :
  Re.run false (Re.Lit p) s caps k
  = match Spec.without_prefix p s with
    | Some rest => k rest caps
    | None => None
    end.
Proof. cbn [Re.run]. by rewrite drop_literal_without_prefix. Qed.

(** [ - (.+)] behind the company. *)
Lemma run_dash_group s caps :
  Re.run false (Re.Lit " - " +> Re.Group (Re.plus Re.dot))%re s caps
    (fun _ c => Some c)
  = match Spec.without_prefix " - " (Spec.first_line s) with
    | Some (String d f) => Some (caps ++ [String d f])
    | _ => None
    end.
Proof.
  rewrite run_cat, run_lit, without_prefix_first_line by done.
  destruct (Spec.without_prefix " - " s) as [r|]; [|done].
  cbn [fmap option_fmap option_map]. rewrite run_group_line.
  by destruct (Spec.first_line r).
Qed.

(** The lazy [(.+?)] gives the company one more character at a time, until
    [ - (.+)] matches behind it. *)
Lemma rep_lazy_cut pre0 c0 r :
  Re.rep_lazy Re.dot 0 None r
    (fun rest =>
       Re.run false (Re.Lit " - " +> Re.Group (Re.plus Re.dot))%re rest
         ([] ++ [Re.consumed ((pre0 +:+ String c0 "") +:+ r) rest])
         (fun _ c => Some c))
  = (fun '(co, fp) => [pre0 +:+ co; fp])
      <$> Spec.cut_at_dash (String c0 (Spec.first_line r)).
Proof.
  revert pre0 c0; induction r as [|c r IH]; intros pre0 c0.
  - cbn [Re.rep_lazy]. rewrite run_dash_group. reflexivity.
  - cbn [Re.rep_lazy]. rewrite run_dash_group, consumed_append.
    cbn [Spec.cut_at_dash].
    assert (Hnext :
      (if Re.dot c && Re.may_take None
       then Re.rep_lazy Re.dot (Nat.pred 0) (Re.one_less None) r
              (fun rest =>
                 Re.run false (Re.Lit " - " +> Re.Group (Re.plus Re.dot))%re
                   rest
                   ([] ++ [Re.consumed ((pre0 +:+ String c0 "") +:+ String c r)
                             rest])
                   (fun _ c => Some c))
       else None)
      = (fun '(co, fp) => [pre0 +:+ co; fp])
          <$> match Spec.cut_at_dash (Spec.first_line (String c r)) with
              | Some (company, fingerprint) =>
                  Some (String c0 company, fingerprint)
              | None => None
              end).
    { cbn [Spec.first_line]. unfold Re.dot at 1.
      destruct (Ascii.eqb c Re.nl); [done|]. cbn [negb andb Re.may_take].
      replace ((pre0 +:+ String c0 "") +:+ String c r)
        with (((pre0 +:+ String c0 "") +:+ String c "") +:+ r)
        by (by rewrite (append_assoc _ (String c "") r)).
      cbn [Nat.pred Re.one_less fmap option_fmap option_map].
      rewrite (IH (pre0 +:+ String c0 "") c).
      destruct (Spec.cut_at_dash (String c (Spec.first_line r)))
        as [[co fp]|]; [|done].
      cbn [fmap option_fmap option_map]. by rewrite append_assoc. }
    destruct (Spec.without_prefix " - " (Spec.first_line (String c r)))
      as [[|d f]|]; [exact Hnext|reflexivity|exact Hnext].
Qed.

(** The title: [Auto-Activation Request - (.+?) - (.+)]. *)
Lemma title_match title :
  Re.re_match false title_pattern title
  = (fun '(co, fp) => [co; fp])
      <$> (Spec.without_prefix "Auto-Activation Request - " title
           ≫= fun rest => Spec.cut_at_dash (Spec.first_line rest)).
Proof.
  unfold Re.re_match, title_pattern. rewrite run_cat, run_lit.
  destruct (Spec.without_prefix _ title) as [rest|]; [|done].
  cbn [mbind option_bind]. rewrite run_cat.
  unfold Re.plus_lazy. cbn [Re.run]. fold (Re.plus Re.dot).
  destruct rest as [|c r]; [done|].
  cbn [Re.rep_lazy Spec.first_line]. unfold Re.dot at 1.
  destruct (Ascii.eqb c Re.nl); [done|]. cbn [negb andb Re.may_take].
  cbn [Nat.pred Re.one_less fmap option_fmap option_map].
  pose proof (rep_lazy_cut "" c r) as H. cbn [String.append] in H.
  etransitivity; [exact H|].
  by destruct (Spec.cut_at_dash _) as [[co fp]|].
Qed.

































End RequestRefinement.

(** C1 (the code departs from the claim).  Whatever request the validator
    accepts, the issuer refuses its fingerprint: the validator wants sixteen
    characters, the issuer at least thirty-two. *)
Theorem issuer_refuses_validated_fingerprint
    (isoformat : DateTime.datetime -> string)
    (sha256_hexdigest : string -> string)
    (title body : string) (duration now now_key : Z) :
  let info := ValidateRequest.extract_issue_info title body in
  ValidateRequest.valid info = true ->
  GenerateLicense.main isoformat sha256_hexdigest
    {| GenerateLicense.arg_fingerprint :=
         ValidateRequest.text (ValidateRequest.fingerprint info);
       GenerateLicense.arg_company :=
         ValidateRequest.text (ValidateRequest.company info);
       GenerateLicense.arg_email :=
         ValidateRequest.text (ValidateRequest.email info);
       GenerateLicense.arg_duration := duration |}
    now now_key
  = (None, SystemExit "ERROR: Invalid hardware fingerprint").
Proof.
  intros info Hvalid. subst info.
  apply valid_request_fingerprint, validated_fingerprint_length in Hvalid.
  unfold GenerateLicense.main. cbn [GenerateLicense.arg_fingerprint].
  assert (E : (String.length
                 (ValidateRequest.text
                    (ValidateRequest.fingerprint
                       (ValidateRequest.extract_issue_info title body)))
               <? 32)%nat = true) by (apply Nat.ltb_lt; lia).
  rewrite E. by rewrite orb_true_r.
Qed.

Lemma issuer_refuses_validated_fingerprint_witness :
  let title := "Auto-Activation Request - Acme Corp - AB12CD34EF56GH78" in
  let body := "Email: ops@acme.com" in
  ValidateRequest.fingerprint (ValidateRequest.extract_issue_info title body)
  = Some "AB12CD34EF56GH78"
  /\ GenerateLicense.main DateTime.isoformat (fun data => data)
       {| GenerateLicense.arg_fingerprint := "AB12CD34EF56GH78";
          GenerateLicense.arg_company := "Acme Corp";
          GenerateLicense.arg_email := "ops@acme.com";
          GenerateLicense.arg_duration := 30 |}
       (DateTime.at_time 2026 11 3 12 0 0) (DateTime.at_time 2026 11 3 12 0 0)
     = (None, SystemExit "ERROR: Invalid hardware fingerprint").
Proof.
  split; [reflexivity|].
  apply (issuer_refuses_validated_fingerprint DateTime.isoformat
           (fun data => data)
           "Auto-Activation Request - Acme Corp - AB12CD34EF56GH78"
           "Email: ops@acme.com" 30).
  reflexivity.
Defined.


(** ** Issuance *)
Section Issuance.
Import DateTime GenerateLicense.
Variable isoformat : datetime -> string.
Variable sha256_hexdigest : string -> string.

Lemma create_license_fields fingerprint company email d now now_key expires :
  add_days (Naive now) d = Ok expires ->
  exists license_data : dict,
    create_license isoformat sha256_hexdigest fingerprint company email d
      now now_key = Ok license_data
    /\ license_data !! "created_date" = Some (VStr (isoformat (Naive now)))
    /\ license_data !! "expires_date" = Some (VStr (isoformat expires))
    /\ license_data !! "status" = Some (VStr "active")
    /\ license_data !! "reactivation_count" = None.
Proof.
  intros H. unfold create_license. rewrite H.
  eexists. split; [reflexivity|]. repeat split; reflexivity.
Qed.

Lemma add_days_ticks d n d' :
  add_days d n = Ok d' ->
  ticks d' = ticks d + n * us_per_day
  /\ representable (ticks d') = true
  /\ with_ticks d (ticks d') = d'.
Proof.
  unfold add_days. destruct (Z.abs n >? 999999999); [done|].
  destruct (representable _) eqn:E; [|done].
  intros [= <-]. by destruct d.
Qed.

End Issuance.

(** C6 (as stated, refuted).  A call with duration 0 and otherwise good
    arguments is not rejected: [create_license] returns, and [main] prints,
    a record whose [expires_date] is its [created_date]. *)
Lemma issuance_accepts_zero_duration :
  let a :=
    {| GenerateLicense.arg_fingerprint := "AB12CD34EF56GH78AB12CD34EF56GH78";
       GenerateLicense.arg_company := "Acme Corp";
       GenerateLicense.arg_email := "ops@acme.com";
       GenerateLicense.arg_duration := 0 |} in
  let now := DateTime.at_time 2026 11 3 12 0 0 in
  GenerateLicense.arg_duration a <= 0
  /\ (forall sha256_hexdigest now_key,
        exists license_data : dict,
          GenerateLicense.create_license DateTime.isoformat sha256_hexdigest
            "AB12CD34EF56GH78AB12CD34EF56GH78" "Acme Corp" "ops@acme.com" 0
            now now_key
          = Ok license_data
          /\ fst (GenerateLicense.main DateTime.isoformat sha256_hexdigest a
                    now now_key)
             = Some license_data
          /\ license_data !! "created_date"
             = Some (VStr "2026-11-03T12:00:00")
          /\ license_data !! "expires_date"
             = Some (VStr "2026-11-03T12:00:00")).
Proof.
  split; [done|]. intros sha256_hexdigest now_key.
  eexists. split; [reflexivity|]. repeat split; reflexivity.
Qed.

(** C6 (as amended).  Issuance does not look at the sign of the duration.
    When the fingerprint, the company and the email pass the checks of
    [main] and [now] plus the duration is a date of the years 1 to 9999,
    [create_license] returns, and [main] prints, a record that is active, is
    created at [now] and expires the given number of days from [now]; the
    expiry is later than the creation exactly when the duration is
    positive. *)
Theorem issuance_window
    (isoformat : DateTime.datetime -> string)
    (sha256_hexdigest : string -> string)
    (a : GenerateLicense.args) (now now_key : Z)
    (expires : DateTime.datetime) :
  (32 <= String.length (GenerateLicense.arg_fingerprint a))%nat ->
  (2 <= String.length (GenerateLicense.arg_company a))%nat ->
  PyStr.contains "@" (GenerateLicense.arg_email a) = true ->
  DateTime.add_days (DateTime.Naive now) (GenerateLicense.arg_duration a)
  = Ok expires ->
  exists license_data : dict,
    GenerateLicense.create_license isoformat sha256_hexdigest
      (GenerateLicense.arg_fingerprint a) (GenerateLicense.arg_company a)
      (GenerateLicense.arg_email a) (GenerateLicense.arg_duration a)
      now now_key
    = Ok license_data
    /\ fst (GenerateLicense.main isoformat sha256_hexdigest a now now_key)
       = Some license_data
    /\ license_data !! "created_date"
       = Some (VStr (isoformat (DateTime.Naive now)))
    /\ license_data !! "expires_date" = Some (VStr (isoformat expires))
    /\ license_data !! "status" = Some (VStr "active")
    /\ expires
       = DateTime.Naive
           (now + GenerateLicense.arg_duration a * DateTime.us_per_day)
    /\ (now < DateTime.ticks expires <-> 0 < GenerateLicense.arg_duration a).
Proof.
  intros Hfp Hco Hem Hadd.
  destruct (create_license_fields isoformat sha256_hexdigest
              (GenerateLicense.arg_fingerprint a)
              (GenerateLicense.arg_company a) (GenerateLicense.arg_email a)
              _ _ now_key _ Hadd) as (ld & Hld & Hc & He & Hs & _).
  exists ld. split; [exact Hld|]. unfold GenerateLicense.main.
  assert (E1 : (String.length (GenerateLicense.arg_fingerprint a) <? 32)%nat
               = false) by (apply Nat.ltb_ge; lia).
  assert (E2 : (String.length (GenerateLicense.arg_company a) <? 2)%nat
               = false) by (apply Nat.ltb_ge; lia).
  assert (T1 : PyStr.truthy (GenerateLicense.arg_fingerprint a) = true)
    by (destruct (GenerateLicense.arg_fingerprint a); simpl in *; [lia|done]).
  assert (T2 : PyStr.truthy (GenerateLicense.arg_company a) = true)
    by (destruct (GenerateLicense.arg_company a); simpl in *; [lia|done]).
  assert (T3 : PyStr.truthy (GenerateLicense.arg_email a) = true)
    by (destruct (GenerateLicense.arg_email a); [discriminate|done]).
  rewrite E1, E2, T1, T2, T3, Hem, Hld. simpl.
  repeat (split; [done|]).
  apply add_days_ticks in Hadd as (Ht & _ & Hw). simpl in Ht, Hw.
  split; [by rewrite <- Hw, Ht|].
  rewrite Ht. unfold DateTime.us_per_day, DateTime.us_per_hour,
    DateTime.us_per_minute, DateTime.us_per_second. lia.
Qed.

Lemma issuance_window_witness :
  exists license_data : dict,
    fst (GenerateLicense.main DateTime.isoformat (fun data => data)
           {| GenerateLicense.arg_fingerprint :=
                "AB12CD34EF56GH78AB12CD34EF56GH78";
              GenerateLicense.arg_company := "Acme Corp";
              GenerateLicense.arg_email := "ops@acme.com";
              GenerateLicense.arg_duration := -1 |}
           (DateTime.at_time 2026 11 3 12 0 0)
           (DateTime.at_time 2026 11 3 12 0 1))
    = Some license_data
    /\ license_data !! "created_date" = Some (VStr "2026-11-03T12:00:00")
    /\ license_data !! "expires_date" = Some (VStr "2026-11-02T12:00:00").
Proof.
  destruct (issuance_window DateTime.isoformat (fun data => data)
              {| GenerateLicense.arg_fingerprint :=
                   "AB12CD34EF56GH78AB12CD34EF56GH78";
                 GenerateLicense.arg_company := "Acme Corp";
                 GenerateLicense.arg_email := "ops@acme.com";
                 GenerateLicense.arg_duration := -1 |}
              (DateTime.at_time 2026 11 3 12 0 0)
              (DateTime.at_time 2026 11 3 12 0 1)
              (DateTime.Naive (DateTime.at_time 2026 11 2 12 0 0)))
    as (ld & _ & H & Hc & He & _); [simpl; lia | simpl; lia | reflexivity
                                   | reflexivity |].
  exists ld. split; [exact H|]. split; [exact Hc | exact He].
Defined.

(** ** The expiry scan *)
Section ExpiryScan.
Import DateTime CheckExpiringLicenses.
Variable fromisoformat : string -> option datetime.

(** One turn of the loop. *)
Lemma scan_step cutoff (ld : dict) (licenses expiring : list dict) :
  scan fromisoformat cutoff (ld :: licenses) expiring
  = scan fromisoformat cutoff licenses
      (if Spec.is_expiring fromisoformat cutoff ld
       then expiring ++ [ld] else expiring).
Proof.
  cbn [scan]. unfold status_not_active, Spec.is_expiring, expires_by, truthy.
  destruct (ld !! "status") as [[| | | |st| |]|];
    destruct (ld !! "expires_date") as [[|eb|en|ex|s|el|ed]|];
    try reflexivity;
    (destruct (String.eqb st "active"); [|reflexivity]);
    cbn [negb andb default from_option id]; try reflexivity.
  - by destruct eb.
  - by destruct (en =? 0).
  - by destruct (PyFloat.eqb ex PyFloat.zero).
  - destruct s as [|c s]; [reflexivity|].
    cbn [negb PyStr.truthy andb].
    destruct (fromisoformat _) as [d|]; [|reflexivity].
    by destruct (le d cutoff) as [[|]|].
  - by destruct el.
  - by destruct (bool_decide (size ed = 0%nat)).
Qed.

(** The loop keeps the records that are active and expire by the cutoff, in
    the order of the input; no record stops it. *)
Lemma scan_filter cutoff (licenses expiring : list dict) :
  scan fromisoformat cutoff licenses expiring
  = expiring ++ List.filter (Spec.is_expiring fromisoformat cutoff) licenses.
Proof.
  revert expiring; induction licenses as [|ld licenses IH]; intros expiring.
  - simpl. by rewrite app_nil_r.
  - rewrite scan_step, IH. cbn [List.filter].
    destruct (Spec.is_expiring fromisoformat cutoff ld); [|done].
    by rewrite <- app_assoc.
Qed.

Lemma find_expiring_licenses_filter now licenses days_ahead cutoff :
  add_days (Naive now) days_ahead = Ok cutoff ->
  find_expiring_licenses fromisoformat now licenses days_ahead
  = Ok (List.filter (Spec.is_expiring fromisoformat cutoff) licenses).
Proof.
  intros H. unfold find_expiring_licenses. rewrite H. by rewrite scan_filter.
Qed.

End ExpiryScan.

(** Scenario 4 of the specification: of an expired record, an active one
    expiring in two days and an active one expiring in ten, a window of five
    days keeps the second; three records were scanned. *)
Example scan_scenario_4 :
  let record (status expires : string) : dict :=
    list_to_map [("status", VStr status); ("expires_date", VStr expires)] in
  let licenses :=
    [ record "expired" "2026-11-04T12:00:00";
      record "active" "2026-11-05T12:00:00";
      record "active" "2026-11-13T12:00:00" ] in
  CheckExpiringLicenses.main DateTime.fromisoformat
    (DateTime.at_time 2026 11 3 12 0 0) licenses
  = Ok (3%nat, 1%nat, [record "active" "2026-11-05T12:00:00"]).
Proof. reflexivity. Qed.

(** C3 (the code departs from the claim).  A record whose expiry reads as
    an aware date, as every expiry with the UTC suffix that the scan itself
    rewrites does, is never among the records the scan returns, however long
    ago it expired and whatever the window: the comparison with the naive
    cutoff raises and the record is skipped. *)
Theorem scan_never_keeps_aware_expiry
    (fromisoformat : string -> option DateTime.datetime)
    (now days_ahead : Z) (licenses expiring : list dict)
    (license_data : dict) (s : string) (t utcoffset : Z) :
  CheckExpiringLicenses.find_expiring_licenses fromisoformat now licenses
    days_ahead
  = Ok expiring ->
  license_data !! "expires_date" = Some (VStr s) ->
  fromisoformat (PyStr.replace "Z" "+00:00" s)
  = Some (DateTime.Aware t utcoffset) ->
  ~ In license_data expiring.
Proof.
  intros Hscan He Hp Hin.
  unfold CheckExpiringLicenses.find_expiring_licenses in Hscan.
  destruct (DateTime.add_days (DateTime.Naive now) days_ahead)
    as [cutoff|] eqn:Hc; [|discriminate].
  apply add_days_ticks in Hc as (_ & _ & Hc). simpl in Hc.
  injection Hscan as <-. rewrite scan_filter in Hin. simpl in Hin.
  apply filter_In in Hin as [_ Hk].
  unfold Spec.is_expiring in Hk. rewrite He, Hp, <- Hc in Hk. simpl in Hk.
  destruct (license_data !! "status") as [[| | | |st| |]|]; try discriminate.
  by rewrite andb_false_r in Hk.
Qed.

Lemma scan_never_keeps_aware_expiry_witness :
  let record (expires : string) : dict :=
    list_to_map [ ("hardware_fingerprint", VStr "AB12CD34EF56GH78");
                  ("status", VStr "active");
                  ("expires_date", VStr expires) ] in
  let utc := record "2020-01-01T00:00:00Z" in
  let naive := record "2026-11-05T12:00:00" in
  let now := DateTime.at_time 2026 11 3 12 0 0 in
  CheckExpiringLicenses.status_not_active utc = false
  /\ DateTime.fromisoformat (PyStr.replace "Z" "+00:00" "2020-01-01T00:00:00Z")
     = Some (DateTime.Aware (DateTime.at_time 2020 1 1 0 0 0) 0)
  /\ CheckExpiringLicenses.expires_by DateTime.fromisoformat
       (DateTime.Naive (now + 5 * DateTime.us_per_day))
       (VStr "2020-01-01T00:00:00Z")
     = Raise TypeError
  /\ CheckExpiringLicenses.find_expiring_licenses DateTime.fromisoformat now
       [utc; naive] 5
     = Ok [naive]
  /\ ~ In utc [naive].
Proof.
  intros record utc naive now. repeat (split; [reflexivity|]).
  apply (scan_never_keeps_aware_expiry DateTime.fromisoformat now 5
           [utc; naive] [naive] utc "2020-01-01T00:00:00Z"
           (DateTime.at_time 2020 1 1 0 0 0) 0);
    reflexivity.
Defined.

(** ** Reactivation *)
Section Reactivation.
Import DateTime AutoReactivate Spec.
Variable fromisoformat : string -> option datetime.
Variable isoformat : datetime -> string.

Lemma preserves_ret {A} key (a : A) : preserves key (ret a).
Proof. by intros d. Qed.

Lemma preserves_lift {A} key (r : result A) : preserves key (lift r).
Proof. by intros d. Qed.

Lemma preserves_getitem key k : preserves key (getitem k).
Proof. intros d. unfold getitem. by destruct (d !! k). Qed.

Lemma preserves_get key k dflt : preserves key (get k dflt).
Proof. by intros d. Qed.

Lemma preserves_setitem key k v : k <> key -> preserves key (setitem k v).
Proof. intros Hne d. simpl. by rewrite lookup_insert_ne. Qed.

Lemma preserves_bind {A B} key (m : M A) (k : A -> M B) :
  preserves key m -> (forall a, preserves key (k a)) ->
  preserves key (bind m k).
Proof.
  intros Hm Hk d. unfold bind. specialize (Hm d).
  destruct (m d) as [[a|e] d']; simpl in *; [|done].
  by rewrite Hk.
Qed.

Lemma reactivate_license_preserves now key :
  key <> "expires_date" -> key <> "last_reactivated" ->
  key <> "reactivation_count" -> key <> "status" ->
  preserves key (reactivate_license fromisoformat isoformat now).
Proof.
  intros H1 H2 H3 H4. unfold reactivate_license.
  repeat (apply preserves_bind; [|intros ?]);
    auto using preserves_getitem, preserves_lift, preserves_get,
      preserves_setitem.
Qed.

(** One reactivation of a record whose expiry reads as [T], thirty days
    before [T']. *)
Lemma reactivate_license_once now (license_data : dict) s T T' n :
  license_data !! "expires_date" = Some (VStr s) ->
  fromisoformat (PyStr.replace "Z" "+00:00" s) = Some T ->
  add_days T 30 = Ok T' ->
  Spec.reactivation_count license_data = Some n ->
  reactivate_license fromisoformat isoformat now license_data
  = (Ok tt,
     <["status" := VStr "active"]>
       (<["reactivation_count" := VInt (n + 1)]>
          (<["last_reactivated" := VStr (isoformat (Naive now))]>
             (<["expires_date" := VStr (isoformat T')]> license_data)))).
Proof.
  intros He Hp Ha Hn.
  unfold reactivate_license, bind, getitem, lift, get, setitem, parse.
  rewrite He. simpl. rewrite Hp, Ha.
  rewrite lookup_insert_ne by done. rewrite lookup_insert_ne by done.
  unfold Spec.reactivation_count in Hn.
  destruct (license_data !! "reactivation_count") as [[| | | | | |]|];
    simplify_eq; done.
Qed.

End Reactivation.

(** C2 (as stated, refuted).  The expiry 9999-12-15 is read without error,
    but thirty days later is no date of the calendar: reactivation raises
    [OverflowError] and the record keeps its expiry. *)
Lemma reactivation_overflows_in_9999 :
  let license_data : dict :=
    list_to_map [ ("hardware_fingerprint", VStr "AB12CD34EF56GH78");
                  ("status", VStr "active");
                  ("expires_date", VStr "9999-12-15T00:00:00") ] in
  let now := DateTime.at_time 2026 11 3 12 0 0 in
  DateTime.fromisoformat (PyStr.replace "Z" "+00:00" "9999-12-15T00:00:00")
  = Some (DateTime.Naive (DateTime.at_time 9999 12 15 0 0 0))
  /\ AutoReactivate.reactivate_license DateTime.fromisoformat
       DateTime.isoformat now license_data
     = (Raise OverflowError, license_data)
  /\ AutoReactivate.reactivated DateTime.fromisoformat DateTime.isoformat now
       license_data
     = None.
Proof. repeat split; reflexivity. Qed.

(** C2 (as amended).  Take a record whose [expires_date] reads as [T], whose
    [reactivation_count] is absent or an integer [n] (0 when absent), and for
    which [T] plus thirty days is still a date [T'] of the years 1 to 9999.
    Reactivation returns the record with [expires_date] set to [T'], which
    is [T] moved by thirty days, [last_reactivated] set to now,
    [reactivation_count] set to [n + 1] and [status] set to active.  When the
    text written for [T'] reads back as [T'] and thirty more days are still
    a date [T''], a second reactivation, at any time, sets [expires_date] to
    [T''], which is [T] moved by sixty days, and the count to [n + 2]. *)
Theorem reactivation_extends_expiry
    (fromisoformat : string -> option DateTime.datetime)
    (isoformat : DateTime.datetime -> string)
    (now : Z) (license_data : dict) (s : string)
    (T T' : DateTime.datetime) (n : Z) :
  license_data !! "expires_date" = Some (VStr s) ->
  fromisoformat (PyStr.replace "Z" "+00:00" s) = Some T ->
  DateTime.add_days T 30 = Ok T' ->
  Spec.reactivation_count license_data = Some n ->
  exists license_data' : dict,
    AutoReactivate.reactivate_license fromisoformat isoformat now license_data
    = (Ok tt, license_data')
    /\ license_data' !! "expires_date" = Some (VStr (isoformat T'))
    /\ T' = DateTime.with_ticks T
              (DateTime.ticks T + 30 * DateTime.us_per_day)
    /\ license_data' !! "last_reactivated"
       = Some (VStr (isoformat (DateTime.Naive now)))
    /\ license_data' !! "reactivation_count" = Some (VInt (n + 1))
    /\ license_data' !! "status" = Some (VStr "active")
    /\ forall (now2 : Z) (T'' : DateTime.datetime),
         fromisoformat (PyStr.replace "Z" "+00:00" (isoformat T')) = Some T' ->
         DateTime.add_days T' 30 = Ok T'' ->
         exists license_data'' : dict,
           AutoReactivate.reactivate_license fromisoformat isoformat now2
             license_data'
           = (Ok tt, license_data'')
           /\ license_data'' !! "expires_date" = Some (VStr (isoformat T''))
           /\ T'' = DateTime.with_ticks T
                      (DateTime.ticks T + 60 * DateTime.us_per_day)
           /\ license_data'' !! "reactivation_count" = Some (VInt (n + 2))
           /\ license_data'' !! "status" = Some (VStr "active").
Proof.
  intros He Hp Ha Hn.
  eexists. split.
  { apply (reactivate_license_once _ _ _ _ _ _ _ _ He Hp Ha Hn). }
  pose proof (add_days_ticks _ _ _ Ha) as (Ht & _ & Hw).
  split; [by simplify_map_eq|].
  split; [by rewrite <- Ht|].
  split; [by simplify_map_eq|].
  split; [by simplify_map_eq|].
  split; [by simplify_map_eq|].
  intros now2 T'' Hp' Ha'.
  eexists. split.
  { eapply (reactivate_license_once _ _ now2 _ _ T' T'' (n + 1));
      [by simplify_map_eq | exact Hp' | exact Ha' |].
    unfold Spec.reactivation_count. by simplify_map_eq. }
  pose proof (add_days_ticks _ _ _ Ha') as (Ht' & _ & Hw').
  split; [by simplify_map_eq|].
  split.
  { rewrite <- Hw', Ht', <- Hw, Ht. destruct T; simpl; f_equal; lia. }
  split; [|by simplify_map_eq].
  simplify_map_eq. do 2 f_equal. lia.
Qed.

Lemma reactivation_extends_expiry_witness :
  let license_data : dict :=
    list_to_map [ ("hardware_fingerprint", VStr "AB12CD34EF56GH78");
                  ("status", VStr "active");
                  ("expires_date", VStr "2026-11-05T12:00:00") ] in
  exists license_data' license_data'' : dict,
    AutoReactivate.reactivate_license DateTime.fromisoformat
      DateTime.isoformat (DateTime.at_time 2026 11 3 12 0 0) license_data
    = (Ok tt, license_data')
    /\ license_data' !! "expires_date" = Some (VStr "2026-12-05T12:00:00")
    /\ license_data' !! "reactivation_count" = Some (VInt 1)
    /\ AutoReactivate.reactivate_license DateTime.fromisoformat
         DateTime.isoformat (DateTime.at_time 2026 11 3 12 0 1) license_data'
       = (Ok tt, license_data'')
    /\ license_data'' !! "expires_date" = Some (VStr "2027-01-04T12:00:00")
    /\ license_data'' !! "reactivation_count" = Some (VInt 2).
Proof.
  intros license_data.
  destruct (reactivation_extends_expiry DateTime.fromisoformat
              DateTime.isoformat (DateTime.at_time 2026 11 3 12 0 0)
              license_data "2026-11-05T12:00:00"
              (DateTime.Naive (DateTime.at_time 2026 11 5 12 0 0))
              (DateTime.Naive (DateTime.at_time 2026 12 5 12 0 0)) 0)
    as (ld' & H1 & H2 & _ & _ & H5 & _ & Htwice); try reflexivity.
  destruct (Htwice (DateTime.at_time 2026 11 3 12 0 1)
              (DateTime.Naive (DateTime.at_time 2027 1 4 12 0 0)))
    as (ld'' & G1 & G2 & _ & G4 & _); try reflexivity.
  exists ld', ld''. repeat split; assumption.
Defined.

(** C9.  Reactivation, whether it returns or raises, leaves every key of the
    record other than [expires_date], [last_reactivated],
    [reactivation_count] and [status] as it was; so [license_key],
    [created_date], [hardware_fingerprint], [company_name] and
    [contact_email] are the same before and after. *)
Theorem reactivation_keeps_other_fields
    (fromisoformat : string -> option DateTime.datetime)
    (isoformat : DateTime.datetime -> string)
    (now : Z) (license_data : dict) :
  let after : dict :=
    snd (AutoReactivate.reactivate_license fromisoformat isoformat now
           license_data) in
  (forall key : string,
     key <> "expires_date" -> key <> "last_reactivated" ->
     key <> "reactivation_count" -> key <> "status" ->
     after !! key = license_data !! key)
  /\ after !! "license_key" = license_data !! "license_key"
  /\ after !! "created_date" = license_data !! "created_date"
  /\ after !! "hardware_fingerprint" = license_data !! "hardware_fingerprint"
  /\ after !! "company_name" = license_data !! "company_name"
  /\ after !! "contact_email" = license_data !! "contact_email".
Proof.
  intros after. subst after.
  assert (H : forall key : string,
     key <> "expires_date" -> key <> "last_reactivated" ->
     key <> "reactivation_count" -> key <> "status" ->
     snd (AutoReactivate.reactivate_license fromisoformat isoformat now
            license_data) !! key = license_data !! key).
  { intros key H1 H2 H3 H4.
    by apply reactivate_license_preserves. }
  split; [exact H|]. repeat split; by apply H.
Qed.

Lemma reactivation_keeps_other_fields_witness :
  let license_data : dict :=
    list_to_map [ ("license_key", VStr "0F1E2D3C4B5A69788796A5B4C3D2E1F0");
                  ("hardware_fingerprint", VStr "AB12CD34EF56GH78");
                  ("created_date", VStr "2026-10-06T12:00:00");
                  ("expires_date", VStr "2026-11-05T12:00:00");
                  ("status", VStr "active") ] in
  AutoReactivate.reactivated DateTime.fromisoformat DateTime.isoformat
    (DateTime.at_time 2026 11 3 12 0 0) license_data
  <> None
  /\ snd (AutoReactivate.reactivate_license DateTime.fromisoformat
            DateTime.isoformat (DateTime.at_time 2026 11 3 12 0 0)
            license_data) !! "license_key"
     = Some (VStr "0F1E2D3C4B5A69788796A5B4C3D2E1F0").
Proof.
  split; [discriminate|].
  etransitivity;
    [apply (proj1 (reactivation_keeps_other_fields DateTime.fromisoformat
                     DateTime.isoformat (DateTime.at_time 2026 11 3 12 0 0)
                     _) "license_key"); discriminate
    | reflexivity].
Defined.

(** * Further properties of the scripts *)

(** ** [validate-version.py]: the order on versions *)
Section VersionOrder.
Import ValidateVersion.

Lemma lex_compare_refl z : Spec.lex_compare z z = 0.
Proof.
  induction z as [|x z IH]; simpl; [done|].
  destruct (Z.gtb_spec x x), (Z.ltb_spec x x); lia.
Qed.

(** Equal tails do not change the comparison of lists of equal length. *)
Lemma lex_compare_app x y z :
  length x = length y ->
  Spec.lex_compare (x ++ z) (y ++ z) = Spec.lex_compare x y.
Proof.
  revert y; induction x as [|a x IH]; intros [|b y] Hl; simpl in *;
    try discriminate.
  - apply lex_compare_refl.
  - destruct (a >? b); [done|]. destruct (a <? b); [done|].
    apply IH. lia.
Qed.

Lemma zero_pad_more n N xs :
  (length xs <= n)%nat -> (n <= N)%nat ->
  Spec.zero_pad N xs = Spec.zero_pad n xs ++ repeat 0 (N - n).
Proof.
  intros H1 H2. unfold Spec.zero_pad. rewrite <- app_assoc, <- repeat_app.
  do 2 f_equal. lia.
Qed.

(** Padding further than the longer of the two changes nothing. *)
Lemma compare_versions_padded a b x y N :
  parts a = Some x -> parts b = Some y ->
  (length x <= N)%nat -> (length y <= N)%nat ->
  compare_versions a b
  = Spec.lex_compare (Spec.zero_pad N x) (Spec.zero_pad N y).
Proof.
  intros Ha Hb Hx Hy. rewrite compare_versions_tuples.
  unfold Spec.compare_tuples. rewrite Ha, Hb. cbv zeta.
  set (n := Nat.max (length x) (length y)).
  rewrite (zero_pad_more n N x), (zero_pad_more n N y) by lia.
  rewrite lex_compare_app; [done|].
  rewrite !length_zero_pad. lia.
Qed.

Lemma lex_compare_trans x y z :
  length x = length y -> length y = length z ->
  0 <= Spec.lex_compare x y -> 0 <= Spec.lex_compare y z ->
  0 <= Spec.lex_compare x z
  /\ (Spec.lex_compare x y = 1 \/ Spec.lex_compare y z = 1 ->
      Spec.lex_compare x z = 1).
Proof.
  revert y z; induction x as [|a x IH]; intros [|b y] [|c z] H1 H2;
    simpl in *; try discriminate.
  - intros _ _. split; [lia|]. intros [?|?]; lia.
  - destruct (Z.gtb_spec a b), (Z.ltb_spec a b), (Z.gtb_spec b c),
      (Z.ltb_spec b c), (Z.gtb_spec a c), (Z.ltb_spec a c);
      try lia; intros Hxy Hyz; try (split; [lia|intros; lia]).
    apply IH; lia.
Qed.

(** The part of transitivity that the decision flags rely on. *)
Lemma compare_versions_not_below a b c :
  is_Some (parts a) -> is_Some (parts b) -> is_Some (parts c) ->
  0 <= compare_versions a b -> 0 <= compare_versions b c ->
  0 <= compare_versions a c.
Proof.
  intros [x Hx] [y Hy] [z Hz].
  set (N := Nat.max (length x) (Nat.max (length y) (length z))).
  rewrite (compare_versions_padded a b x y N Hx Hy) by lia.
  rewrite (compare_versions_padded b c y z N Hy Hz) by lia.
  rewrite (compare_versions_padded a c x z N Hx Hz) by lia.
  intros H1 H2.
  apply (lex_compare_trans (Spec.zero_pad N x) (Spec.zero_pad N y)
           (Spec.zero_pad N z)); rewrite ?length_zero_pad; lia.
Qed.

End VersionOrder.

(** X1.  [compare_versions] answers -1, 0 or 1 and nothing else, and a
    version compared with itself gives 0, well formed or not. *)
Theorem compare_versions_sign :
  (forall v1 v2,
     ValidateVersion.compare_versions v1 v2 = -1
     \/ ValidateVersion.compare_versions v1 v2 = 0
     \/ ValidateVersion.compare_versions v1 v2 = 1)
  /\ (forall v, ValidateVersion.compare_versions v v = 0).
Proof.
  split; [exact compare_versions_range|].
  intros v. pose proof (compare_versions_antisym v v). lia.
Qed.

(** X2.  On versions whose components are all numeric the comparison is
    transitive: if [a] is not below [b] and [b] not below [c] then [a] is not
    below [c], and [a] is above [c] as soon as one of the two steps is
    strict. *)
Theorem compare_versions_transitive (a b c : string) :
  is_Some (ValidateVersion.parts a) ->
  is_Some (ValidateVersion.parts b) ->
  is_Some (ValidateVersion.parts c) ->
  0 <= ValidateVersion.compare_versions a b ->
  0 <= ValidateVersion.compare_versions b c ->
  0 <= ValidateVersion.compare_versions a c
  /\ (ValidateVersion.compare_versions a b = 1
      \/ ValidateVersion.compare_versions b c = 1 ->
      ValidateVersion.compare_versions a c = 1).
Proof.
  intros [x Hx] [y Hy] [z Hz].
  set (N := Nat.max (length x) (Nat.max (length y) (length z))).
  rewrite (compare_versions_padded a b x y N Hx Hy) by lia.
  rewrite (compare_versions_padded b c y z N Hy Hz) by lia.
  rewrite (compare_versions_padded a c x z N Hx Hz) by lia.
  apply lex_compare_trans; rewrite !length_zero_pad; lia.
Qed.

Lemma compare_versions_transitive_witness :
  ValidateVersion.compare_versions "3.2.5" "3.2" = 1.
Proof.
  apply (compare_versions_transitive "3.2.5" "3.2.4.0" "3.2");
    [by eexists | by eexists | by eexists | done | done |].
  left. reflexivity.
Defined.

(** Without the numeric components the comparison is not transitive: a
    malformed version compares equal to both of two different ones. *)
Example compare_versions_malformed_between :
  ValidateVersion.compare_versions "1.0" "latest" = 0
  /\ ValidateVersion.compare_versions "latest" "2.0" = 0
  /\ ValidateVersion.compare_versions "1.0" "2.0" = -1.
Proof. repeat split; reflexivity. Qed.

(** ** [validate-version.py]: the decision *)

(** X3.  When the configured latest version is not below the configured
    minimum and all three versions are numeric, a client version that is
    flagged as the latest is also flagged as acceptable, on every path. *)
Theorem validate_version_latest_is_acceptable
    (cv : option string) (v minimum latest : string)
    (is_react allow : bool) :
  ValidateVersion.provided cv = Some v ->
  is_Some (ValidateVersion.parts v) ->
  is_Some (ValidateVersion.parts minimum) ->
  is_Some (ValidateVersion.parts latest) ->
  0 <= ValidateVersion.compare_versions latest minimum ->
  let r := ValidateVersion.validate_version cv minimum latest is_react allow in
  ValidateVersion.is_latest r = true -> ValidateVersion.is_acceptable r = true.
Proof.
  intros Hcv Hv Hm Hl Hcfg r. subst r.
  assert (Hflags :
    ValidateVersion.is_latest
      (ValidateVersion.validate_version cv minimum latest is_react allow)
    = (ValidateVersion.compare_versions v latest >=? 0)
    /\ ValidateVersion.is_acceptable
         (ValidateVersion.validate_version cv minimum latest is_react allow)
       = (ValidateVersion.compare_versions v minimum >=? 0)).
  { unfold ValidateVersion.validate_version. rewrite Hcv.
    destruct (is_react && allow); simpl.
    - by destruct (ValidateVersion.compare_versions v latest >=? 0).
    - destruct (ValidateVersion.compare_versions v minimum <? 0); [done|].
      by destruct (ValidateVersion.compare_versions v latest <? 0). }
  destruct Hflags as [-> ->]. rewrite !Z.geb_leb, !Z.leb_le. intros Hlat.
  by apply (compare_versions_not_below v latest minimum).
Qed.

Lemma validate_version_latest_is_acceptable_witness :
  ValidateVersion.is_acceptable
    (ValidateVersion.validate_version (Some "3.3") "3.2.4" "3.3.0" false true)
  = true.
Proof.
  apply (validate_version_latest_is_acceptable (Some "3.3") "3.3" "3.2.4"
           "3.3.0" false true);
    [reflexivity | by eexists | by eexists | by eexists | done | reflexivity].
Defined.

(** X4.  A reactivation with a version, under a policy that allows older
    reactivations, is always valid, also below the minimum; it is flagged
    warning-only exactly when the version compares below the latest, and the
    message tells which of the two it is. *)
Theorem validate_version_reactivation_with_version
    (cv : option string) (v minimum latest : string) :
  ValidateVersion.provided cv = Some v ->
  let r := ValidateVersion.validate_version cv minimum latest true true in
  ValidateVersion.valid r = true
  /\ (ValidateVersion.warning_only r = true
      <-> ValidateVersion.compare_versions v latest < 0)
  /\ ValidateVersion.message r
     = (if ValidateVersion.compare_versions v latest <? 0
        then ValidateVersion.msg_reactivation_older v latest
        else ValidateVersion.msg_reactivation_current v)
  /\ ValidateVersion.is_acceptable r
     = (0 <=? ValidateVersion.compare_versions v minimum).
Proof.
  intros Hcv r. subst r. unfold ValidateVersion.validate_version.
  rewrite Hcv. cbn [andb]. rewrite !Z.geb_leb.
  destruct (Z.leb_spec 0 (ValidateVersion.compare_versions v latest)),
    (Z.ltb_spec (ValidateVersion.compare_versions v latest) 0);
    try lia; simpl; (split; [done|]); (split; [|done]);
    split; intros; (done || lia).
Qed.

Lemma validate_version_reactivation_with_version_witness :
  let r :=
    ValidateVersion.validate_version (Some "1.0.0") "3.2.4" "3.2.4"
      true true in
  ValidateVersion.valid r = true /\ ValidateVersion.is_acceptable r = false.
Proof.
  split; [|reflexivity].
  exact (proj1 (validate_version_reactivation_with_version (Some "1.0.0")
                  "1.0.0" "3.2.4" "3.2.4" eq_refl)).
Defined.

(** X5.  Whatever the inputs, a decision flagged warning-only is a valid
    one, an invalid decision is never flagged, and the message is never
    empty. *)
Theorem validate_version_warning_is_valid
    (cv : option string) (minimum latest : string) (is_react allow : bool) :
  let r := ValidateVersion.validate_version cv minimum latest is_react allow in
  (ValidateVersion.warning_only r = true -> ValidateVersion.valid r = true)
  /\ (ValidateVersion.valid r = false -> ValidateVersion.warning_only r = false)
  /\ ValidateVersion.message r <> "".
Proof.
  intros r. subst r. unfold ValidateVersion.validate_version.
  destruct (ValidateVersion.provided cv) as [v|].
  - rewrite !Z.geb_leb. destruct (is_react && allow); cbn [andb].
    + destruct (Z.leb_spec 0 (ValidateVersion.compare_versions v latest));
        simpl; repeat split; try done.
    + destruct (Z.ltb_spec (ValidateVersion.compare_versions v minimum) 0),
        (Z.leb_spec 0 (ValidateVersion.compare_versions v minimum));
        try lia; simpl.
      * repeat split; try done.
      * destruct (ValidateVersion.compare_versions v latest <? 0); simpl;
          repeat split; try done.
  - destruct (is_react && allow); simpl; repeat split; done.
Qed.

(** X6.  [validate_hardware_fingerprint] accepts exactly the strings of
    sixteen ASCII letters and digits, and those followed by one line feed
    (which [$] lets pass). *)
Theorem validate_hardware_fingerprint_accepts (fp : string) :
  ValidateRequest.validate_hardware_fingerprint fp = true
  <-> exists core,
        String.length core = 16%nat
        /\ Spec.all_chars PyStr.isalnum_ascii core = true
        /\ (fp = core \/ fp = core +:+ String Re.nl "").
Proof.
  split; [apply validate_hardware_fingerprint_inv|].
  intros (core & Hl & Hall & Hfp).
  unfold ValidateRequest.validate_hardware_fingerprint.
  rewrite bool_decide_eq_true.
  unfold Re.re_match, ValidateRequest.fingerprint_pattern, Re.exactly.
  cbn [Re.run]. rewrite <- Hl.
  destruct Hfp as [-> | ->].
  - rewrite <- (append_empty core) at 3.
    rewrite (rep_greedy_exactly_run _ core "" _ Hall). by eexists.
  - rewrite (rep_greedy_exactly_run _ core _ _ Hall). by eexists.
Qed.

(** X7.  In a request that [extract_issue_info] marks valid the fingerprint
    is exactly sixteen ASCII letters and digits: the value was stripped, so
    the line feed that [validate_hardware_fingerprint] would let pass cannot
    be there. *)
Theorem valid_request_fingerprint_sixteen (title body : string) :
  ValidateRequest.valid (ValidateRequest.extract_issue_info title body) = true ->
  exists fp,
    ValidateRequest.fingerprint (ValidateRequest.extract_issue_info title body)
    = Some fp
    /\ String.length fp = 16%nat
    /\ Spec.all_chars PyStr.isalnum_ascii fp = true.
Proof.
  intros H. apply valid_request_fields in H as (Hf & _ & _).
  unfold Spec.fingerprint_errors in Hf.
  destruct (ValidateRequest.fingerprint
              (ValidateRequest.extract_issue_info title body))
    as [fp|] eqn:E; [|done].
  exists fp. split; [done|].
  destruct (negb (ValidateRequest.truthy (Some fp))); [done|].
  simpl in Hf.
  destruct (ValidateRequest.validate_hardware_fingerprint fp) eqn:Hv;
    [|done].
  apply validate_hardware_fingerprint_inv in Hv as (core & Hl & Hall & Hfp).
  destruct Hfp as [-> | ->]; [done|].
  apply fingerprint_stripped in E as [x Hx]. symmetry in Hx.
  by apply strip_last in Hx.
Qed.

Lemma valid_request_fingerprint_sixteen_witness :
  exists fp,
    ValidateRequest.fingerprint
      (ValidateRequest.extract_issue_info
         "Auto-Activation Request - Acme Corp - AB12CD34EF56GH78 "
         "Email: ops@acme.com")
    = Some fp
    /\ String.length fp = 16%nat
    /\ Spec.all_chars PyStr.isalnum_ascii fp = true.
Proof.
  apply (valid_request_fingerprint_sixteen
           "Auto-Activation Request - Acme Corp - AB12CD34EF56GH78 "
           "Email: ops@acme.com").
  reflexivity.
Defined.

(** X8.  The email comes from the body only: when the body does not hold
    the text "Email:", and so when it is empty, the request is invalid and
    "Contact email not found" is among its errors, whatever the title. *)
Theorem request_without_email_label (title body : string) :
  PyStr.contains "Email:" body = false ->
  let info := ValidateRequest.extract_issue_info title body in
  ValidateRequest.email info = None
  /\ ValidateRequest.valid info = false
  /\ In "Contact email not found" (ValidateRequest.errors info).
Proof.
  intros Hb info. subst info.
  assert (He : ValidateRequest.email
                 (ValidateRequest.extract_issue_info title body) = None).
  { unfold ValidateRequest.extract_issue_info.
    cbn [ValidateRequest.email].
    destruct (PyStr.truthy body); [|done].
    destruct (ValidateRequest.body_field "Email:" body) as [v|] eqn:E;
      [|done].
    apply body_field_label in E. congruence. }
  assert (Hin : In "Contact email not found"
                  (ValidateRequest.errors
                     (ValidateRequest.extract_issue_info title body))).
  { rewrite extract_issue_info_errors. cbv zeta. rewrite He.
    apply in_or_app. right. apply in_or_app. right. by left. }
  split; [done|]. split; [|done].
  destruct (ValidateRequest.valid
              (ValidateRequest.extract_issue_info title body)) eqn:Hv; [|done].
  apply extract_issue_info_valid in Hv. rewrite Hv in Hin. by destruct Hin.
Qed.

Lemma request_without_email_label_witness :
  ValidateRequest.valid
    (ValidateRequest.extract_issue_info
       "Auto-Activation Request - Acme Corp - AB12CD34EF56GH78" "")
  = false.
Proof.
  exact (proj1 (proj2 (request_without_email_label
                         "Auto-Activation Request - Acme Corp - AB12CD34EF56GH78"
                         "" eq_refl))).
Defined.

(** ** [generate-license.py]: what [main] lets through *)
Section IssuerChecks.
Import DateTime GenerateLicense.
Variable isoformat : datetime -> string.
Variable sha256_hexdigest : string -> string.

Lemma truthy_of_length s n :
  (S n <= String.length s)%nat -> PyStr.truthy s = true.
Proof. destruct s; simpl; [lia|done]. Qed.

(** A run that passes the three checks and has a date to expire on prints
    the record of [create_license] and then fails on [os]. *)
Lemma main_prints (a : args) now now_key expires :
  (32 <= String.length (arg_fingerprint a))%nat ->
  (2 <= String.length (arg_company a))%nat ->
  PyStr.contains "@" (arg_email a) = true ->
  add_days (Naive now) (arg_duration a) = Ok expires ->
  exists license_data : dict,
    create_license isoformat sha256_hexdigest (arg_fingerprint a)
      (arg_company a) (arg_email a) (arg_duration a) now now_key
    = Ok license_data
    /\ main isoformat sha256_hexdigest a now now_key
       = (Some license_data, NameError "os").
Proof.
  intros Hfp Hco Hem Hadd.
  destruct (create_license_fields isoformat sha256_hexdigest
              (arg_fingerprint a) (arg_company a) (arg_email a)
              _ _ now_key _ Hadd) as (ld & Hld & _).
  exists ld. split; [done|]. unfold main.
  assert (E1 : (String.length (arg_fingerprint a) <? 32)%nat = false)
    by (apply Nat.ltb_ge; lia).
  assert (E2 : (String.length (arg_company a) <? 2)%nat = false)
    by (apply Nat.ltb_ge; lia).
  assert (T3 : PyStr.truthy (arg_email a) = true)
    by (destruct (arg_email a); [discriminate|done]).
  by rewrite E1, E2, (truthy_of_length _ 31 Hfp), (truthy_of_length _ 1 Hco),
    T3, Hem, Hld.
Qed.

(** Conversely, a run that prints a record passed the three checks. *)
Lemma main_prints_inv (a : args) now now_key license_data :
  fst (main isoformat sha256_hexdigest a now now_key) = Some license_data ->
  (32 <= String.length (arg_fingerprint a))%nat
  /\ (2 <= String.length (arg_company a))%nat
  /\ PyStr.contains "@" (arg_email a) = true
  /\ exists expires, add_days (Naive now) (arg_duration a) = Ok expires.
Proof.
  unfold main, create_license.
  destruct (Nat.ltb_spec (String.length (arg_fingerprint a)) 32);
    [by rewrite orb_true_r|].
  destruct (Nat.ltb_spec (String.length (arg_company a)) 2);
    [rewrite orb_true_r; by repeat case_match|].
  destruct (PyStr.contains "@" (arg_email a));
    [|rewrite orb_true_r; by repeat case_match].
  destruct (add_days (Naive now) (arg_duration a)) as [expires|];
    [|by repeat case_match].
  intros _. repeat split; try done. by exists expires.
Qed.

Lemma upper_char_not_lower c :
  PyStr.islower_ascii (PyStr.upper_char c) = false.
Proof. by destruct c as [[] [] [] [] [] [] [] []]. Qed.

Lemma upper_no_lower s :
  Spec.all_chars (fun c => negb (PyStr.islower_ascii c)) (PyStr.upper s)
  = true.
Proof.
  induction s as [|c s IH]; simpl; [done|].
  by rewrite upper_char_not_lower, IH.
Qed.

Lemma length_upper s : String.length (PyStr.upper s) = String.length s.
Proof. induction s as [|c s IH]; simpl; [done|]. by rewrite IH. Qed.

Lemma length_take n s :
  String.length (PyStr.take n s) = Nat.min n (String.length s).
Proof.
  revert s; induction n as [|n IH]; intros [|c s]; simpl; try done.
  by rewrite IH.
Qed.

End IssuerChecks.

(** X9.  [main] of the issuer prints a record exactly when the fingerprint
    has at least 32 characters, the company at least 2, the email holds "@"
    and [now] plus the duration is a date of the years 1 to 9999; and every
    run that prints a record then ends in [NameError], on the name [os] that
    the script never imports. *)
Theorem issuer_main_prints_iff
    (isoformat : DateTime.datetime -> string)
    (sha256_hexdigest : string -> string)
    (a : GenerateLicense.args) (now now_key : Z) :
  ((exists license_data : dict,
      fst (GenerateLicense.main isoformat sha256_hexdigest a now now_key)
      = Some license_data)
   <-> (32 <= String.length (GenerateLicense.arg_fingerprint a))%nat
       /\ (2 <= String.length (GenerateLicense.arg_company a))%nat
       /\ PyStr.contains "@" (GenerateLicense.arg_email a) = true
       /\ exists expires,
            DateTime.add_days (DateTime.Naive now)
              (GenerateLicense.arg_duration a)
            = Ok expires)
  /\ (forall license_data : dict,
        fst (GenerateLicense.main isoformat sha256_hexdigest a now now_key)
        = Some license_data ->
        snd (GenerateLicense.main isoformat sha256_hexdigest a now now_key)
        = NameError "os").
Proof.
  split; [split|].
  - intros [ld H]. by apply main_prints_inv in H.
  - intros (Hfp & Hco & Hem & expires & Hadd).
    destruct (main_prints isoformat sha256_hexdigest a now now_key expires
                Hfp Hco Hem Hadd) as (ld & _ & Hmain).
    exists ld. by rewrite Hmain.
  - intros ld H.
    destruct (main_prints_inv _ _ _ _ _ _ H) as (Hfp & Hco & Hem & e & Hadd).
    destruct (main_prints isoformat sha256_hexdigest a now now_key e
                Hfp Hco Hem Hadd) as (ld' & _ & Hmain).
    by rewrite Hmain.
Qed.

(** X10.  A request that the validator accepts passes the company and the
    email checks of the issuer: given a fingerprint of at least 32
    characters in place of its own and a duration that stays within the
    calendar, the issuer prints a record for it. *)
Theorem validated_request_passes_company_and_email
    (isoformat : DateTime.datetime -> string)
    (sha256_hexdigest : string -> string)
    (title body fingerprint32 : string) (duration now now_key : Z)
    (expires : DateTime.datetime) :
  let info := ValidateRequest.extract_issue_info title body in
  ValidateRequest.valid info = true ->
  (32 <= String.length fingerprint32)%nat ->
  DateTime.add_days (DateTime.Naive now) duration = Ok expires ->
  (2 <= String.length (ValidateRequest.text (ValidateRequest.company info)))%nat
  /\ PyStr.contains "@" (ValidateRequest.text (ValidateRequest.email info))
     = true
  /\ exists license_data : dict,
       GenerateLicense.main isoformat sha256_hexdigest
         {| GenerateLicense.arg_fingerprint := fingerprint32;
            GenerateLicense.arg_company :=
              ValidateRequest.text (ValidateRequest.company info);
            GenerateLicense.arg_email :=
              ValidateRequest.text (ValidateRequest.email info);
            GenerateLicense.arg_duration := duration |}
         now now_key
       = (Some license_data, NameError "os").
Proof.
  intros info Hvalid Hfp Hadd. subst info.
  apply valid_request_fields in Hvalid as (_ & Hco & Hem).
  assert (Hco' : (2 <= String.length
                         (ValidateRequest.text
                            (ValidateRequest.company
                               (ValidateRequest.extract_issue_info
                                  title body))))%nat).
  { unfold Spec.company_errors in Hco.
    destruct (negb (ValidateRequest.truthy _)); [done|].
    destruct (Nat.ltb_spec
                (String.length
                   (ValidateRequest.text
                      (ValidateRequest.company
                         (ValidateRequest.extract_issue_info title body)))) 2);
      [done|lia]. }
  assert (Hem' : PyStr.contains "@"
                   (ValidateRequest.text
                      (ValidateRequest.email
                         (ValidateRequest.extract_issue_info title body)))
                 = true).
  { unfold Spec.email_errors in Hem.
    destruct (negb (ValidateRequest.truthy _)); [done|].
    destruct (ValidateRequest.validate_email _) eqn:E; [|done].
    by apply validate_email_has_at. }
  split; [done|]. split; [done|].
  destruct (main_prints isoformat sha256_hexdigest
              {| GenerateLicense.arg_fingerprint := fingerprint32;
                 GenerateLicense.arg_company :=
                   ValidateRequest.text
                     (ValidateRequest.company
                        (ValidateRequest.extract_issue_info title body));
                 GenerateLicense.arg_email :=
                   ValidateRequest.text
                     (ValidateRequest.email
                        (ValidateRequest.extract_issue_info title body));
                 GenerateLicense.arg_duration := duration |}
              now now_key expires Hfp Hco' Hem' Hadd) as (ld & _ & Hmain).
  by exists ld.
Qed.

Lemma validated_request_passes_company_and_email_witness :
  exists license_data : dict,
    GenerateLicense.main DateTime.isoformat (fun data => data)
      {| GenerateLicense.arg_fingerprint := "AB12CD34EF56GH78AB12CD34EF56GH78";
         GenerateLicense.arg_company := "Acme Corp";
         GenerateLicense.arg_email := "ops@acme.com";
         GenerateLicense.arg_duration := 30 |}
      (DateTime.at_time 2026 11 3 12 0 0) (DateTime.at_time 2026 11 3 12 0 1)
    = (Some license_data, NameError "os").
Proof.
  exact (proj2 (proj2 (validated_request_passes_company_and_email
                         DateTime.isoformat (fun data => data)
                         "Auto-Activation Request - Acme Corp - AB12CD34EF56GH78"
                         "Email: ops@acme.com"
                         "AB12CD34EF56GH78AB12CD34EF56GH78" 30
                         (DateTime.at_time 2026 11 3 12 0 0)
                         (DateTime.at_time 2026 11 3 12 0 1)
                         (DateTime.Naive (DateTime.at_time 2026 12 3 12 0 0))
                         eq_refl ltac:(simpl; lia) eq_refl))).
Defined.

(** X11.  When the digest has the 64 characters of a SHA-256 hexadecimal
    digest, the license key has exactly 32 characters, none of them a
    lowercase letter. *)
Theorem generate_license_key_shape
    (isoformat : DateTime.datetime -> string)
    (sha256_hexdigest : string -> string)
    (fingerprint company email : string) (now : Z) :
  (forall data, String.length (sha256_hexdigest data) = 64%nat) ->
  let key :=
    GenerateLicense.generate_license_key isoformat sha256_hexdigest
      fingerprint company email now in
  String.length key = 32%nat
  /\ Spec.all_chars (fun c => negb (PyStr.islower_ascii c)) key = true.
Proof.
  intros Hsha key. subst key. unfold GenerateLicense.generate_license_key.
  split.
  - rewrite length_upper, length_take, Hsha. reflexivity.
  - apply upper_no_lower.
Qed.

Lemma generate_license_key_shape_witness :
  let key :=
    GenerateLicense.generate_license_key DateTime.isoformat
      (fun _ =>
         "e3b0c44298fc1c149afbf4c8996fb92427ae41e4649b934ca495991b7852b855")
      "AB12CD34EF56GH78AB12CD34EF56GH78" "Acme Corp" "ops@acme.com"
      (DateTime.at_time 2026 11 3 12 0 0) in
  String.length key = 32%nat
  /\ Spec.all_chars (fun c => negb (PyStr.islower_ascii c)) key = true.
Proof.
  exact (generate_license_key_shape DateTime.isoformat
           (fun _ =>
              "e3b0c44298fc1c149afbf4c8996fb92427ae41e4649b934ca495991b7852b855")
           "AB12CD34EF56GH78AB12CD34EF56GH78" "Acme Corp" "ops@acme.com"
           (DateTime.at_time 2026 11 3 12 0 0) (fun _ => eq_refl)).
Defined.

(** ** [check-expiring-licenses.py]: what the scan returns *)
Section ScanResult.
Import DateTime CheckExpiringLicenses.
Variable fromisoformat : string -> option datetime.

Lemma filter_sublist {A} (f : A -> bool) (l : list A) :
  sublist (List.filter f l) l.
Proof.
  induction l as [|x l IH]; simpl; [constructor|].
  destruct (f x); by constructor.
Qed.

(** The test of the scan, spelled out. *)
Lemma is_expiring_iff cutoff (ld : dict) :
  Spec.is_expiring fromisoformat cutoff ld = true
  <-> ld !! "status" = Some (VStr "active")
      /\ exists s d,
           ld !! "expires_date" = Some (VStr s) /\ s <> ""
           /\ fromisoformat (PyStr.replace "Z" "+00:00" s) = Some d
           /\ le d cutoff = Ok true.
Proof.
  unfold Spec.is_expiring. split.
  - destruct (ld !! "status") as [[| | | |st| |]|]; try done.
    destruct (ld !! "expires_date") as [[| | | |s| |]|]; try done.
    intros H. apply andb_true_iff in H as [H Hd].
    apply andb_true_iff in H as [Hst Hs].
    apply String.eqb_eq in Hst as ->. split; [done|].
    destruct (fromisoformat _) as [d|] eqn:Hp; [|done].
    exists s, d. repeat split; try done.
    + by destruct s.
    + destruct (le d cutoff) as [b|]; [by subst|done].
  - intros (-> & s & d & -> & Hs & -> & ->).
    destruct s; [done|]. by rewrite String.eqb_refl.
Qed.

Lemma add_days_raises d n e :
  add_days d n = Raise e -> e = OverflowError.
Proof.
  unfold add_days. destruct (Z.abs n >? 999999999); [by intros [= <-]|].
  destruct (representable _); [done|by intros [= <-]].
Qed.

Lemma add_days_naive now n d :
  add_days (Naive now) n = Ok d -> d = Naive (now + n * us_per_day).
Proof.
  intros H. apply add_days_ticks in H as (Ht & _ & Hw).
  simpl in *. by rewrite <- Hw, Ht.
Qed.

End ScanResult.

(** X12.  When [now] plus the window is a date of the calendar, the scan
    returns a sublist of its input, in the order of the input, and a record
    is in it exactly when it is in the input, its status is the string
    "active", and its [expires_date] is a non-empty string that reads as a
    date which compares at or before the cutoff. *)
Theorem find_expiring_licenses_exactly
    (fromisoformat : string -> option DateTime.datetime)
    (now days_ahead : Z) (licenses : list dict) (cutoff : DateTime.datetime) :
  DateTime.add_days (DateTime.Naive now) days_ahead = Ok cutoff ->
  exists expiring,
    CheckExpiringLicenses.find_expiring_licenses fromisoformat now licenses
      days_ahead
    = Ok expiring
    /\ sublist expiring licenses
    /\ forall license_data : dict,
         In license_data expiring
         <-> In license_data licenses
             /\ license_data !! "status" = Some (VStr "active")
             /\ exists s d,
                  license_data !! "expires_date" = Some (VStr s)
                  /\ s <> ""
                  /\ fromisoformat (PyStr.replace "Z" "+00:00" s) = Some d
                  /\ DateTime.le d cutoff = Ok true.
Proof.
  intros Hc. eexists. split.
  { apply (find_expiring_licenses_filter _ _ _ _ _ Hc). }
  split; [apply filter_sublist|].
  intros ld. rewrite filter_In, is_expiring_iff. tauto.
Qed.

Lemma find_expiring_licenses_exactly_witness :
  let record (status expires : string) : dict :=
    list_to_map [("status", VStr status); ("expires_date", VStr expires)] in
  let licenses :=
    [ record "active" "2026-11-13T12:00:00";
      record "active" "2026-11-05T12:00:00";
      record "Active" "2026-11-05T12:00:00" ] in
  exists expiring,
    CheckExpiringLicenses.find_expiring_licenses DateTime.fromisoformat
      (DateTime.at_time 2026 11 3 12 0 0) licenses 5
    = Ok expiring
    /\ sublist expiring licenses.
Proof.
  intros record licenses.
  destruct (find_expiring_licenses_exactly DateTime.fromisoformat
              (DateTime.at_time 2026 11 3 12 0 0) 5 licenses
              (DateTime.Naive (DateTime.at_time 2026 11 8 12 0 0)) eq_refl)
    as (expiring & H & Hsub & _).
  by exists expiring.
Defined.

(** ** [check-expiring-licenses.py]: what stops the scan *)
Section LoadedScan.
Import DateTime CheckExpiringLicenses.
Variable fromisoformat : string -> option datetime.

(** On a list of objects the loop is the one on records. *)
Lemma scan_loaded_objects cutoff (licenses expiring : list dict) :
  scan_loaded fromisoformat cutoff (VDict <$> licenses) (VDict <$> expiring)
  = Ok (VDict <$> scan fromisoformat cutoff licenses expiring).
Proof.
  revert expiring; induction licenses as [|ld licenses IH]; intros expiring;
    [done|].
  cbn [fmap list_fmap scan_loaded scan].
  destruct (status_not_active ld); [apply IH|].
  destruct (negb (truthy (ld !! "expires_date"))); [apply IH|].
  destruct (expires_by fromisoformat cutoff _) as [[|]|e]; try apply IH.
  specialize (IH (expiring ++ [ld])). by rewrite fmap_app in IH.
Qed.

(** The loop stops at the first element that is no object, and nowhere
    else. *)
Lemma scan_loaded_raises cutoff (licenses expiring : list pyval) e :
  scan_loaded fromisoformat cutoff licenses expiring = Raise e
  <-> e = AttributeError
      /\ exists v, In v licenses /\ forall d : dict, v <> VDict d.
Proof.
  revert expiring; induction licenses as [|v licenses IH]; intros expiring.
  - split; [done|]. by intros (_ & v & [] & _).
  - destruct v as [|b|n|x|s|l|ld];
      try (cbn [scan_loaded]; split;
           [intros [= <-]; split; [done|]; eexists; split; [by left|done]
           |by intros (-> & _)]).
    assert (Hrest : forall expiring',
              scan_loaded fromisoformat cutoff licenses expiring' = Raise e
              <-> e = AttributeError
                  /\ exists v', In v' (VDict ld :: licenses)
                                /\ forall d : dict, v' <> VDict d).
    { intros expiring'. rewrite IH. split.
      - intros (-> & v' & Hin & Hv). split; [done|].
        exists v'. split; [by right|done].
      - intros (-> & v' & [<-|Hin] & Hv); [by destruct (Hv ld)|by eauto]. }
    cbn [scan_loaded].
    destruct (status_not_active ld); [apply Hrest|].
    destruct (negb (truthy (ld !! "expires_date"))); [apply Hrest|].
    destruct (expires_by fromisoformat cutoff _) as [[|]|e']; apply Hrest.
Qed.

End LoadedScan.

(** X13.  What [load_active_licenses] hands to the scan is a list of JSON
    values, objects or not, and the scan raises in exactly two ways:
    [OverflowError] when [now] plus the window is no date of the calendar,
    before any element is looked at; and [AttributeError] when the cutoff is a
    date and some element of the list is no object.  So no object, however
    malformed, makes it raise; and on a list of objects the scan is the one on
    records. *)
Theorem find_expiring_licenses_failures
    (fromisoformat : string -> option DateTime.datetime)
    (now days_ahead : Z) :
  (forall (licenses : list pyval) (e : exn),
     CheckExpiringLicenses.find_expiring_licenses_loaded fromisoformat now
       licenses days_ahead
     = Raise e
     <-> (e = OverflowError
          /\ (999999999 < Z.abs days_ahead
              \/ DateTime.representable
                   (now + days_ahead * DateTime.us_per_day)
                 = false))
         \/ (e = AttributeError
             /\ Z.abs days_ahead <= 999999999
             /\ DateTime.representable (now + days_ahead * DateTime.us_per_day)
                = true
             /\ exists v, In v licenses /\ forall d : dict, v <> VDict d))
  /\ (forall licenses : list dict,
        CheckExpiringLicenses.find_expiring_licenses_loaded fromisoformat now
          (VDict <$> licenses) days_ahead
        = match CheckExpiringLicenses.find_expiring_licenses fromisoformat
                  now licenses days_ahead with
          | Ok expiring => Ok (VDict <$> expiring)
          | Raise e => Raise e
          end).
Proof.
  unfold CheckExpiringLicenses.find_expiring_licenses_loaded,
    CheckExpiringLicenses.find_expiring_licenses, DateTime.add_days.
  cbn [DateTime.ticks DateTime.with_ticks].
  destruct (Z.gtb_spec (Z.abs days_ahead) 999999999) as [Hbig|Hsmall].
  { split; [|done]. intros licenses e. split.
    - intros [= <-]. left. split; [done|]. left. lia.
    - intros [[-> _]|(_ & H & _)]; [done|lia]. }
  destruct (DateTime.representable (now + days_ahead * DateTime.us_per_day))
    eqn:Hrep.
  - split.
    + intros licenses e. rewrite scan_loaded_raises. split.
      * intros [-> H]. right. repeat split; done.
      * intros [[_ [H|H]]|(-> & _ & _ & H)]; [lia|done|done].
    + intros licenses. apply (scan_loaded_objects _ _ licenses []).
  - split; [|done]. intros licenses e. split.
    + intros [= <-]. left. split; [done|]. by right.
    + intros [[-> _]|(_ & _ & H & _)]; done.
Qed.

Lemma find_expiring_licenses_failures_witness :
  let record : dict :=
    list_to_map [("status", VStr "active"); ("expires_date", VList [])] in
  let now := DateTime.at_time 2026 11 3 12 0 0 in
  CheckExpiringLicenses.find_expiring_licenses_loaded DateTime.fromisoformat
    now [VDict record; VDict record] 5
  = Ok []
  /\ CheckExpiringLicenses.find_expiring_licenses_loaded
       DateTime.fromisoformat now [VDict record; VNone; VDict record] 5
     = Raise AttributeError.
Proof.
  intros record now. split; [reflexivity|].
  apply (proj1 (find_expiring_licenses_failures DateTime.fromisoformat now 5)).
  right. split; [reflexivity|]. split; [done|]. split; [reflexivity|].
  exists VNone. split; [right; by left|done].
Defined.

(** X14.  A longer window finds at least what a shorter one finds: every
    record returned for [days1] is returned for any [days2 >= days1], as
    long as both cutoffs are dates of the calendar. *)
Theorem find_expiring_licenses_monotone
    (fromisoformat : string -> option DateTime.datetime)
    (now days1 days2 : Z) (licenses expiring1 expiring2 : list dict)
    (license_data : dict) :
  days1 <= days2 ->
  CheckExpiringLicenses.find_expiring_licenses fromisoformat now licenses days1
  = Ok expiring1 ->
  CheckExpiringLicenses.find_expiring_licenses fromisoformat now licenses days2
  = Ok expiring2 ->
  In license_data expiring1 -> In license_data expiring2.
Proof.
  intros Hle H1 H2.
  unfold CheckExpiringLicenses.find_expiring_licenses in H1, H2.
  destruct (DateTime.add_days (DateTime.Naive now) days1) as [c1|] eqn:Hc1;
    [|done].
  destruct (DateTime.add_days (DateTime.Naive now) days2) as [c2|] eqn:Hc2;
    [|done].
  injection H1 as <-. injection H2 as <-. rewrite !scan_filter. simpl.
  rewrite !filter_In, !is_expiring_iff.
  apply add_days_naive in Hc1 as ->. apply add_days_naive in Hc2 as ->.
  intros (Hin & Hst & s & d & Hs & Hne & Hp & Hd).
  split; [done|]. split; [done|]. exists s, d. repeat split; try done.
  destruct d as [x|x o]; simpl in *; [|done].
  injection Hd as Hd. f_equal. apply Z.leb_le in Hd. apply Z.leb_le.
  unfold DateTime.us_per_day, DateTime.us_per_hour, DateTime.us_per_minute,
    DateTime.us_per_second in *. lia.
Qed.

Lemma find_expiring_licenses_monotone_witness :
  let record (expires : string) : dict :=
    list_to_map [("status", VStr "active"); ("expires_date", VStr expires)] in
  let soon := record "2026-11-05T12:00:00" in
  let later := record "2026-11-07T12:00:00" in
  let now := DateTime.at_time 2026 11 3 12 0 0 in
  CheckExpiringLicenses.find_expiring_licenses DateTime.fromisoformat now
    [later; soon] 2
  = Ok [soon]
  /\ CheckExpiringLicenses.find_expiring_licenses DateTime.fromisoformat now
       [later; soon] 5
     = Ok [later; soon]
  /\ In soon [later; soon].
Proof.
  intros record soon later now. repeat (split; [reflexivity|]).
  apply (find_expiring_licenses_monotone DateTime.fromisoformat now 2 5
           [later; soon] [soon] [later; soon] soon);
    [lia | reflexivity | reflexivity | by left].
Defined.

(** ** [auto-reactivate.py]: when reactivation fails *)
Section ReactivationFailures.
Import DateTime AutoReactivate.
Variable fromisoformat : string -> option datetime.
Variable isoformat : datetime -> string.

(** What [reactivate_license] does, by the cases of its steps. *)
Lemma reactivate_license_cases now (ld : dict) :
  match ld !! "expires_date" with
  | None =>
      reactivate_license fromisoformat isoformat now ld
      = (Raise (KeyError "expires_date"), ld)
  | Some (VStr s) =>
      match fromisoformat (PyStr.replace "Z" "+00:00" s) with
      | None =>
          reactivate_license fromisoformat isoformat now ld
          = (Raise ValueError, ld)
      | Some T =>
          match add_days T 30 with
          | Raise e =>
              reactivate_license fromisoformat isoformat now ld
              = (Raise e, ld)
          | Ok T' =>
              let dated : dict :=
                <["last_reactivated" := VStr (isoformat (Naive now))]>
                  (<["expires_date" := VStr (isoformat T')]> ld) in
              match add_one (default (VInt 0) (ld !! "reactivation_count")) with
              | Raise e =>
                  reactivate_license fromisoformat isoformat now ld
                  = (Raise e, dated)
              | Ok count =>
                  reactivate_license fromisoformat isoformat now ld
                  = (Ok tt,
                     <["status" := VStr "active"]>
                       (<["reactivation_count" := count]> dated))
              end
          end
      end
  | Some _ =>
      reactivate_license fromisoformat isoformat now ld
      = (Raise AttributeError, ld)
  end.
Proof.
  unfold reactivate_license, bind, getitem, lift, get, setitem, parse.
  destruct (ld !! "expires_date") as [[| | | |s| |]|] eqn:He; try reflexivity.
  simpl. destruct (fromisoformat _) as [T|]; [|reflexivity].
  destruct (add_days T 30) as [T'|e]; [|reflexivity].
  cbv zeta. rewrite !lookup_insert_ne by done.
  by destruct (add_one _).
Qed.

(** [v + 1] fails on what is no number, and only there. *)
Lemma add_one_raises v e :
  add_one v = Raise e
  <-> e = TypeError
      /\ (v = VNone \/ (exists s, v = VStr s) \/ (exists items, v = VList items)
          \/ (exists items, v = VDict items)).
Proof.
  split.
  - destruct v; simpl; intros [= <-]; split; eauto.
  - intros [-> [->|[[s ->]|[[l ->]|[d ->]]]]]; reflexivity.
Qed.

End ReactivationFailures.

(** X15.  [reactivate_license] fails in exactly five ways, and in each of
    them whenever its condition holds.  A missing [expires_date] is a
    [KeyError], one that is no string an [AttributeError], one that does not
    read as a date a [ValueError], an expiry in the last thirty days of the
    calendar an [OverflowError]; in these four the record is left as it was.
    A [reactivation_count] that is no number (null, a string, a list or an
    object) is a [TypeError], and then the record has already got its new
    [expires_date] and [last_reactivated]. *)
Theorem reactivate_license_failures
    (fromisoformat : string -> option DateTime.datetime)
    (isoformat : DateTime.datetime -> string)
    (now : Z) (license_data after : dict) (e : exn) :
  AutoReactivate.reactivate_license fromisoformat isoformat now license_data
  = (Raise e, after)
  <-> (e = KeyError "expires_date" /\ license_data !! "expires_date" = None
       /\ after = license_data)
      \/ (e = AttributeError
          /\ (exists v, license_data !! "expires_date" = Some v
                        /\ forall s, v <> VStr s)
          /\ after = license_data)
      \/ (e = ValueError
          /\ (exists s, license_data !! "expires_date" = Some (VStr s)
                        /\ fromisoformat (PyStr.replace "Z" "+00:00" s) = None)
          /\ after = license_data)
      \/ (e = OverflowError
          /\ (exists s T,
                license_data !! "expires_date" = Some (VStr s)
                /\ fromisoformat (PyStr.replace "Z" "+00:00" s) = Some T
                /\ DateTime.add_days T 30 = Raise OverflowError)
          /\ after = license_data)
      \/ (e = TypeError
          /\ exists s T T' v,
               license_data !! "expires_date" = Some (VStr s)
               /\ fromisoformat (PyStr.replace "Z" "+00:00" s) = Some T
               /\ DateTime.add_days T 30 = Ok T'
               /\ license_data !! "reactivation_count" = Some v
               /\ (v = VNone \/ (exists c, v = VStr c)
                   \/ (exists items, v = VList items)
                   \/ (exists items, v = VDict items))
               /\ after
                  = <["last_reactivated" :=
                        VStr (isoformat (DateTime.Naive now))]>
                      (<["expires_date" := VStr (isoformat T')]>
                         license_data)).
Proof.
  pose proof (reactivate_license_cases fromisoformat isoformat now
                license_data) as Hc.
  split.
  - intros H.
    destruct (license_data !! "expires_date") as [v|] eqn:He.
    + destruct v as [|b|n|x|s|l|d];
        try (rewrite Hc in H; injection H as <- <-; right; left;
             split; [done|]; split; [|done]; eexists; split; [done|]; done).
      destruct (fromisoformat _) as [T|] eqn:Hp.
      * destruct (DateTime.add_days T 30) as [T'|e'] eqn:Ha.
        -- cbv zeta in Hc.
           destruct (license_data !! "reactivation_count") as [v|] eqn:Hn;
             simpl in Hc.
           ++ destruct (AutoReactivate.add_one v) as [c|e'] eqn:Hv;
                rewrite Hc in H; [done|].
              injection H as <- <-.
              apply add_one_raises in Hv as [-> Hv].
              do 4 right. split; [done|]. by exists s, T, T', v.
           ++ by rewrite Hc in H.
        -- rewrite Hc in H. injection H as <- <-.
           pose proof (add_days_raises _ _ _ Ha) as ->.
           do 3 right. left. split; [done|]. split; [|done]. by exists s, T.
      * rewrite Hc in H. injection H as <- <-.
        do 2 right. left. split; [done|]. split; [|done]. by exists s.
    + rewrite Hc in H. injection H as <- <-. by left.
  - intros [(-> & He & ->)|[(-> & (v & He & Hv) & ->)|[(-> & (s & He & Hp) & ->)
            |[(-> & (s & T & He & Hp & Ha) & ->)
             |(-> & s & T & T' & v & He & Hp & Ha & Hn & Hv & ->)]]]];
      rewrite He in Hc.
    + exact Hc.
    + destruct v as [|b|n|x|s|l|d]; try exact Hc. by destruct (Hv s).
    + by rewrite Hp in Hc.
    + by rewrite Hp, Ha in Hc.
    + rewrite Hp, Ha, Hn in Hc. cbv zeta in Hc. simpl in Hc.
      assert (Hr : AutoReactivate.add_one v = Raise TypeError)
        by (by apply add_one_raises).
      by rewrite Hr in Hc.
Qed.

Lemma reactivate_license_failures_witness :
  let record (count : pyval) : dict :=
    list_to_map [ ("expires_date", VStr "2026-11-05T12:00:00");
                  ("reactivation_count", count) ] in
  let now := DateTime.at_time 2026 11 3 12 0 0 in
  let after : dict :=
    <["last_reactivated" := VStr "2026-11-03T12:00:00"]>
      (<["expires_date" := VStr "2026-12-05T12:00:00"]> (record (VList []))) in
  AutoReactivate.reactivate_license DateTime.fromisoformat
    DateTime.isoformat now (record (VList []))
  = (Raise TypeError, after)
  /\ after !! "reactivation_count" = Some (VList []).
Proof.
  intros record now after. split; [|reflexivity].
  apply (proj2 (reactivate_license_failures DateTime.fromisoformat
                  DateTime.isoformat now (record (VList [])) after TypeError)).
  do 4 right. split; [reflexivity|].
  exists "2026-11-05T12:00:00",
    (DateTime.Naive (DateTime.at_time 2026 11 5 12 0 0)),
    (DateTime.Naive (DateTime.at_time 2026 12 5 12 0 0)), (VList []).
  repeat split; try reflexivity. right. right. left. by eexists.
Defined.

(** ** [auto-reactivate.py]: the batch *)
Section BatchCount.
Import DateTime AutoReactivate.
Variable fromisoformat : string -> option datetime.
Variable isoformat : datetime -> string.
Variable files : Type.
Variable save_reactivated_license : nat -> dict -> files -> option files.
Variable clock : nat -> Z.

(** Whether [reactivate_license] returns does not depend on the clock. *)
Lemma reactivates_any_time now (ld : dict) :
  match reactivate_license fromisoformat isoformat now ld with
  | (Ok _, _) => true
  | (Raise _, _) => false
  end
  = Spec.reactivates fromisoformat isoformat ld.
Proof.
  unfold Spec.reactivates.
  pose proof (reactivate_license_cases fromisoformat isoformat now ld) as H1.
  pose proof (reactivate_license_cases fromisoformat isoformat 0 ld) as H0.
  destruct (ld !! "expires_date") as [[| | | |s| |]|]; try by rewrite H1, H0.
  destruct (fromisoformat _) as [T|]; [|by rewrite H1, H0].
  destruct (add_days T 30) as [T'|e]; [|by rewrite H1, H0].
  cbv zeta in H1, H0.
  destruct (add_one _); by rewrite H1, H0.
Qed.

Lemma reactivate_all_count i (l : list dict) c fs :
  let successes :=
    length (List.filter (Spec.reactivates fromisoformat isoformat) l) in
  (c <= fst (reactivate_all fromisoformat isoformat files
               save_reactivated_license clock i l c fs)
   <= c + successes)%nat
  /\ ((forall j d f, is_Some (save_reactivated_license j d f)) ->
      fst (reactivate_all fromisoformat isoformat files
             save_reactivated_license clock i l c fs)
      = (c + successes)%nat).
Proof.
  revert i c fs; induction l as [|ld l IH]; intros i c fs; simpl.
  - split; [lia|intros _; lia].
  - pose proof (reactivates_any_time (clock i) ld) as Hr.
    destruct (reactivate_license fromisoformat isoformat (clock i) ld)
      as [[u|e] ld'] eqn:E; rewrite <- Hr; simpl.
    + destruct (save_reactivated_license i ld' fs) as [fs'|] eqn:Es.
      * destruct (IH (S i) (S c) fs') as [H1 H2].
        split; [lia|]. intros Hs. rewrite (H2 Hs). lia.
      * destruct (IH (S i) c fs) as [H1 H2].
        split; [lia|]. intros Hs.
        destruct (Hs i ld' fs) as [x Hx]. congruence.
    + apply IH.
Qed.

End BatchCount.

(** X16.  The batch never stops at a record.  On an empty list [main]
    leaves before it reports anything; otherwise it reports the length of
    the list as [total_expiring] and a [reactivated_count] that is at most
    the number of records [reactivate_license] returns on, and exactly that
    number when no save fails. *)
Theorem reactivation_batch_counts
    (fromisoformat : string -> option DateTime.datetime)
    (isoformat : DateTime.datetime -> string)
    (files : Type)
    (save_reactivated_license : nat -> dict -> files -> option files)
    (clock : nat -> Z) (expiring_licenses : list dict) (fs : files) :
  let run :=
    AutoReactivate.main fromisoformat isoformat files
      save_reactivated_license clock expiring_licenses fs in
  let successes :=
    length (List.filter (Spec.reactivates fromisoformat isoformat)
              expiring_licenses) in
  (expiring_licenses = [] -> run = (None, fs))
  /\ (expiring_licenses <> [] ->
      exists reactivated_count,
        fst run = Some (reactivated_count, length expiring_licenses)
        /\ (reactivated_count <= successes <= length expiring_licenses)%nat
        /\ ((forall i d f, is_Some (save_reactivated_license i d f)) ->
            reactivated_count = successes)).
Proof.
  intros run successes. subst run successes. split; [by intros ->|].
  intros Hne. unfold AutoReactivate.main.
  destruct expiring_licenses as [|ld l]; [done|].
  pose proof (reactivate_all_count fromisoformat isoformat files
                save_reactivated_license clock 0 (ld :: l) 0 fs) as [H1 H2].
  destruct (AutoReactivate.reactivate_all fromisoformat isoformat files
              save_reactivated_license clock 0 (ld :: l) 0 fs)
    as [count fs'] eqn:E.
  exists count. simpl fst in *. split; [done|]. split.
  - split; [lia|]. apply filter_length_le.
  - intros Hs. rewrite (H2 Hs). lia.
Qed.

Lemma reactivation_batch_counts_witness :
  let record (expires : pyval) : dict :=
    list_to_map [("hardware_fingerprint", VStr "AB12CD34EF56GH78");
                 ("expires_date", expires)] in
  let batch :=
    [ record (VStr "2026-11-05T12:00:00"); record (VStr "soon");
      record VNone; record (VStr "2026-11-06T12:00:00") ] in
  fst (AutoReactivate.main DateTime.fromisoformat DateTime.isoformat
         (list dict) (fun _ d saved => Some (saved ++ [d]))
         (fun _ => DateTime.at_time 2026 11 3 12 0 0) batch [])
  = Some (2%nat, 4%nat).
Proof.
  intros record batch.
  destruct (proj2 (reactivation_batch_counts DateTime.fromisoformat
                     DateTime.isoformat (list dict)
                     (fun _ d saved => Some (saved ++ [d]))
                     (fun _ => DateTime.at_time 2026 11 3 12 0 0) batch []))
    as (count & H & _ & Hc); [done|].
  rewrite H, Hc; [reflexivity|]. intros i d f. by eexists.
Defined.

(** ** From issuance to reactivation to the next scan *)

(** X17.  A freshly issued license has no [reactivation_count]: its first
    reactivation sets the count to 1, moves the expiry to [now] plus the
    duration plus thirty days, and keeps the license key and the creation
    date.  (The date written at issuance is taken to read back as the same
    date, and the new expiry to be a date of the calendar.) *)
Theorem issued_license_first_reactivation
    (fromisoformat : string -> option DateTime.datetime)
    (isoformat : DateTime.datetime -> string)
    (sha256_hexdigest : string -> string)
    (fingerprint company email : string) (duration now now_key now2 : Z)
    (license_data : dict) (expires expires' : DateTime.datetime) :
  GenerateLicense.create_license isoformat sha256_hexdigest fingerprint
    company email duration now now_key
  = Ok license_data ->
  DateTime.add_days (DateTime.Naive now) duration = Ok expires ->
  fromisoformat (PyStr.replace "Z" "+00:00" (isoformat expires))
  = Some expires ->
  DateTime.add_days expires 30 = Ok expires' ->
  exists license_data' : dict,
    AutoReactivate.reactivate_license fromisoformat isoformat now2
      license_data
    = (Ok tt, license_data')
    /\ license_data' !! "expires_date" = Some (VStr (isoformat expires'))
    /\ expires' = DateTime.Naive (now + (duration + 30) * DateTime.us_per_day)
    /\ license_data' !! "reactivation_count" = Some (VInt 1)
    /\ license_data' !! "status" = Some (VStr "active")
    /\ license_data' !! "license_key" = license_data !! "license_key"
    /\ license_data' !! "created_date"
       = Some (VStr (isoformat (DateTime.Naive now))).
Proof.
  intros Hc Ha Hr Ha'.
  destruct (create_license_fields isoformat sha256_hexdigest fingerprint
              company email duration now now_key expires Ha)
    as (ld & Hld & Hcr & Hex & _ & Hn).
  rewrite Hc in Hld. injection Hld as <-.
  assert (Hcount : Spec.reactivation_count license_data = Some 0)
    by (unfold Spec.reactivation_count; by rewrite Hn).
  eexists. split.
  { apply (reactivate_license_once fromisoformat isoformat now2 license_data
             _ expires expires' 0 Hex Hr Ha' Hcount). }
  apply add_days_naive in Ha as ->.
  apply add_days_ticks in Ha' as (Ht & _ & Hw). simpl in Ht, Hw.
  split; [by simplify_map_eq|]. split.
  { rewrite <- Hw, Ht. f_equal. lia. }
  repeat split; by simplify_map_eq.
Qed.

Lemma issued_license_first_reactivation_witness :
  exists license_data license_data' : dict,
    GenerateLicense.create_license DateTime.isoformat (fun data => data)
      "AB12CD34EF56GH78AB12CD34EF56GH78" "Acme Corp" "ops@acme.com" 30
      (DateTime.at_time 2026 11 3 12 0 0) (DateTime.at_time 2026 11 3 12 0 1)
    = Ok license_data
    /\ AutoReactivate.reactivate_license DateTime.fromisoformat
         DateTime.isoformat (DateTime.at_time 2026 11 30 8 0 0) license_data
       = (Ok tt, license_data')
    /\ license_data' !! "expires_date" = Some (VStr "2027-01-02T12:00:00")
    /\ license_data' !! "reactivation_count" = Some (VInt 1).
Proof.
  eexists.
  destruct (issued_license_first_reactivation DateTime.fromisoformat
              DateTime.isoformat (fun data => data)
              "AB12CD34EF56GH78AB12CD34EF56GH78" "Acme Corp" "ops@acme.com"
              30 (DateTime.at_time 2026 11 3 12 0 0)
              (DateTime.at_time 2026 11 3 12 0 1)
              (DateTime.at_time 2026 11 30 8 0 0) _
              (DateTime.Naive (DateTime.at_time 2026 12 3 12 0 0))
              (DateTime.Naive (DateTime.at_time 2027 1 2 12 0 0))
              eq_refl eq_refl eq_refl eq_refl)
    as (ld' & H1 & H2 & _ & H4 & _).
  exists ld'. split; [reflexivity|]. by repeat split.
Defined.

(** X18.  Reactivation extends from the old expiry, not from now: a record
    whose expiry read as the naive date [t] is, once reactivated, returned
    again by a scan exactly when [t] plus thirty days is still at or before
    the cutoff of that scan.  (The date written is taken to read back, and
    its text not to be empty.) *)
Theorem reactivated_license_next_scan
    (fromisoformat : string -> option DateTime.datetime)
    (isoformat : DateTime.datetime -> string)
    (now t cutoff : Z) (license_data license_data' : dict) (s : string) :
  let T' := DateTime.Naive (t + 30 * DateTime.us_per_day) in
  license_data !! "expires_date" = Some (VStr s) ->
  fromisoformat (PyStr.replace "Z" "+00:00" s) = Some (DateTime.Naive t) ->
  AutoReactivate.reactivate_license fromisoformat isoformat now license_data
  = (Ok tt, license_data') ->
  fromisoformat (PyStr.replace "Z" "+00:00" (isoformat T')) = Some T' ->
  isoformat T' <> "" ->
  CheckExpiringLicenses.scan fromisoformat (DateTime.Naive cutoff)
    [license_data'] []
  = if t + 30 * DateTime.us_per_day <=? cutoff then [license_data'] else [].
Proof.
  intros T' He Hp Hr Hback Hne. subst T'.
  pose proof (reactivate_license_cases fromisoformat isoformat now
                license_data) as Hc.
  rewrite He, Hp in Hc.
  destruct (DateTime.add_days (DateTime.Naive t) 30) as [T1|e] eqn:Ha;
    [|by rewrite Hc in Hr].
  apply add_days_naive in Ha as ->. cbv zeta in Hc.
  destruct (AutoReactivate.add_one _) as [count|e]; rewrite Hc in Hr; [|done].
  injection Hr as <-. rewrite scan_step. cbn [CheckExpiringLicenses.scan].
  unfold Spec.is_expiring. rewrite lookup_insert_eq.
  rewrite !(lookup_insert_ne _ _ "expires_date") by done.
  rewrite lookup_insert_eq, Hback. cbn [DateTime.le String.eqb].
  destruct (isoformat _); [done|].
  by destruct (t + 30 * DateTime.us_per_day <=? cutoff).
Qed.

Lemma reactivated_license_next_scan_witness :
  let license_data : dict :=
    list_to_map [ ("hardware_fingerprint", VStr "AB12CD34EF56GH78");
                  ("status", VStr "active");
                  ("expires_date", VStr "2026-09-20T12:00:00") ] in
  let now := DateTime.at_time 2026 11 3 12 0 0 in
  exists license_data' : dict,
    AutoReactivate.reactivate_license DateTime.fromisoformat
      DateTime.isoformat now license_data
    = (Ok tt, license_data')
    /\ license_data' !! "expires_date" = Some (VStr "2026-10-20T12:00:00")
    /\ CheckExpiringLicenses.scan DateTime.fromisoformat
         (DateTime.Naive (DateTime.at_time 2026 11 8 12 0 0))
         [license_data'] []
       = [license_data'].
Proof.
  intros license_data now. eexists. split; [reflexivity|].
  split; [reflexivity|].
  exact (reactivated_license_next_scan DateTime.fromisoformat
           DateTime.isoformat now (DateTime.at_time 2026 9 20 12 0 0)
           (DateTime.at_time 2026 11 8 12 0 0) license_data _
           "2026-09-20T12:00:00" eq_refl eq_refl eq_refl eq_refl
           ltac:(by vm_compute)).
Defined.

(** ** [validate-version.py]: the version found in the body *)
Section ExtractedVersion.
Import ValidateVersion.

Lemma isdigit_not_dot c : PyStr.isdigit c = true -> Ascii.eqb c "." = false.
Proof. by destruct c as [[] [] [] [] [] [] [] []]. Qed.

Lemma isdigit_not_int_space c :
  PyStr.isdigit c = true -> PyStr.int_space c = false.
Proof. by destruct c as [[] [] [] [] [] [] [] []]. Qed.

Lemma digit_value_nonneg c : PyStr.isdigit c = true -> 0 <= PyStr.digit_value c.
Proof. by destruct c as [[] [] [] [] [] [] [] []]. Qed.

Lemma split_digits d :
  Spec.all_chars PyStr.isdigit d = true -> PyStr.split "." d = [d].
Proof.
  induction d as [|c d IH]; simpl; [done|]. intros H.
  apply andb_true_iff in H as [Hc Hd].
  by rewrite (isdigit_not_dot _ Hc), (IH Hd).
Qed.

Lemma split_digits_dot d r :
  Spec.all_chars PyStr.isdigit d = true ->
  PyStr.split "." (d +:+ String "." r) = d :: PyStr.split "." r.
Proof.
  induction d as [|c d IH]; simpl; [done|]. intros H.
  apply andb_true_iff in H as [Hc Hd].
  by rewrite (isdigit_not_dot _ Hc), (IH Hd).
Qed.

Lemma rstrip_digits d :
  Spec.all_chars PyStr.isdigit d = true ->
  PyStr.rstrip_of PyStr.int_space d = d.
Proof.
  induction d as [|c d IH]; simpl; [done|]. intros H.
  apply andb_true_iff in H as [Hc Hd]. rewrite (IH Hd).
  destruct d; [|done]. by rewrite (isdigit_not_int_space _ Hc).
Qed.

Lemma int_digits_of_digits d acc after_digit :
  Spec.all_chars PyStr.isdigit d = true ->
  d <> "" \/ after_digit = true -> 0 <= acc ->
  exists n, 0 <= n /\ PyStr.int_digits acc after_digit d = Some n.
Proof.
  revert acc after_digit; induction d as [|c d IH];
    intros acc after_digit H Hne Hacc; simpl.
  - destruct Hne as [?| ->]; [done|]. by exists acc.
  - apply andb_true_iff in H as [Hc Hd]. rewrite Hc.
    apply IH; [done|by right|].
    pose proof (digit_value_nonneg _ Hc). lia.
Qed.

(** A non-empty string of digits writes a number that is not negative. *)
Lemma int_literal_of_digits d :
  Spec.all_chars PyStr.isdigit d = true -> d <> "" ->
  exists n, 0 <= n /\ PyStr.int_literal d = Some n.
Proof.
  intros H Hne. unfold PyStr.int_literal.
  assert (Hl : PyStr.lstrip_of PyStr.int_space d = d).
  { destruct d as [|c d]; [done|]. simpl in *.
    apply andb_true_iff in H as [Hc _].
    by rewrite (isdigit_not_int_space _ Hc). }
  rewrite Hl, (rstrip_digits _ H).
  destruct (int_digits_of_digits d 0 false H (or_introl Hne) ltac:(lia))
    as (n & Hn & Hd).
  exists n. split; [done|].
  destruct d as [|c d]; [done|]. simpl in H.
  apply andb_true_iff in H as [Hc _]. rewrite <- Hd.
  by destruct c as [[] [] [] [] [] [] [] []].
Qed.

(** [int] reads it when it has at most 4300 digits. *)
Lemma int_of_digits d :
  Spec.all_chars PyStr.isdigit d = true -> d <> "" ->
  PyStr.count_digits d <= PyStr.int_max_str_digits ->
  exists n, 0 <= n /\ PyStr.int d = Some n.
Proof.
  intros H Hne Hl. rewrite (int_within_limit d Hl).
  by apply int_literal_of_digits.
Qed.

(** A match of one of the four patterns captures three runs of digits with
    full stops between them. *)
Lemma version_pattern_match label t caps :
  Re.re_match true (version_pattern label) t = Some caps ->
  exists pre d1 d2 d3 rest,
    t = pre +:+ (d1 +:+ "." +:+ d2 +:+ "." +:+ d3) +:+ rest
    /\ caps = [d1 +:+ "." +:+ d2 +:+ "." +:+ d3]
    /\ Spec.all_chars PyStr.isdigit d1 = true /\ d1 <> ""
    /\ Spec.all_chars PyStr.isdigit d2 = true /\ d2 <> ""
    /\ Spec.all_chars PyStr.isdigit d3 = true /\ d3 <> "".
Proof.
  unfold Re.re_match, version_pattern, version_number, Re.star, Re.plus.
  cbn [Re.run]. intros H.
  destruct (Re.drop_literal true label t) as [r0|] eqn:E0; [|done].
  apply drop_literal_length in E0 as (p0 & -> & _).
  apply rep_greedy_inv in H as (ws & r1 & -> & _ & _ & H).
  apply rep_greedy_inv in H as (d1 & r2 & -> & Hl1 & Hd1 & H).
  destruct (Re.drop_literal true "." r2) as [r3|] eqn:E1; [|done].
  apply drop_dot_inv in E1 as ->.
  apply rep_greedy_inv in H as (d2 & r4 & -> & Hl2 & Hd2 & H).
  destruct (Re.drop_literal true "." r4) as [r5|] eqn:E2; [|done].
  apply drop_dot_inv in E2 as ->.
  apply rep_greedy_inv in H as (d3 & r6 & -> & Hl3 & Hd3 & H).
  injection H as <-.
  assert (Hg : d1 +:+ String "." (d2 +:+ String "." (d3 +:+ r6))
               = (d1 +:+ "." +:+ d2 +:+ "." +:+ d3) +:+ r6).
  { rewrite !append_assoc. reflexivity. }
  exists (p0 +:+ ws), d1, d2, d3, r6.
  rewrite Hg, consumed_append.
  split; [rewrite !append_assoc; reflexivity|].
  repeat split; try done.
  - by destruct d1; [simpl in Hl1; lia|].
  - by destruct d2; [simpl in Hl2; lia|].
  - by destruct d3; [simpl in Hl3; lia|].
Qed.

Lemma version_pattern_search label body m :
  Re.re_search true (version_pattern label) body = Some m ->
  exists pre d1 d2 d3 rest,
    body = pre +:+ (d1 +:+ "." +:+ d2 +:+ "." +:+ d3) +:+ rest
    /\ Re.group1 m = d1 +:+ "." +:+ d2 +:+ "." +:+ d3
    /\ Spec.all_chars PyStr.isdigit d1 = true /\ d1 <> ""
    /\ Spec.all_chars PyStr.isdigit d2 = true /\ d2 <> ""
    /\ Spec.all_chars PyStr.isdigit d3 = true /\ d3 <> "".
Proof.
  intros H. apply re_search_inv in H as (p & t & -> & H).
  apply version_pattern_match in H
    as (pre & d1 & d2 & d3 & rest & -> & -> & Hd).
  exists (p +:+ pre), d1, d2, d3, rest.
  split; [rewrite !append_assoc; reflexivity|]. by split.
Qed.

End ExtractedVersion.

(** X19.  A version that [extract_version_from_body] finds is a piece of the
    body made of three non-empty runs of digits joined by full stops.  When
    no run has more than 4300 digits, its components read as three numbers
    that are not negative, so [compare_versions] does not fall back to 0 on
    its account; when a run has more, [int] refuses it and
    [compare_versions] answers 0 against every version. *)
Theorem extracted_version_is_numeric (body v : string) :
  ValidateVersion.extract_version_from_body body = Some v ->
  PyStr.contains v body = true
  /\ ValidateVersion.provided (Some v) = Some v
  /\ exists d1 d2 d3,
       v = d1 +:+ "." +:+ d2 +:+ "." +:+ d3
       /\ PyStr.split "." v = [d1; d2; d3]
       /\ (forall d, In d [d1; d2; d3] ->
           d <> "" /\ Spec.all_chars PyStr.isdigit d = true)
       /\ (Spec.components_within_limit v ->
           exists n1 n2 n3,
             0 <= n1 /\ 0 <= n2 /\ 0 <= n3
             /\ ValidateVersion.parts v = Some [n1; n2; n3])
       /\ (~ Spec.components_within_limit v ->
           ValidateVersion.parts v = None
           /\ forall other,
                ValidateVersion.compare_versions v other = 0
                /\ ValidateVersion.compare_versions other v = 0).
Proof.
  unfold ValidateVersion.extract_version_from_body.
  destruct (negb (PyStr.truthy body)); [done|].
  unfold ValidateVersion.patterns. cbn [ValidateVersion.first_match].
  intros H.
  assert (Hm : exists label m,
             Re.re_search true (ValidateVersion.version_pattern label) body
             = Some m /\ v = Re.group1 m).
  { repeat match type of H with
           | match ?x with _ => _ end = _ =>
               let E := fresh "E" in
               destruct x eqn:E; [injection H as <-; eauto|]
           end.
    done. }
  destruct Hm as (label & m & Hs & ->).
  apply version_pattern_search in Hs
    as (pre & d1 & d2 & d3 & rest & -> & -> & H1 & N1 & H2 & N2 & H3 & N3).
  split; [apply contains_append|]. split; [by destruct d1|].
  assert (Hsplit : PyStr.split "." (d1 +:+ "." +:+ d2 +:+ "." +:+ d3)
                   = [d1; d2; d3]).
  { change (d1 +:+ "." +:+ d2 +:+ "." +:+ d3)
      with (d1 +:+ String "." (d2 +:+ String "." d3)).
    by rewrite (split_digits_dot d1 _ H1), (split_digits_dot d2 _ H2),
      (split_digits d3 H3). }
  exists d1, d2, d3. split; [done|]. split; [done|]. split.
  { intros d [<-|[<-|[<-|[]]]]; by split. }
  unfold Spec.components_within_limit. rewrite Hsplit. split.
  - intros Hl.
    destruct (int_of_digits d1 H1 N1) as (n1 & P1 & I1);
      [apply Hl; by left|].
    destruct (int_of_digits d2 H2 N2) as (n2 & P2 & I2);
      [apply Hl; right; by left|].
    destruct (int_of_digits d3 H3 N3) as (n3 & P3 & I3);
      [apply Hl; right; right; by left|].
    exists n1, n2, n3. repeat split; try done.
    unfold ValidateVersion.parts. rewrite Hsplit.
    simpl. by rewrite I1, I2, I3.
  - intros Hl.
    assert (Hd : exists d, In d [d1; d2; d3]
                           /\ PyStr.int_max_str_digits < PyStr.count_digits d).
    { destruct (Z.ltb_spec PyStr.int_max_str_digits (PyStr.count_digits d1));
        [exists d1; split; [by left|done]|].
      destruct (Z.ltb_spec PyStr.int_max_str_digits (PyStr.count_digits d2));
        [exists d2; split; [right; by left|done]|].
      destruct (Z.ltb_spec PyStr.int_max_str_digits (PyStr.count_digits d3));
        [exists d3; split; [right; right; by left|done]|].
      destruct Hl. by intros d [<-|[<-|[<-|[]]]]. }
    destruct Hd as (d & Hin & Hd).
    assert (Hp : ValidateVersion.parts (d1 +:+ "." +:+ d2 +:+ "." +:+ d3)
                 = None).
    { apply (parts_non_numeric _ d); [by rewrite Hsplit|].
      by apply int_beyond_limit. }
    split; [done|]. intros other.
    rewrite !compare_versions_tuples, Hp. unfold Spec.compare_tuples.
    split; [done|]. by destruct (ValidateVersion.parts other).
Qed.

Lemma extracted_version_is_numeric_witness :
  let body := "client VERSION:   03.2.10.7 and more" in
  ValidateVersion.extract_version_from_body body = Some "03.2.10"
  /\ exists n1 n2 n3,
       0 <= n1 /\ 0 <= n2 /\ 0 <= n3
       /\ ValidateVersion.parts "03.2.10" = Some [n1; n2; n3].
Proof.
  intros body. split; [reflexivity|].
  destruct (proj2 (proj2 (extracted_version_is_numeric body "03.2.10" eq_refl)))
    as (d1 & d2 & d3 & _ & _ & _ & H & _).
  apply H. intros c Hc. simpl in Hc.
  repeat (destruct Hc as [<-|Hc]; [by vm_compute|]). destruct Hc.
Defined.

(** X20.  A version with a run of more than 4300 digits passes the version
    check, whatever the configured minimum and latest versions and on either
    path: both comparisons answer 0, so the decision is valid, acceptable and
    latest, carries no warning, and [main] exits with code 0. *)
Theorem overlong_version_passes_check
    (cfg : ValidateVersion.config) (title body v component : string) :
  ValidateVersion.extract_version_from_body body = Some v ->
  In component (PyStr.split "." v) ->
  PyStr.int_max_str_digits < PyStr.count_digits component ->
  let r := fst (ValidateVersion.main cfg title body) in
  ValidateVersion.valid r = true
  /\ ValidateVersion.is_acceptable r = true
  /\ ValidateVersion.is_latest r = true
  /\ ValidateVersion.warning_only r = false
  /\ ValidateVersion.message r
     = (if ValidateVersion.is_reactivation_request title body
           && ValidateVersion.cfg_allow_older_reactivations cfg
        then ValidateVersion.msg_reactivation_current v
        else ValidateVersion.msg_current v)
  /\ snd (ValidateVersion.main cfg title body) = 0.
Proof.
  intros Hv Hin Hd r. subst r.
  assert (Hp : ValidateVersion.parts v = None).
  { apply (parts_non_numeric _ component Hin). by apply int_beyond_limit. }
  assert (H0 : forall other, ValidateVersion.compare_versions v other = 0).
  { intros other. rewrite compare_versions_tuples, Hp. reflexivity. }
  assert (Hprov : ValidateVersion.provided (Some v) = Some v).
  { destruct (extracted_version_is_numeric body v Hv) as (_ & H & _).
    exact H. }
  unfold ValidateVersion.main. rewrite Hv.
  unfold ValidateVersion.validate_version. rewrite Hprov, !H0.
  destruct (ValidateVersion.is_reactivation_request title body
            && ValidateVersion.cfg_allow_older_reactivations cfg);
    simpl; by rewrite andb_false_r.
Qed.

Lemma overlong_version_passes_check_witness :
  let body := "Software Version: 0.0." +:+ Spec.repeated "0" 4301 in
  ValidateVersion.compare_versions "0.0.0" "3.2.4" = -1
  /\ ValidateVersion.extract_version_from_body body
     = Some ("0.0." +:+ Spec.repeated "0" 4301)
  /\ snd (ValidateVersion.main ValidateVersion.default_config
            "Auto-Activation Request - Acme Corp - AB12CD34EF56GH78" body)
     = 0.
Proof.
  intros body. split; [reflexivity|]. split; [by vm_compute|].
  apply (overlong_version_passes_check ValidateVersion.default_config
           "Auto-Activation Request - Acme Corp - AB12CD34EF56GH78" body
           ("0.0." +:+ Spec.repeated "0" 4301) (Spec.repeated "0" 4301)).
  - by vm_compute.
  - vm_compute. right. right. by left.
  - by vm_compute.
Defined.
